(** * Renesas Ethernet Switch para-virtualised backend (rswitch_xenback.c)

    A shallow embedding of the xenbus backend of the R-Switch
    para-virtualised queue driver: the attachment record
    [rswitch_vmq_back_info], probe / remove, connect / disconnect, the
    state machine [set_backend_state] and the frontend callback.

    The kernel services the driver calls (xenbus, event channels, the
    chain pool of rswitch.c, the netdev core) are modelled by a [world]
    that is threaded through every function: it holds the device, the heap
    cells the driver owns, the control store, the answers the fallible
    services will give, and the trace of service calls made so far. *)

From Stdlib Require Import Ascii String.
From stdpp Require Import gmap strings list pretty.

Open Scope Z_scope.

(** ** Kernel constants *)

Definition ENOENT : Z := 2.
Definition EAGAIN : Z := 11.
Definition ENOMEM : Z := 12.
Definition ENODEV : Z := 19.
Definition EINVAL : Z := 22.
Definition MAX_ERRNO : Z := 4095.

(* TODO in the source: get this from rswitch.c *)
Definition RSWITCH_BACK_BASE_INDEX : Z := 3.

(** ** Data model *)

(** [enum xenbus_state] of xen/interface/io/xenbus.h, in numeric order. *)
Inductive xenbus_state : Type :=
| XenbusStateUnknown
| XenbusStateInitialising
| XenbusStateInitWait
| XenbusStateInitialised
| XenbusStateConnected
| XenbusStateClosing
| XenbusStateClosed
| XenbusStateReconfiguring
| XenbusStateReconfigured.

#[global] Instance xenbus_state_eq_dec : EqDecision xenbus_state.
Proof. solve_decision. Defined.

(** The model has one cell per kind of heap object the driver allocates,
    so a pointer to such an object is either NULL or the address of the
    cell. *)
Inductive pointer : Type := Null | Addr.

#[global] Instance pointer_eq_dec : EqDecision pointer.
Proof. solve_decision. Defined.

(** [struct rswitch_device *]: NULL and the values [ERR_PTR(e)] are kept
    apart from the address of the registered device. [RdevRaw 0] is NULL. *)
Inductive rdev_ptr : Type :=
| RdevRaw (v : Z)
| RdevAddr.

Definition ERR_PTR (e : Z) : rdev_ptr := RdevRaw e.

(* IS_ERR_VALUE(x): (unsigned long)x >= (unsigned long)-MAX_ERRNO *)
Definition IS_ERR (p : rdev_ptr) : bool :=
  match p with
  | RdevRaw v => bool_decide (- MAX_ERRNO ≤ v ∧ v < 0)
  | RdevAddr => false
  end.

Definition PTR_ERR (p : rdev_ptr) : Z :=
  match p with
  | RdevRaw v => v
  | RdevAddr => 0
  end.

Definition rdev_is_null (p : rdev_ptr) : bool :=
  match p with
  | RdevRaw v => bool_decide (v = 0)
  | RdevAddr => false
  end.

(** The fields of [struct rswitch_gwca_chain] the backend touches. A
    chain's [index] is its position in the pool. *)
Record rswitch_gwca_chain : Type := {
  chain_used : bool;
  back_info : pointer;
  dir_tx : bool;
  chain_osid : Z
}.

(** The fields of [struct rswitch_device] the backend touches. *)
Record rswitch_device : Type := {
  port : Z;
  etha : pointer;
  remote_chain : Z;
  rdev_rx_chain_index : Z      (* rdev->rx_chain->index *)
}.

(** The fields of [struct rswitch_vmq_back_info] the backend writes or
    reads; its [state] field, which the backend never touches, is left
    out. *)
Record rswitch_vmq_back_info : Type := {
  name : string;
  dev : pointer;               (* the xenbus device the attachment is for *)
  rdev : rdev_ptr;
  frontend_state : xenbus_state;
  tx_chain : option nat;
  rx_chain : option nat;
  rswitch_priv : pointer;
  tx_evtchn : Z;
  rx_evtchn : Z;
  tx_irq : Z;
  rx_irq : Z;
  osid : Z;
  if_num : Z
}.

(* kzalloc: every field zero *)
Definition be_zero : rswitch_vmq_back_info :=
  {| name := EmptyString; dev := Null; rdev := RdevRaw 0;
     frontend_state := XenbusStateUnknown;
     tx_chain := None; rx_chain := None; rswitch_priv := Null;
     tx_evtchn := 0; rx_evtchn := 0; tx_irq := 0; rx_irq := 0;
     osid := 0; if_num := 0 |}.

Definition set_dev (v : pointer) (b : rswitch_vmq_back_info) :=
  {| name := name b; dev := v; rdev := rdev b; frontend_state := frontend_state b;
     tx_chain := tx_chain b; rx_chain := rx_chain b;
     rswitch_priv := rswitch_priv b; tx_evtchn := tx_evtchn b;
     rx_evtchn := rx_evtchn b; tx_irq := tx_irq b; rx_irq := rx_irq b;
     osid := osid b; if_num := if_num b |}.

Definition set_name (v : string) (b : rswitch_vmq_back_info) :=
  {| name := v; dev := dev b; rdev := rdev b; frontend_state := frontend_state b;
     tx_chain := tx_chain b; rx_chain := rx_chain b;
     rswitch_priv := rswitch_priv b; tx_evtchn := tx_evtchn b;
     rx_evtchn := rx_evtchn b; tx_irq := tx_irq b; rx_irq := rx_irq b;
     osid := osid b; if_num := if_num b |}.

Definition set_rdev (v : rdev_ptr) (b : rswitch_vmq_back_info) :=
  {| name := name b; dev := dev b; rdev := v; frontend_state := frontend_state b;
     tx_chain := tx_chain b; rx_chain := rx_chain b;
     rswitch_priv := rswitch_priv b; tx_evtchn := tx_evtchn b;
     rx_evtchn := rx_evtchn b; tx_irq := tx_irq b; rx_irq := rx_irq b;
     osid := osid b; if_num := if_num b |}.

Definition set_frontend_state (v : xenbus_state) (b : rswitch_vmq_back_info) :=
  {| name := name b; dev := dev b; rdev := rdev b; frontend_state := v;
     tx_chain := tx_chain b; rx_chain := rx_chain b;
     rswitch_priv := rswitch_priv b; tx_evtchn := tx_evtchn b;
     rx_evtchn := rx_evtchn b; tx_irq := tx_irq b; rx_irq := rx_irq b;
     osid := osid b; if_num := if_num b |}.

Definition set_tx_chain (v : option nat) (b : rswitch_vmq_back_info) :=
  {| name := name b; dev := dev b; rdev := rdev b; frontend_state := frontend_state b;
     tx_chain := v; rx_chain := rx_chain b;
     rswitch_priv := rswitch_priv b; tx_evtchn := tx_evtchn b;
     rx_evtchn := rx_evtchn b; tx_irq := tx_irq b; rx_irq := rx_irq b;
     osid := osid b; if_num := if_num b |}.

Definition set_rx_chain (v : option nat) (b : rswitch_vmq_back_info) :=
  {| name := name b; dev := dev b; rdev := rdev b; frontend_state := frontend_state b;
     tx_chain := tx_chain b; rx_chain := v;
     rswitch_priv := rswitch_priv b; tx_evtchn := tx_evtchn b;
     rx_evtchn := rx_evtchn b; tx_irq := tx_irq b; rx_irq := rx_irq b;
     osid := osid b; if_num := if_num b |}.

Definition set_rswitch_priv (v : pointer) (b : rswitch_vmq_back_info) :=
  {| name := name b; dev := dev b; rdev := rdev b; frontend_state := frontend_state b;
     tx_chain := tx_chain b; rx_chain := rx_chain b;
     rswitch_priv := v; tx_evtchn := tx_evtchn b;
     rx_evtchn := rx_evtchn b; tx_irq := tx_irq b; rx_irq := rx_irq b;
     osid := osid b; if_num := if_num b |}.

Definition set_tx_evtchn (v : Z) (b : rswitch_vmq_back_info) :=
  {| name := name b; dev := dev b; rdev := rdev b; frontend_state := frontend_state b;
     tx_chain := tx_chain b; rx_chain := rx_chain b;
     rswitch_priv := rswitch_priv b; tx_evtchn := v;
     rx_evtchn := rx_evtchn b; tx_irq := tx_irq b; rx_irq := rx_irq b;
     osid := osid b; if_num := if_num b |}.

Definition set_rx_evtchn (v : Z) (b : rswitch_vmq_back_info) :=
  {| name := name b; dev := dev b; rdev := rdev b; frontend_state := frontend_state b;
     tx_chain := tx_chain b; rx_chain := rx_chain b;
     rswitch_priv := rswitch_priv b; tx_evtchn := tx_evtchn b;
     rx_evtchn := v; tx_irq := tx_irq b; rx_irq := rx_irq b;
     osid := osid b; if_num := if_num b |}.

Definition set_tx_irq (v : Z) (b : rswitch_vmq_back_info) :=
  {| name := name b; dev := dev b; rdev := rdev b; frontend_state := frontend_state b;
     tx_chain := tx_chain b; rx_chain := rx_chain b;
     rswitch_priv := rswitch_priv b; tx_evtchn := tx_evtchn b;
     rx_evtchn := rx_evtchn b; tx_irq := v; rx_irq := rx_irq b;
     osid := osid b; if_num := if_num b |}.

Definition set_rx_irq (v : Z) (b : rswitch_vmq_back_info) :=
  {| name := name b; dev := dev b; rdev := rdev b; frontend_state := frontend_state b;
     tx_chain := tx_chain b; rx_chain := rx_chain b;
     rswitch_priv := rswitch_priv b; tx_evtchn := tx_evtchn b;
     rx_evtchn := rx_evtchn b; tx_irq := tx_irq b; rx_irq := v;
     osid := osid b; if_num := if_num b |}.

Definition set_osid (v : Z) (b : rswitch_vmq_back_info) :=
  {| name := name b; dev := dev b; rdev := rdev b; frontend_state := frontend_state b;
     tx_chain := tx_chain b; rx_chain := rx_chain b;
     rswitch_priv := rswitch_priv b; tx_evtchn := tx_evtchn b;
     rx_evtchn := rx_evtchn b; tx_irq := tx_irq b; rx_irq := rx_irq b;
     osid := v; if_num := if_num b |}.

Definition set_if_num (v : Z) (b : rswitch_vmq_back_info) :=
  {| name := name b; dev := dev b; rdev := rdev b; frontend_state := frontend_state b;
     tx_chain := tx_chain b; rx_chain := rx_chain b;
     rswitch_priv := rswitch_priv b; tx_evtchn := tx_evtchn b;
     rx_evtchn := rx_evtchn b; tx_irq := tx_irq b; rx_irq := rx_irq b;
     osid := osid b; if_num := v |}.

(** ** Service calls

    Every call the driver makes into the rest of the kernel that another
    party can see is recorded, in program order. *)
Inductive handler : Type := TxInterrupt | RxInterrupt.

Inductive event : Type :=
| EvSwitchState (s : xenbus_state)       (* xenbus_switch_state *)
| EvDevFatal (err : Z)                   (* xenbus_dev_fatal *)
| EvWarn                                 (* WARN_ON(1) *)
| EvGwcaGet (c : nat)                    (* rswitch_gwca_get, chain handed out *)
| EvGwcaPut (c : nat)                    (* rswitch_gwca_put *)
| EvBind (evtchn : Z) (h : handler) (ret : Z)
| EvUnbind (irq : Z)                     (* unbind_from_irqhandler *)
| EvNotify (evtchn : Z)                  (* notify_remote_via_evtchn *)
| EvChainRegister (c : nat) (flag : bool)
| EvXsStart (ret : Z)                    (* xenbus_transaction_start *)
| EvXsPrintf (path val : string) (ret : Z)
| EvXsEnd (abort : bool) (ret : Z)       (* xenbus_transaction_end *)
| EvRegisterNetdev (ret : Z)
| EvUnregisterNetdev
| EvRxdmacInit (ret : Z)
| EvTxdmacInit (ret : Z)
| EvRxdmacFree
| EvNapiAdd
| EvNapiDel
| EvFreeNetdev
| EvNdevUnregister (index : Z)           (* rswitch_ndev_unregister *)
| EvDeviceUnregister                     (* device_unregister *)
| EvKfree.

#[global] Instance handler_eq_dec : EqDecision handler.
Proof. solve_decision. Defined.

#[global] Instance event_eq_dec : EqDecision event.
Proof. solve_decision. Defined.

(** What is fixed about the xenbus device for its whole life. *)
Record device_config : Type := {
  nodename : string;       (* dev->nodename, the backend's own directory *)
  otherend : string;       (* dev->otherend, the frontend's directory *)
  otherend_id : Z;         (* dev->otherend_id *)
  online : bool;           (* what xenbus_dev_is_online answers *)
  rxdmac_chain : nat       (* the chain rswitch_rxdmac_init gives the rdev *)
}.

Record world : Type := {
  cfg : device_config;
  dev_state : xenbus_state;                  (* dev->state *)
  dev_drvdata : pointer;                     (* dev_get_drvdata(&dev->dev) *)
  be_cell : option rswitch_vmq_back_info;    (* the kzalloc'ed attachment *)
  rdev_cell : option rswitch_device;         (* netdev_priv of the netdev *)
  priv_rdev : gmap Z pointer;                (* priv->rdev[] *)
  chains : list rswitch_gwca_chain;          (* the chain pool *)
  xs : gmap string string;                   (* committed control store *)
  xbt : option (list (string * string));     (* writes of the open transaction *)
  xs_versions : list (gmap string string);   (* every store content made visible *)
  ext : list Z;                              (* answers of fallible services *)
  log : list event
}.

Definition set_dev_state (v : xenbus_state) (w : world) : world :=
  {| cfg := cfg w; dev_state := v; dev_drvdata := dev_drvdata w;
     be_cell := be_cell w; rdev_cell := rdev_cell w; priv_rdev := priv_rdev w;
     chains := chains w; xs := xs w; xbt := xbt w;
     xs_versions := xs_versions w; ext := ext w; log := log w |}.

Definition set_dev_drvdata (v : pointer) (w : world) : world :=
  {| cfg := cfg w; dev_state := dev_state w; dev_drvdata := v;
     be_cell := be_cell w; rdev_cell := rdev_cell w; priv_rdev := priv_rdev w;
     chains := chains w; xs := xs w; xbt := xbt w;
     xs_versions := xs_versions w; ext := ext w; log := log w |}.

Definition set_be_cell (v : option rswitch_vmq_back_info) (w : world) : world :=
  {| cfg := cfg w; dev_state := dev_state w; dev_drvdata := dev_drvdata w;
     be_cell := v; rdev_cell := rdev_cell w; priv_rdev := priv_rdev w;
     chains := chains w; xs := xs w; xbt := xbt w;
     xs_versions := xs_versions w; ext := ext w; log := log w |}.

Definition set_rdev_cell (v : option rswitch_device) (w : world) : world :=
  {| cfg := cfg w; dev_state := dev_state w; dev_drvdata := dev_drvdata w;
     be_cell := be_cell w; rdev_cell := v; priv_rdev := priv_rdev w;
     chains := chains w; xs := xs w; xbt := xbt w;
     xs_versions := xs_versions w; ext := ext w; log := log w |}.

Definition set_priv_rdev (v : gmap Z pointer) (w : world) : world :=
  {| cfg := cfg w; dev_state := dev_state w; dev_drvdata := dev_drvdata w;
     be_cell := be_cell w; rdev_cell := rdev_cell w; priv_rdev := v;
     chains := chains w; xs := xs w; xbt := xbt w;
     xs_versions := xs_versions w; ext := ext w; log := log w |}.

Definition set_chains (v : list rswitch_gwca_chain) (w : world) : world :=
  {| cfg := cfg w; dev_state := dev_state w; dev_drvdata := dev_drvdata w;
     be_cell := be_cell w; rdev_cell := rdev_cell w; priv_rdev := priv_rdev w;
     chains := v; xs := xs w; xbt := xbt w;
     xs_versions := xs_versions w; ext := ext w; log := log w |}.

Definition set_xbt (v : option (list (string * string))) (w : world) : world :=
  {| cfg := cfg w; dev_state := dev_state w; dev_drvdata := dev_drvdata w;
     be_cell := be_cell w; rdev_cell := rdev_cell w; priv_rdev := priv_rdev w;
     chains := chains w; xs := xs w; xbt := v;
     xs_versions := xs_versions w; ext := ext w; log := log w |}.

(* a commit replaces the visible store and records the new version *)
Definition set_xs (v : gmap string string) (w : world) : world :=
  {| cfg := cfg w; dev_state := dev_state w; dev_drvdata := dev_drvdata w;
     be_cell := be_cell w; rdev_cell := rdev_cell w; priv_rdev := priv_rdev w;
     chains := chains w; xs := v; xbt := xbt w;
     xs_versions := xs_versions w ++ [v]; ext := ext w; log := log w |}.

Definition set_ext (v : list Z) (w : world) : world :=
  {| cfg := cfg w; dev_state := dev_state w; dev_drvdata := dev_drvdata w;
     be_cell := be_cell w; rdev_cell := rdev_cell w; priv_rdev := priv_rdev w;
     chains := chains w; xs := xs w; xbt := xbt w;
     xs_versions := xs_versions w; ext := v; log := log w |}.

Definition add_log (e : event) (w : world) : world :=
  {| cfg := cfg w; dev_state := dev_state w; dev_drvdata := dev_drvdata w;
     be_cell := be_cell w; rdev_cell := rdev_cell w; priv_rdev := priv_rdev w;
     chains := chains w; xs := xs w; xbt := xbt w;
     xs_versions := xs_versions w; ext := ext w; log := log w ++ [e] |}.

(** ** The monad of driver code

    A driver function either returns a value, dereferences a pointer that
    does not point at a live object ([Oops]), or is still looping when the
    iteration budget of the model is used up ([OutOfFuel]). The world is
    kept in all three cases, so the trace of a run that never returns can
    still be inspected. *)
Inductive outcome (A : Type) : Type :=
| Val (a : A)
| Oops
| OutOfFuel.
Arguments Val {A} a.
Arguments Oops {A}.
Arguments OutOfFuel {A}.

Definition M (A : Type) : Type := world → outcome A * world.

#[global] Instance M_ret : MRet M := λ A a w, (Val a, w).

#[global] Instance M_bind : MBind M := λ A B f m w,
  match m w with
  | (Val a, w') => f a w'
  | (Oops, w') => (Oops, w')
  | (OutOfFuel, w') => (OutOfFuel, w')
  end.

Definition get_world : M world := λ w, (Val w, w).
Definition modify (f : world → world) : M unit := λ w, (Val tt, f w).
Definition emit (e : event) : M unit := modify (add_log e).
Definition oops {A : Type} : M A := λ w, (Oops, w).
Definition skip : M unit := mret tt.

(** The next answer of a fallible service; 0 once the list is used up.
    For a service that returns an int the answer is the value returned.
    For one that returns a pointer (kzalloc, rswitch_find_priv,
    alloc_etherdev_mqs) the answer 0 stands for the object and any other
    answer for NULL. *)
Definition pop_ext : M Z := λ w, (Val (hd 0 (ext w)), set_ext (tl (ext w)) w).

(** *** Heap access *)

Definition dev_get_drvdata : M pointer := λ w, (Val (dev_drvdata w), w).
Definition dev_set_drvdata (p : pointer) : M unit := modify (set_dev_drvdata p).

(* be->field *)
Definition load_be (p : pointer) : M rswitch_vmq_back_info := λ w,
  match p, be_cell w with
  | Addr, Some b => (Val b, w)
  | _, _ => (Oops, w)
  end.

(* be->field = v *)
Definition store_be (p : pointer)
    (f : rswitch_vmq_back_info → rswitch_vmq_back_info) : M unit :=
  b ← load_be p; modify (set_be_cell (Some (f b))).

Definition load_chain (c : option nat) : M rswitch_gwca_chain := λ w,
  match c with
  | Some i =>
      match chains w !! i with
      | Some ch => (Val ch, w)
      | None => (Oops, w)
      end
  | None => (Oops, w)
  end.

Definition chain_index (c : option nat) : M Z :=
  match c with
  | Some i => _ ← load_chain c; mret (Z.of_nat i)
  | None => oops
  end.

Definition store_chain (c : option nat)
    (f : rswitch_gwca_chain → rswitch_gwca_chain) : M unit :=
  ch ← load_chain c;
  match c with
  | Some i => modify (λ w, set_chains (<[i := f ch]> (chains w)) w)
  | None => oops
  end.

Definition load_rdev (p : rdev_ptr) : M rswitch_device := λ w,
  match p, rdev_cell w with
  | RdevAddr, Some r => (Val r, w)
  | _, _ => (Oops, w)
  end.

Definition store_rdev (p : rdev_ptr)
    (f : rswitch_device → rswitch_device) : M unit :=
  r ← load_rdev p; modify (set_rdev_cell (Some (f r))).

(** *** Event channels *)

(** Modelled from the spec: the notification channel of xen/events.h is
    not part of the sources; the spec gives unbind(handlerId). *)
Definition unbind_from_irqhandler (irq : Z) : M unit := emit (EvUnbind irq).

(** Modelled from the spec: signal(channelNumber) of the notification
    channel. *)
Definition notify_remote_via_evtchn (port : Z) : M unit := emit (EvNotify port).

(** Modelled from the spec: bind(peerId, channelNumber, handler) ->
    handlerId | error; the irq bound to the channel, or a negative errno. *)
Definition bind_interdomain_evtchn_to_irqhandler_lateeoi
    (evtchn : Z) (h : handler) : M Z :=
  r ← pop_ext; emit (EvBind evtchn h r);; mret r.

(** ** rswitch_vmq_back_disconnect *)

Definition rswitch_vmq_back_disconnect : M unit :=
  be ← dev_get_drvdata;
  b ← load_be be;
  (if bool_decide (rx_irq b ≠ 0) then unbind_from_irqhandler (rx_irq b)
   else skip);;
  b ← load_be be;
  (if bool_decide (tx_irq b ≠ 0) then unbind_from_irqhandler (tx_irq b)
   else skip);;
  store_be be (set_tx_irq 0);;
  store_be be (set_rx_irq 0).

(** ** rswitch_vmq_back_data_irq *)

Definition rswitch_vmq_back_data_irq (c : option nat) : M unit :=
  ch ← load_chain c;
  let be := back_info ch in
  b ← load_be be;
  notify_remote_via_evtchn (rx_evtchn b);;
  b ← load_be be;
  notify_remote_via_evtchn (tx_evtchn b).

(** ** The control store

    The xenbus client (xenbus_read_unsigned, xenbus_gather, xenbus_printf,
    xenbus_transaction_start / _end, xenbus_switch_state, xenbus_dev_fatal,
    xenbus_dev_is_online) is not part of the sources. The spec describes it
    as a hierarchical key/value name space whose values are decimal-integer
    strings, with atomic multi-key transactional writes. *)

Definition xs_path (dir node : string) : string := dir +:+ "/" +:+ node.

Definition digit_of (c : ascii) : option Z :=
  let n := Z.of_nat (nat_of_ascii c) in
  if bool_decide (48 ≤ n ∧ n ≤ 57) then Some (n - 48) else None.

Fixpoint parse_digits (acc : Z) (s : string) : option Z :=
  match s with
  | EmptyString => Some acc
  | String c s' =>
      match digit_of c with
      | Some d => parse_digits (10 * acc + d) s'
      | None => None
      end
  end.

(** Modelled from the spec: values are decimal-integer strings. "%u"
    reads a non-empty run of decimal digits, kept in 32 bits; anything else
    is malformed. *)
Definition parse_unsigned (s : string) : option Z :=
  match s with
  | EmptyString => None
  | _ => (λ v, v `mod` 2 ^ 32) <$> parse_digits 0 s
  end.

(* an unsigned int passed where the callee takes an int *)
Definition int_of_u32 (v : Z) : Z :=
  if bool_decide (v < 2 ^ 31) then v else v - 2 ^ 32.

Definition xs_read_unsigned (store : gmap string string) (dir node : string)
    : option Z :=
  store !! xs_path dir node ≫= parse_unsigned.

(** Modelled from the spec: xenbus_read_unsigned is not part of the
    sources. It yields the value of the key, or its third argument when the
    key is missing or malformed; its unsigned result has no room for an
    error. *)
Definition xenbus_read_unsigned (dir node : string) (default_val : Z) : M Z :=
  w ← get_world;
  mret (default default_val (xs_read_unsigned (xs w) dir node)).

Definition xs_scan (dir node : string) (store : gmap string string) : Z + Z :=
  match store !! xs_path dir node with
  | None => inl (- ENOENT)
  | Some s =>
      match parse_unsigned s with
      | None => inl (- EINVAL)
      | Some v => inr v
      end
  end.

(** Modelled from the spec: xenbus_gather(XBT_NIL, dir, n1, "%u", &v1,
    n2, "%u", &v2, NULL) is not part of the sources. It reads the keys in
    order and stops with an error at the first that is missing (-ENOENT)
    or malformed (-EINVAL). *)
Definition xenbus_gather (dir n1 n2 : string) : M (Z + Z * Z) :=
  w ← get_world;
  match xs_scan dir n1 (xs w) with
  | inl err => mret (inl err)
  | inr v1 =>
      match xs_scan dir n2 (xs w) with
      | inl err => mret (inl err)
      | inr v2 => mret (inr (v1, v2))
      end
  end.

(** Modelled from the spec: xenbus_dev_fatal reports a fatal error to
    the operator; it is not part of the sources. *)
Definition xenbus_dev_fatal (err : Z) : M unit := emit (EvDevFatal err).

(** Modelled from the spec: xenbus_switch_state is not part of the
    sources. It makes the given state the state of the device and
    publishes it. *)
Definition xenbus_switch_state (s : xenbus_state) : M unit :=
  modify (set_dev_state s);; emit (EvSwitchState s).

(** Modelled from the spec: xenbus_dev_is_online is not part of the
    sources. It tells whether local policy marks the device online. *)
Definition xenbus_dev_is_online : M bool :=
  w ← get_world; mret (online (cfg w)).

(** Modelled from the spec: xenbus_transaction_start is not part of the
    sources. It opens a transaction with no write, or fails. *)
Definition xenbus_transaction_start : M Z :=
  r ← pop_ext;
  emit (EvXsStart r);;
  (if bool_decide (r = 0) then modify (set_xbt (Some [])) else skip);;
  mret r.

(** Modelled from the spec: xenbus_printf is not part of the sources.
    Under a transaction it adds one write to the transaction, or fails;
    nothing becomes visible. *)
Definition xenbus_printf (dir node val : string) : M Z :=
  r ← pop_ext;
  emit (EvXsPrintf (xs_path dir node) val r);;
  (if bool_decide (r = 0)
   then modify (λ w, set_xbt ((λ l, l ++ [(xs_path dir node, val)]) <$> xbt w) w)
   else skip);;
  mret r.

Definition apply_writes (l : list (string * string))
    (store : gmap string string) : gmap string string :=
  foldl (λ m kv, <[kv.1 := kv.2]> m) store l.

Definition commit (w : world) : world :=
  match xbt w with
  | Some l => set_xbt None (set_xs (apply_writes l (xs w)) w)
  | None => w
  end.

(** Modelled from the spec: xenbus_transaction_end is not part of the
    sources. Multi-key publishes are atomic, all or nothing: the writes of
    the transaction become visible together when it ends without abort and
    without error (a conflict is the error -EAGAIN), and not at all
    otherwise. The result of an aborting end is ignored by the driver. *)
Definition xenbus_transaction_end (abort : bool) : M Z :=
  r ← (if abort then mret 0 else pop_ext);
  emit (EvXsEnd abort r);;
  (if abort || negb (bool_decide (r = 0)) then modify (set_xbt None)
   else modify commit);;
  mret r.

(** ** The chain pool

    rswitch_find_priv, rswitch_gwca_get, rswitch_gwca_put and
    rswitch_gwca_chain_register live in rswitch.c, which is not part of the
    sources. *)

Definition set_chain_used (v : bool) (c : rswitch_gwca_chain) :=
  {| chain_used := v; back_info := back_info c; dir_tx := dir_tx c;
     chain_osid := chain_osid c |}.

Definition set_back_info (v : pointer) (c : rswitch_gwca_chain) :=
  {| chain_used := chain_used c; back_info := v; dir_tx := dir_tx c;
     chain_osid := chain_osid c |}.

Definition set_dir_tx (v : bool) (c : rswitch_gwca_chain) :=
  {| chain_used := chain_used c; back_info := back_info c; dir_tx := v;
     chain_osid := chain_osid c |}.

Definition set_chain_osid (v : Z) (c : rswitch_gwca_chain) :=
  {| chain_used := chain_used c; back_info := back_info c; dir_tx := dir_tx c;
     chain_osid := v |}.

(** Modelled from the spec: rswitch_find_priv, the look-up of the shared
    hardware context, is not part of the sources; it may find none. *)
Definition rswitch_find_priv : M pointer :=
  r ← pop_ext; mret (if bool_decide (r = 0) then Addr else Null).

(** Modelled from the spec: rswitch_gwca_get is not part of the sources.
    acquire(ownerContext) -> Chain | none: the first chain of the pool
    that is not handed out, marked as handed out, or none. *)
Definition rswitch_gwca_get : M (option nat) :=
  w ← get_world;
  match list_find (λ c, chain_used c = false) (chains w) with
  | Some (i, c) =>
      modify (λ w, set_chains (<[i := set_chain_used true c]> (chains w)) w);;
      emit (EvGwcaGet i);;
      mret (Some i)
  | None => mret None
  end.

(** Modelled from the spec: rswitch_gwca_put is not part of the sources.
    release(Chain), idempotent on an already released handle. *)
Definition rswitch_gwca_put (c : option nat) : M unit :=
  store_chain c (set_chain_used false);;
  match c with
  | Some i => emit (EvGwcaPut i)
  | None => oops
  end.

(** Modelled from the spec: rswitch_gwca_chain_register is not part of
    the sources. It registers the chain with the datapath engine. *)
Definition rswitch_gwca_chain_register (c : option nat) (flag : bool) : M unit :=
  _ ← load_chain c;
  match c with
  | Some i => emit (EvChainRegister i flag)
  | None => oops
  end.

(** ** rswitch_vmq_back_connect *)

Definition set_remote_chain (v : Z) (r : rswitch_device) :=
  {| port := port r; etha := etha r; remote_chain := v;
     rdev_rx_chain_index := rdev_rx_chain_index r |}.

Definition rswitch_vmq_back_connect : M Z :=
  be ← dev_get_drvdata;
  w ← get_world;
  g ← xenbus_gather (otherend (cfg w)) "tx-evtch" "rx-evtch";
  match g with
  | inl err => xenbus_dev_fatal err;; mret err
  | inr (tx_evt, rx_evt) =>
      store_be be (set_tx_evtchn tx_evt);;
      store_be be (set_rx_evtchn rx_evt);;
      err ← bind_interdomain_evtchn_to_irqhandler_lateeoi tx_evt TxInterrupt;
      if bool_decide (err < 0) then xenbus_dev_fatal err;; mret err
      else
        store_be be (set_tx_irq err);;
        err ← bind_interdomain_evtchn_to_irqhandler_lateeoi rx_evt RxInterrupt;
        if bool_decide (err < 0) then xenbus_dev_fatal err;; mret err
        else
          store_be be (set_rx_irq err);;
          b ← load_be be;
          rswitch_gwca_chain_register (tx_chain b) false;;
          b ← load_be be;
          rswitch_gwca_chain_register (rx_chain b) true;;
          notify_remote_via_evtchn tx_evt;;
          notify_remote_via_evtchn rx_evt;;
          b ← load_be be;
          idx ← chain_index (rx_chain b);
          store_rdev (rdev b) (set_remote_chain idx);;
          mret 0
  end.

(** ** set_backend_state *)

Definition WARN_ON : M unit := emit EvWarn.

Definition out_of_fuel {A : Type} : M A := λ w, (OutOfFuel, w).

(** One iteration of the [while] loop. The result says whether the
    iteration left the function through [return]. *)
Definition set_backend_state_step (state : xenbus_state) : M bool :=
  w ← get_world;
  match dev_state w with
  | XenbusStateClosed =>
      match state with
      | XenbusStateInitWait
      | XenbusStateConnected =>
          xenbus_switch_state XenbusStateInitWait;; mret false
      | XenbusStateClosing =>
          xenbus_switch_state XenbusStateClosing;; mret false
      | _ => WARN_ON;; mret false
      end
  | XenbusStateInitWait
  | XenbusStateInitialised =>
      match state with
      | XenbusStateConnected =>
          err ← rswitch_vmq_back_connect;
          if bool_decide (err ≠ 0) then mret true
          else xenbus_switch_state XenbusStateConnected;; mret false
      | XenbusStateClosing
      | XenbusStateClosed =>
          xenbus_switch_state XenbusStateClosing;; mret false
      | _ => WARN_ON;; mret false
      end
  | XenbusStateConnected =>
      match state with
      | XenbusStateInitWait
      | XenbusStateClosing
      | XenbusStateClosed =>
          rswitch_vmq_back_disconnect;;
          xenbus_switch_state XenbusStateClosing;; mret false
      | _ => WARN_ON;; mret false
      end
  | XenbusStateClosing =>
      match state with
      | XenbusStateInitWait
      | XenbusStateConnected
      | XenbusStateClosed =>
          xenbus_switch_state XenbusStateClosed;; mret false
      | _ => WARN_ON;; mret false
      end
  | _ => WARN_ON;; mret false
  end.

(** [fuel] bounds the number of iterations of the [while] loop. *)
Fixpoint set_backend_state (fuel : nat) (state : xenbus_state) : M unit :=
  w ← get_world;
  if bool_decide (dev_state w = state) then mret tt
  else
    match fuel with
    | O => out_of_fuel
    | S fuel' =>
        returned ← set_backend_state_step state;
        if returned : bool then mret tt else set_backend_state fuel' state
    end.

(** ** rswitch_vmq_back_ndev_register

    The netdev core and the DMA set-up of rswitch.c are not part of the
    sources. Their calls answer through [ext] and are recorded in the
    trace. *)

Definition rdev_fresh : rswitch_device :=
  {| port := 0; etha := Null; remote_chain := 0; rdev_rx_chain_index := 0 |}.

Definition set_port (v : Z) (r : rswitch_device) :=
  {| port := v; etha := etha r; remote_chain := remote_chain r;
     rdev_rx_chain_index := rdev_rx_chain_index r |}.

Definition set_etha (v : pointer) (r : rswitch_device) :=
  {| port := port r; etha := v; remote_chain := remote_chain r;
     rdev_rx_chain_index := rdev_rx_chain_index r |}.

Definition set_rdev_rx_chain_index (v : Z) (r : rswitch_device) :=
  {| port := port r; etha := etha r; remote_chain := remote_chain r;
     rdev_rx_chain_index := v |}.

(* the netdev and its private area, or NULL *)
Definition alloc_etherdev_mqs : M rdev_ptr :=
  r ← pop_ext;
  if bool_decide (r = 0)
  then modify (set_rdev_cell (Some rdev_fresh));; mret RdevAddr
  else mret (RdevRaw 0).

Definition netif_napi_add : M unit := emit EvNapiAdd.
Definition netif_napi_del : M unit := emit EvNapiDel.
Definition unregister_netdev : M unit := emit EvUnregisterNetdev.
Definition rswitch_rxdmac_free : M unit := emit EvRxdmacFree.

Definition free_netdev : M unit :=
  modify (set_rdev_cell None);; emit EvFreeNetdev.

Definition register_netdev : M Z :=
  r ← pop_ext; emit (EvRegisterNetdev r);; mret r.

(** Modelled from the spec: rswitch_rxdmac_init is not part of the
    sources. On success the rdev owns a receive chain, whose index is the
    remote-chain identifier the probe publishes. *)
Definition rswitch_rxdmac_init (rdev : rdev_ptr) : M Z :=
  r ← pop_ext;
  emit (EvRxdmacInit r);;
  (if bool_decide (r < 0) then skip
   else
     w ← get_world;
     store_rdev rdev
       (set_rdev_rx_chain_index (Z.of_nat (rxdmac_chain (cfg w)))));;
  mret r.

Definition rswitch_txdmac_init : M Z :=
  r ← pop_ext; emit (EvTxdmacInit r);; mret r.

Definition out_reg_netdev (err : Z) : M rdev_ptr :=
  netif_napi_del;;
  free_netdev;;
  mret (ERR_PTR err).

Definition out_rxdmac (err : Z) : M rdev_ptr :=
  unregister_netdev;;
  out_reg_netdev err.

Definition out_txdmac (err : Z) : M rdev_ptr :=
  rswitch_rxdmac_free;;
  out_rxdmac err.

Definition rswitch_vmq_back_ndev_register (priv : pointer) (index : Z)
    : M rdev_ptr :=
  (* pdev = priv->pdev *)
  (if bool_decide (priv = Null) then oops else skip);;
  rdev ← alloc_etherdev_mqs;
  if rdev_is_null rdev then mret (ERR_PTR (- ENOMEM))
  else
    modify (λ w, set_priv_rdev
                   (<[RSWITCH_BACK_BASE_INDEX + index := Addr]> (priv_rdev w)) w);;
    store_rdev rdev (set_port 3);;
    store_rdev rdev (set_etha Null);;
    store_rdev rdev (set_remote_chain (-1));;
    netif_napi_add;;
    (* Network device register *)
    err ← register_netdev;
    if bool_decide (err ≠ 0) then out_reg_netdev err
    else
      err ← rswitch_rxdmac_init rdev;
      if bool_decide (err < 0) then out_rxdmac err
      else
        err ← rswitch_txdmac_init;
        if bool_decide (err < 0) then out_txdmac err
        else mret rdev.

(** ** rswitch_vmq_back_probe *)

(* the [fail:] label *)
Definition probe_fail (be : pointer) (err : Z) : M Z :=
  b ← load_be be;
  (if bool_decide (rx_chain b ≠ None) then rswitch_gwca_put (rx_chain b)
   else skip);;
  b ← load_be be;
  (if bool_decide (tx_chain b ≠ None) then rswitch_gwca_put (tx_chain b)
   else skip);;
  mret err.

(* the [abort_transaction:] label, which falls into [fail:] *)
Definition probe_abort_transaction (be : pointer) (err : Z) : M Z :=
  xenbus_transaction_end true;;
  xenbus_dev_fatal err;;
  probe_fail be err.

(** One round of the [do ... while (err == -EAGAIN)] loop and what
    follows the loop; [again] is the next round. *)
Definition probe_publish_round (be : pointer) (again : M Z) : M Z :=
  w ← get_world;
  let dir := nodename (cfg w) in
  err ← xenbus_transaction_start;
  if bool_decide (err ≠ 0) then probe_fail be err
  else
    b ← load_be be;
    idx ← chain_index (tx_chain b);
    err ← xenbus_printf dir "tx-chain-id" (pretty idx);
    if bool_decide (err ≠ 0) then probe_abort_transaction be err
    else
      b ← load_be be;
      idx ← chain_index (rx_chain b);
      err ← xenbus_printf dir "rx-chain-id" (pretty idx);
      if bool_decide (err ≠ 0) then probe_abort_transaction be err
      else
        b ← load_be be;
        r ← load_rdev (rdev b);
        err ← xenbus_printf dir "remote-chain-id"
                (pretty (rdev_rx_chain_index r));
        if bool_decide (err ≠ 0) then probe_abort_transaction be err
        else
          err ← xenbus_transaction_end false;
          if bool_decide (err = - EAGAIN) then again
          else if bool_decide (err ≠ 0) then
            xenbus_dev_fatal err;;
            probe_fail be err
          else
            xenbus_switch_state XenbusStateInitWait;;
            mret 0.

(** [fuel] bounds the number of rounds. *)
Fixpoint probe_publish (fuel : nat) (be : pointer) : M Z :=
  match fuel with
  | O => out_of_fuel
  | S fuel' => probe_publish_round be (probe_publish fuel' be)
  end.

(* kzalloc of the attachment, GFP_KERNEL *)
Definition kzalloc_be : M pointer :=
  r ← pop_ext;
  if bool_decide (r = 0)
  then modify (set_be_cell (Some be_zero));; mret Addr
  else mret Null.

Definition rswitch_vmq_back_probe (fuel : nat) : M Z :=
  be ← kzalloc_be;
  if bool_decide (be = Null) then
    xenbus_dev_fatal (- ENOMEM);;
    mret (- ENOMEM)
  else
    store_be be (set_dev Addr);;
    priv ← rswitch_find_priv;
    store_be be (set_rswitch_priv priv);;
    b ← load_be be;
    if bool_decide (rswitch_priv b = Null) then
      xenbus_dev_fatal (- ENODEV);;
      mret (- ENODEV)
    else
      c ← rswitch_gwca_get;
      store_be be (set_tx_chain c);;
      c ← rswitch_gwca_get;
      store_be be (set_rx_chain c);;
      b ← load_be be;
      if bool_decide (rx_chain b = None) || bool_decide (tx_chain b = None)
      then probe_fail be (- ENODEV)
      else
        store_chain (tx_chain b) (set_back_info be);;
        store_chain (rx_chain b) (set_back_info be);;
        store_chain (tx_chain b) (set_dir_tx true);;
        store_chain (rx_chain b) (set_dir_tx false);;
        dev_set_drvdata be;;
        w ← get_world;
        v ← xenbus_read_unsigned (otherend (cfg w)) "osid" 255;
        store_be be (set_osid v);;
        b ← load_be be;
        store_chain (tx_chain b) (set_chain_osid (osid b));;
        store_chain (rx_chain b) (set_chain_osid (osid b));;
        store_be be
          (set_name ("rswitch-vmq-osid" +:+ pretty (int_of_u32 (osid b))));;
        v ← xenbus_read_unsigned (otherend (cfg w)) "if-num" 255;
        store_be be (set_if_num v);;
        b ← load_be be;
        p ← rswitch_vmq_back_ndev_register (rswitch_priv b)
              (int_of_u32 (if_num b));
        store_be be (set_rdev p);;
        b ← load_be be;
        if IS_ERR (rdev b) then
          let err := PTR_ERR (rdev b) in
          xenbus_dev_fatal err;;
          mret err
        else probe_publish fuel be.

(** ** rswitch_vmq_back_remove *)

(** Modelled from the spec: rswitch_ndev_unregister,
    unregister(deviceHandle), is not part of the sources. *)
Definition rswitch_ndev_unregister (index : Z) : M unit :=
  emit (EvNdevUnregister index).

Definition kfree_be : M unit :=
  modify (set_be_cell None);; emit EvKfree.

Definition rswitch_vmq_back_remove : M Z :=
  be ← dev_get_drvdata;
  b ← load_be be;
  (if negb (rdev_is_null (rdev b)) then
     rswitch_vmq_back_disconnect;;
     b ← load_be be;
     rswitch_ndev_unregister
       ((RSWITCH_BACK_BASE_INDEX + if_num b) `mod` 2 ^ 32);;
     store_be be (set_rdev (RdevRaw 0))
   else skip);;
  b ← load_be be;
  (if bool_decide (rx_chain b ≠ None) then rswitch_gwca_put (rx_chain b)
   else skip);;
  b ← load_be be;
  (if bool_decide (tx_chain b ≠ None) then rswitch_gwca_put (tx_chain b)
   else skip);;
  kfree_be;;
  dev_set_drvdata Null;;
  mret 0.

(** ** rswitch_vmq_frontend_changed *)

(** Modelled from the spec: device_unregister is not part of the
    sources. The spec has it as the full unregistration of the local
    device, the full teardown: the bus runs the remove callback of the
    driver, rswitch_vmq_back_remove, on the device. *)
Definition device_unregister : M unit :=
  emit EvDeviceUnregister;;
  rswitch_vmq_back_remove;;
  mret tt.

Definition rswitch_vmq_frontend_changed (fuel : nat)
    (frontend : xenbus_state) : M unit :=
  be ← dev_get_drvdata;
  store_be be (set_frontend_state frontend);;
  match frontend with
  | XenbusStateInitialising =>
      set_backend_state fuel XenbusStateInitWait
  | XenbusStateInitialised
  | XenbusStateConnected =>
      set_backend_state fuel XenbusStateConnected
  | XenbusStateReconfiguring =>
      xenbus_switch_state XenbusStateReconfigured
  | XenbusStateClosing =>
      set_backend_state fuel XenbusStateClosing
  | XenbusStateClosed =>
      set_backend_state fuel XenbusStateClosed;;
      on ← xenbus_dev_is_online;
      if on : bool then mret tt
      else
        (* fallthrough, if not online *)
        set_backend_state fuel XenbusStateClosed;;
        device_unregister
  | XenbusStateUnknown =>
      set_backend_state fuel XenbusStateClosed;;
      device_unregister
  | _ => xenbus_dev_fatal (- EINVAL)
  end.

(** ** Concrete worlds used to exercise the model *)

Definition chain_free : rswitch_gwca_chain :=
  {| chain_used := false; back_info := Null; dir_tx := false; chain_osid := 0 |}.

Definition cfg0 : device_config :=
  {| nodename := "backend/renesas_vmq/1/0";
     otherend := "/local/domain/1/device/renesas_vmq/0";
     otherend_id := 1; online := false; rxdmac_chain := 7 |}.

(* a frontend directory as the toolstack and the frontend fill it *)
Definition xs0 : gmap string string :=
  <["/local/domain/1/device/renesas_vmq/0/osid" := "5"]>
  (<["/local/domain/1/device/renesas_vmq/0/if-num" := "2"]>
  (<["/local/domain/1/device/renesas_vmq/0/tx-evtch" := "11"]>
  (<["/local/domain/1/device/renesas_vmq/0/rx-evtch" := "12"]> ∅))).

(* before probe: device Initialising, a pool of three free chains *)
Definition world0 (store : gmap string string) (answers : list Z) : world :=
  {| cfg := cfg0; dev_state := XenbusStateInitialising; dev_drvdata := Null;
     be_cell := None; rdev_cell := None; priv_rdev := ∅;
     chains := [chain_free; chain_free; chain_free];
     xs := store; xbt := None; xs_versions := [store];
     ext := answers; log := [] |}.

(** * Vocabulary of the properties *)

(** ** The edge table of the state machine

    This definition follows the table of the specification, row by row;
    it is compared with [set_backend_state_step] below. *)
Inductive action : Type := ActNone | ActConnect | ActDisconnect.

Definition edge_table (current desired : xenbus_state)
    : option (action * xenbus_state) :=
  match current, desired with
  | XenbusStateClosed, (XenbusStateInitWait | XenbusStateConnected) =>
      Some (ActNone, XenbusStateInitWait)
  | XenbusStateClosed, XenbusStateClosing =>
      Some (ActNone, XenbusStateClosing)
  | (XenbusStateInitWait | XenbusStateInitialised), XenbusStateConnected =>
      Some (ActConnect, XenbusStateConnected)
  | (XenbusStateInitWait | XenbusStateInitialised),
    (XenbusStateClosing | XenbusStateClosed) =>
      Some (ActNone, XenbusStateClosing)
  | XenbusStateConnected,
    (XenbusStateInitWait | XenbusStateClosing | XenbusStateClosed) =>
      Some (ActDisconnect, XenbusStateClosing)
  | XenbusStateClosing,
    (XenbusStateInitWait | XenbusStateConnected | XenbusStateClosed) =>
      Some (ActNone, XenbusStateClosed)
  | _, _ => None
  end.

(** [table_edge s t]: some row of the table leads from [s] to [t]. *)
Definition table_edge (s t : xenbus_state) : Prop :=
  ∃ desired a, edge_table s desired = Some (a, t).

(** The states the device publishes, in order, in a piece of trace. *)
Definition published_state (e : event) : option xenbus_state :=
  match e with
  | EvSwitchState s => Some s
  | _ => None
  end.

Definition published (evs : list event) : list xenbus_state :=
  omap published_state evs.

(** Every change in a sequence of published states, starting from [s],
    goes along an edge of the table. *)
Fixpoint along_edges (s : xenbus_state) (l : list xenbus_state) : Prop :=
  match l with
  | [] => True
  | t :: l' => table_edge s t ∧ along_edges t l'
  end.

(** Peer-announced desired states handed to [set_backend_state] one after
    the other. A call that does not return ends the run. *)
Fixpoint run_desired (fuel : nat) (ds : list xenbus_state) : M unit :=
  match ds with
  | [] => mret tt
  | d :: ds' => set_backend_state fuel d;; run_desired fuel ds'
  end.

(** One iteration of the driver loop as the specification words it:
    look the pair up in the table, run the action of the row, publish the
    next state; report a pair that has no row. *)
Definition table_step (desired : xenbus_state) : M bool :=
  w ← get_world;
  match edge_table (dev_state w) desired with
  | Some (ActNone, next) =>
      xenbus_switch_state next;; mret false
  | Some (ActConnect, next) =>
      err ← rswitch_vmq_back_connect;
      if bool_decide (err ≠ 0) then mret true
      else xenbus_switch_state next;; mret false
  | Some (ActDisconnect, next) =>
      rswitch_vmq_back_disconnect;;
      xenbus_switch_state next;; mret false
  | None => WARN_ON;; mret false
  end.

(** The world a successful probe leaves, given the control store it
    found and the answers the services give after the probe. The probe
    itself uses eleven answers. *)
Definition attached (store : gmap string string) (answers : list Z) : world :=
  (rswitch_vmq_back_probe 1 (world0 store (replicate 11 0 ++ answers))).2.

(** ** Chains in a trace *)

(** The chains the pool handed out, and how often chain [c] was given
    back, in a piece of trace. *)
Definition acquired (evs : list event) : list nat :=
  omap (λ e, match e with EvGwcaGet c => Some c | _ => None end) evs.

Definition releases (c : nat) (evs : list event) : nat :=
  length (filter (λ e, e = EvGwcaPut c) evs).

Definition unbinds (evs : list event) : list Z :=
  omap (λ e, match e with EvUnbind irq => Some irq | _ => None end) evs.

(* an attachment whose channels are 11 and 12, and one chain that points
   back at it *)
Definition world_irq : world :=
  set_be_cell (Some (set_rx_evtchn 12 (set_tx_evtchn 11 be_zero)))
    (set_chains [set_back_info Addr chain_free] (world0 xs0 [])).

(** ** Frames *)

(** Service calls that neither publish a state nor touch the control
    store nor unregister the device. *)
Definition quiet_event (e : event) : bool :=
  match e with
  | EvSwitchState _ | EvXsStart _ | EvXsPrintf _ _ _ | EvXsEnd _ _
  | EvDeviceUnregister => false
  | _ => true
  end.

(** [keeps R m]: whatever way [m] ends, the world it leaves is related
    by [R] to the world it started in. *)
Definition keeps (R : world → world → Prop) {A : Type} (m : M A) : Prop :=
  ∀ w, R w (m w).2.

(** [reaches P m Q]: when [m] starts in a world of [P] and returns, the
    value and the world satisfy [Q]. *)
Definition reaches {A : Type} (P : world → Prop) (m : M A)
    (Q : A → world → Prop) : Prop :=
  ∀ w a w', P w → m w = (Val a, w') → Q a w'.

(** ** The publication of the chain identifiers *)

Definition publish_writes (dir : string) (tx rx : nat) (remote : Z)
    : list (string * string) :=
  [(xs_path dir "tx-chain-id", pretty (Z.of_nat tx));
   (xs_path dir "rx-chain-id", pretty (Z.of_nat rx));
   (xs_path dir "remote-chain-id", pretty remote)].

(** The control-store calls of one round that wrote everything and whose
    end returned [ret]. *)
Definition publish_round (writes : list (string * string)) (ret : Z)
    : list event :=
  EvXsStart 0 :: map (λ kv, EvXsPrintf kv.1 kv.2 0) writes
    ++ [EvXsEnd false ret].

Definition xs_event (e : event) : bool :=
  match e with
  | EvXsStart _ | EvXsPrintf _ _ _ | EvXsEnd _ _ => true
  | _ => false
  end.

Definition xs_events (evs : list event) : list event := filter xs_event evs.

(** The attachment, the local device and the configuration are as they
    were. *)
Definition same_attachment (w w1 : world) : Prop :=
  cfg w1 = cfg w ∧ be_cell w1 = be_cell w ∧ rdev_cell w1 = rdev_cell w.

(** ** What a failing Attach leaves behind *)

(** Service calls that neither move a chain in or out of the pool nor free
    the attachment. *)
Definition pool_quiet (e : event) : bool :=
  match e with
  | EvGwcaGet _ | EvGwcaPut _ | EvKfree => false
  | _ => true
  end.

(** [held w w']: from [w] to [w'] the attachment stayed allocated with
    the same chain pointers, the driver data stayed set if it was, and no
    chain moved. *)
Definition held (w w' : world) : Prop :=
  (∀ b, be_cell w = Some b →
        ∃ b', be_cell w' = Some b'
              ∧ tx_chain b' = tx_chain b ∧ rx_chain b' = rx_chain b)
  ∧ (dev_drvdata w = Addr → dev_drvdata w' = Addr)
  ∧ ∃ evs, log w' = log w ++ evs ∧ Forall pool_quiet evs.

Definition gets_of (c : option nat) : list event :=
  match c with
  | Some i => [EvGwcaGet i]
  | None => []
  end.

Definition puts_of (c : option nat) : list event :=
  match c with
  | Some i => [EvGwcaPut i]
  | None => []
  end.

(** How the part of the probe that follows dev_set_drvdata can return:
    straight (with 0, or with the error of a failed device registration),
    or through the [fail:] label. *)
Definition probe_exit (wd : world) (err : Z) (w' : world) : Prop :=
  (held wd w'
   ∧ (err = 0 ∨ ∃ b, be_cell w' = Some b ∧ IS_ERR (rdev b) = true))
  ∨ (∃ w1, held wd w1 ∧ probe_fail Addr err w1 = (Val err, w')).

(** ** Closing down *)

(** The five states of the table. *)
Definition machine_state (s : xenbus_state) : bool :=
  match s with
  | XenbusStateClosed | XenbusStateInitWait | XenbusStateInitialised
  | XenbusStateConnected | XenbusStateClosing => true
  | _ => false
  end.

(* the owner id is not a number, the interface index is missing *)
Definition xs_no_config : gmap string string :=
  <["/local/domain/1/device/renesas_vmq/0/osid" := "five"]> ∅.

(** [calm w w']: from [w] to [w'] the published state and the control
    store stayed as they were and only quiet calls were made. *)
Definition calm (w w' : world) : Prop :=
  cfg w' = cfg w ∧ dev_state w' = dev_state w ∧ xs w' = xs w ∧
  xs_versions w' = xs_versions w ∧
  ∃ evs, log w' = log w ++ evs ∧ Forall quiet_event evs.

(** [trace_ok w w']: the states published from [w] to [w'] follow the
    edge table, and the device is in the last of them. *)
Definition trace_ok (w w' : world) : Prop :=
  ∃ evs, log w' = log w ++ evs
         ∧ along_edges (dev_state w) (published evs)
         ∧ dev_state w' = default (dev_state w) (last (published evs)).

(** The unbind calls one Disconnect makes on an attachment. *)
Definition disconnect_unbinds (b : rswitch_vmq_back_info) : list event :=
  (if bool_decide (rx_irq b ≠ 0) then [EvUnbind (rx_irq b)] else []) ++
  (if bool_decide (tx_irq b ≠ 0) then [EvUnbind (tx_irq b)] else []).

Definition unbound (b : rswitch_vmq_back_info) : rswitch_vmq_back_info :=
  set_rx_irq 0 (set_tx_irq 0 b).

(** The Closing/Closed transition path: what the driver loop does, call
    by call, to take the device from state [s] to Closed, and the
    attachment it leaves. From Connected it first runs Disconnect. *)
Definition closing_path (s : xenbus_state) (b : rswitch_vmq_back_info)
    : list event :=
  match s with
  | XenbusStateInitWait | XenbusStateInitialised =>
      [EvSwitchState XenbusStateClosing; EvSwitchState XenbusStateClosed]
  | XenbusStateConnected =>
      disconnect_unbinds b
      ++ [EvSwitchState XenbusStateClosing; EvSwitchState XenbusStateClosed]
  | XenbusStateClosing => [EvSwitchState XenbusStateClosed]
  | _ => []
  end.

Definition after_closing (s : xenbus_state) (b : rswitch_vmq_back_info)
    : rswitch_vmq_back_info :=
  match s with
  | XenbusStateConnected => unbound b
  | _ => b
  end.


(** * Vocabulary of the further properties *)

(** ** Paths through the edge table *)

(** [hops n current desired]: the number of rows to follow from [current]
    to reach [desired], if at most [n] do. *)
Fixpoint hops (n : nat) (current desired : xenbus_state) : option nat :=
  if bool_decide (current = desired) then Some 0%nat
  else
    match n with
    | O => None
    | S n' =>
        match edge_table current desired with
        | Some (_, next) => S <$> hops n' next desired
        | None => None
        end
    end.

(** [finite m]: [m] never uses up the iteration budget. *)
Definition finite {A : Type} (m : M A) : Prop := ∀ w, (m w).1 ≠ OutOfFuel.

(** [registered w w']: from [w] to [w'] device_unregister was not called. *)
Definition registered (w w' : world) : Prop :=
  cfg w' = cfg w
  ∧ ∃ evs, log w' = log w ++ evs ∧ EvDeviceUnregister ∉ evs.

(** [mute w w']: from [w] to [w'] no state was published and the state of
    the device is as it was. *)
Definition mute (w w' : world) : Prop :=
  dev_state w' = dev_state w
  ∧ ∃ evs, log w' = log w ++ evs ∧ published evs = [].

(** How the probe can return: with 0 right after publishing InitWait, or
    with an error and nothing published. *)
Definition probe_result (w0 : world) (a : Z) (w' : world) : Prop :=
  (a = 0 ∧ ∃ w1, mute w0 w1
                 ∧ w' = add_log (EvSwitchState XenbusStateInitWait)
                          (set_dev_state XenbusStateInitWait w1))
  ∨ (a ≠ 0 ∧ mute w0 w').

(** ** Connect *)

(** The attachment after a Connect that read the channels [tx_evt] and
    [rx_evt] and bound them to [tx] and [rx]. *)
Definition connected_be (tx_evt rx_evt tx rx : Z) (b : rswitch_vmq_back_info)
    : rswitch_vmq_back_info :=
  set_rx_irq rx (set_tx_irq tx (set_rx_evtchn rx_evt (set_tx_evtchn tx_evt b))).

(** The service calls of a successful Connect, in order. *)
Definition connect_calls (tx_evt rx_evt tx rx : Z) (i j : nat) : list event :=
  [EvBind tx_evt TxInterrupt tx; EvBind rx_evt RxInterrupt rx;
   EvChainRegister i false; EvChainRegister j true;
   EvNotify tx_evt; EvNotify rx_evt].

(** What Connect needs to find: the attachment behind the driver data,
    its two chains in the pool, and its registered local device. *)
Definition connectable (w : world) (b : rswitch_vmq_back_info) (i j : nat) : Prop :=
  dev_drvdata w = Addr ∧ be_cell w = Some b
  ∧ tx_chain b = Some i ∧ rx_chain b = Some j
  ∧ is_Some (chains w !! i) ∧ is_Some (chains w !! j)
  ∧ rdev b = RdevAddr ∧ is_Some (rdev_cell w).

(** ** Remove *)

(** The service calls of Remove on an attachment: the teardown of the
    local device if the attachment has one, the release of the rx chain and
    of the tx chain if they are set, and the free of the attachment. *)
Definition remove_calls (b : rswitch_vmq_back_info) : list event :=
  (if rdev_is_null (rdev b) then []
   else disconnect_unbinds b
        ++ [EvNdevUnregister ((RSWITCH_BACK_BASE_INDEX + if_num b) `mod` 2 ^ 32)])
  ++ puts_of (rx_chain b) ++ puts_of (tx_chain b) ++ [EvKfree].

(** [k] is a chain of the attachment. *)
Definition chain_of (b : rswitch_vmq_back_info) (k : nat) : Prop :=
  rx_chain b = Some k ∨ tx_chain b = Some k.

(** Chain [k] is in the pool and not handed out. *)
Definition chain_is_free (w : world) (k : nat) : Prop :=
  (chain_used <$> chains w !! k) = Some false.

(** ** The registration of the local device *)

(** The call that undoes a set-up step of the registration, if the step
    succeeded and has one. *)
Definition ndev_undo (e : event) : list event :=
  match e with
  | EvNapiAdd => [EvNapiDel]
  | EvRegisterNetdev r => if bool_decide (r = 0) then [EvUnregisterNetdev] else []
  | EvRxdmacInit r => if bool_decide (r < 0) then [] else [EvRxdmacFree]
  | _ => []
  end.

Definition ndev_setup (e : event) : bool :=
  match e with
  | EvNapiAdd | EvRegisterNetdev _ | EvRxdmacInit _ | EvTxdmacInit _ => true
  | _ => false
  end.

(** ** What a successful Attach leaves *)

(** [settled w w']: from [w] to [w'] the chain pool and the driver data
    are the same, and the attachment kept its chains and its owner id. *)
Definition settled (w w' : world) : Prop :=
  chains w' = chains w ∧ dev_drvdata w' = dev_drvdata w
  ∧ ∀ b, be_cell w = Some b →
         ∃ b', be_cell w' = Some b' ∧ tx_chain b' = tx_chain b
               ∧ rx_chain b' = rx_chain b ∧ osid b' = osid b.

(** [steady w w']: the pool, the driver data, the attachment and the local
    device are the same. *)
Definition steady (w w' : world) : Prop :=
  chains w' = chains w ∧ dev_drvdata w' = dev_drvdata w
  ∧ be_cell w' = be_cell w ∧ rdev_cell w' = rdev_cell w.

(** Chain [k] is handed out, points back at the attachment, and carries
    the direction [tx] and the owner id [owner]. *)
Definition tagged (w : world) (k : nat) (tx : bool) (owner : Z) : Prop :=
  ∃ c, chains w !! k = Some c ∧ chain_used c = true ∧ back_info c = Addr
       ∧ dir_tx c = tx ∧ chain_osid c = owner.

(** The device carries the attachment [b], whose tx chain [i] and rx chain
    [j] are two chains of the pool tagged for it. *)
Definition wired (w : world) (b : rswitch_vmq_back_info) (i j : nat) : Prop :=
  dev_drvdata w = Addr ∧ be_cell w = Some b
  ∧ tx_chain b = Some i ∧ rx_chain b = Some j ∧ i ≠ j
  ∧ tagged w i true (osid b) ∧ tagged w j false (osid b).

(** The pool has at most one chain that is not handed out. *)
Definition short_pool (w : world) : Prop :=
  ∀ i j ci cj, i ≠ j → chains w !! i = Some ci → chains w !! j = Some cj →
               chain_used ci = true ∨ chain_used cj = true.

(** The pool calls of an Attach that finds a short pool: the one free
    chain, if there is one, is taken and given back. *)
Definition short_pool_calls (w : world) : list event :=
  match list_find (λ c, chain_used c = false) (chains w) with
  | Some (i, _) => [EvGwcaGet i; EvGwcaPut i]
  | None => []
  end.

(** ** The frontend callback *)

(** [noted w w']: from [w] to [w'] the attachment stayed allocated and
    kept the frontend state it has on record. *)
Definition noted (w w' : world) : Prop :=
  ∀ b, be_cell w = Some b →
       ∃ b', be_cell w' = Some b' ∧ frontend_state b' = frontend_state b.

(** * Properties *)

(** ** Running monadic code *)

Lemma bind_val {A B : Type} (m : M A) (f : A → M B) (w w1 : world) (a : A) :
  m w = (Val a, w1) → (m ≫= f) w = f a w1.
Proof. intros H. unfold mbind, M_bind. by rewrite H. Qed.

Lemma bind_oops {A B : Type} (m : M A) (f : A → M B) (w w1 : world) :
  m w = (Oops, w1) → (m ≫= f) w = (Oops, w1).
Proof. intros H. unfold mbind, M_bind. by rewrite H. Qed.

Lemma bind_out_of_fuel {A B : Type} (m : M A) (f : A → M B) (w w1 : world) :
  m w = (OutOfFuel, w1) → (m ≫= f) w = (OutOfFuel, w1).
Proof. intros H. unfold mbind, M_bind. by rewrite H. Qed.

Lemma load_be_val (w : world) (b : rswitch_vmq_back_info) :
  be_cell w = Some b → load_be Addr w = (Val b, w).
Proof. intros H. unfold load_be. by rewrite H. Qed.

Lemma store_be_val (w : world) (b : rswitch_vmq_back_info) f :
  be_cell w = Some b →
  store_be Addr f w = (Val tt, set_be_cell (Some (f b)) w).
Proof.
  intros H. unfold store_be.
  by rewrite (bind_val _ _ _ _ _ (load_be_val w b H)).
Qed.

(** ** Disconnect *)

Lemma disconnect_run (w : world) (b : rswitch_vmq_back_info) :
  dev_drvdata w = Addr →
  be_cell w = Some b →
  ∃ w1, rswitch_vmq_back_disconnect w = (Val tt, w1)
        ∧ log w1 = log w ++ disconnect_unbinds b
        ∧ be_cell w1 = Some (unbound b)
        ∧ dev_drvdata w1 = Addr
        ∧ dev_state w1 = dev_state w
        ∧ cfg w1 = cfg w
        ∧ ext w1 = ext w
        ∧ (disconnect_unbinds b = [] → tx_irq b = 0 ∧ rx_irq b = 0).
Proof.
  intros Hd Hb. destruct w as [c s d bc rc pr ch x xb xv e l].
  simpl in Hd, Hb. subst d bc.
  unfold rswitch_vmq_back_disconnect, disconnect_unbinds.
  destruct (bool_decide (rx_irq b ≠ 0)) eqn:Hrx;
    destruct (bool_decide (tx_irq b ≠ 0)) eqn:Htx;
    (eexists; split;
     [ cbv [mbind M_bind dev_get_drvdata load_be dev_drvdata be_cell];
       rewrite ?Hrx; cbv [mbind M_bind unbind_from_irqhandler emit modify
                          skip mret M_ret load_be be_cell add_log];
       rewrite ?Htx; reflexivity
     | simpl; rewrite <- ?app_assoc, ?app_nil_r; repeat split; try done ]).
  all: apply bool_decide_eq_false in Hrx, Htx; lia.
Qed.

(** Disconnect leaves the chain pool alone. *)
Lemma disconnect_run_pool (w : world) (b : rswitch_vmq_back_info) :
  dev_drvdata w = Addr →
  be_cell w = Some b →
  ∃ w1, rswitch_vmq_back_disconnect w = (Val tt, w1)
        ∧ log w1 = log w ++ disconnect_unbinds b
        ∧ be_cell w1 = Some (unbound b)
        ∧ dev_drvdata w1 = Addr
        ∧ dev_state w1 = dev_state w
        ∧ chains w1 = chains w.
Proof.
  intros Hd Hb. destruct w as [c s d bc rc pr ch x xb xv e l].
  simpl in Hd, Hb. subst d bc.
  unfold rswitch_vmq_back_disconnect, disconnect_unbinds.
  destruct (bool_decide (rx_irq b ≠ 0)) eqn:Hrx;
    destruct (bool_decide (tx_irq b ≠ 0)) eqn:Htx;
    (eexists; split;
     [ cbv [mbind M_bind dev_get_drvdata load_be dev_drvdata be_cell];
       rewrite ?Hrx; cbv [mbind M_bind unbind_from_irqhandler emit modify
                          skip mret M_ret load_be be_cell add_log];
       rewrite ?Htx; reflexivity
     | simpl; rewrite <- ?app_assoc, ?app_nil_r; done ]).
Qed.

(** C9. Disconnect unbinds the rx handler if it is bound, then the tx
    handler if it is bound, and sets both handler fields to 0, the unbound
    value. It returns normally, and a second Disconnect right after it
    finds both fields 0, calls no unbind and leaves everything as it is. *)
Theorem disconnect_idempotent (w : world) (b : rswitch_vmq_back_info) :
  dev_drvdata w = Addr →
  be_cell w = Some b →
  ∃ w1, rswitch_vmq_back_disconnect w = (Val tt, w1)
        ∧ log w1 = log w ++
            (if bool_decide (rx_irq b ≠ 0) then [EvUnbind (rx_irq b)] else []) ++
            (if bool_decide (tx_irq b ≠ 0) then [EvUnbind (tx_irq b)] else [])
        ∧ (tx_irq <$> be_cell w1) = Some 0
        ∧ (rx_irq <$> be_cell w1) = Some 0
        ∧ rswitch_vmq_back_disconnect w1 = (Val tt, w1)
        ∧ (rswitch_vmq_back_disconnect;; rswitch_vmq_back_disconnect) w
          = rswitch_vmq_back_disconnect w.
Proof.
  intros Hd Hb.
  destruct (disconnect_run w b Hd Hb) as (w1 & Hrun & Hlog & Hbe & Hd1 & _).
  assert (Hagain : rswitch_vmq_back_disconnect w1 = (Val tt, w1)).
  { destruct w1 as [c s d bc rc pr ch x xb xv e l].
    simpl in Hbe, Hd1. subst d bc. reflexivity. }
  exists w1. repeat split; try done.
  - by rewrite Hbe.
  - by rewrite Hbe.
  - rewrite (bind_val _ _ _ _ _ Hrun). by rewrite Hagain, Hrun.
Qed.

Lemma disconnect_idempotent_witness :
  ∃ w1, rswitch_vmq_back_disconnect
          (set_be_cell (Some (set_rx_irq 18 (set_tx_irq 17 be_zero)))
             (set_dev_drvdata Addr (world0 xs0 []))) = (Val tt, w1)
        ∧ log w1 = [EvUnbind 18; EvUnbind 17]
        ∧ rswitch_vmq_back_disconnect w1 = (Val tt, w1).
Proof.
  destruct (disconnect_idempotent
              (set_be_cell (Some (set_rx_irq 18 (set_tx_irq 17 be_zero)))
                 (set_dev_drvdata Addr (world0 xs0 [])))
              (set_rx_irq 18 (set_tx_irq 17 be_zero))
              eq_refl eq_refl) as (w1 & H1 & H2 & _ & _ & H3 & _).
  exists w1. repeat split; assumption.
Defined.

(** ** The datapath interrupt bridge *)

(** C10. Whatever the direction of the chain that raised it, every call of
    rswitch_vmq_back_data_irq signals the attachment's rx event channel and
    then its tx event channel, and does nothing else. *)
Theorem data_irq_notifies_both (w : world) (i : nat)
    (ch : rswitch_gwca_chain) (b : rswitch_vmq_back_info) :
  chains w !! i = Some ch →
  back_info ch = Addr →
  be_cell w = Some b →
  rswitch_vmq_back_data_irq (Some i) w
  = (Val tt, add_log (EvNotify (tx_evtchn b))
               (add_log (EvNotify (rx_evtchn b)) w)).
Proof.
  intros Hc Hbi Hb. unfold rswitch_vmq_back_data_irq.
  assert (Hl : load_chain (Some i) w = (Val ch, w)).
  { unfold load_chain. by rewrite Hc. }
  rewrite (bind_val _ _ _ _ _ Hl), Hbi.
  rewrite (bind_val _ _ _ _ _ (load_be_val w b Hb)).
  unfold notify_remote_via_evtchn, emit, modify.
  cbv [mbind M_bind]. unfold load_be. simpl. by rewrite Hb.
Qed.

Lemma data_irq_notifies_both_witness :
  rswitch_vmq_back_data_irq (Some 0%nat) world_irq
  = (Val tt, add_log (EvNotify 11) (add_log (EvNotify 12) world_irq)).
Proof.
  exact (data_irq_notifies_both world_irq 0 (set_back_info Addr chain_free)
           (set_rx_evtchn 12 (set_tx_evtchn 11 be_zero))
           eq_refl eq_refl eq_refl).
Defined.

(** ** Relations kept by driver code *)

Section Keeps.
Variable R : world → world → Prop.
Hypothesis R_refl : ∀ w, R w w.
Hypothesis R_trans : ∀ w1 w2 w3, R w1 w2 → R w2 w3 → R w1 w3.

Lemma keeps_ret {A : Type} (a : A) : keeps R (mret a).
Proof. intros w. apply R_refl. Qed.

Lemma keeps_oops {A : Type} : keeps R (@oops A).
Proof. intros w. apply R_refl. Qed.

Lemma keeps_out_of_fuel {A : Type} : keeps R (@out_of_fuel A).
Proof. intros w. apply R_refl. Qed.

Lemma keeps_get_world : keeps R get_world.
Proof. intros w. apply R_refl. Qed.

Lemma keeps_modify (f : world → world) :
  (∀ w, R w (f w)) → keeps R (modify f).
Proof. intros H w. apply H. Qed.

Lemma keeps_bind {A B : Type} (m : M A) (f : A → M B) :
  keeps R m → (∀ a, keeps R (f a)) → keeps R (m ≫= f).
Proof.
  intros Hm Hf w. unfold mbind, M_bind.
  specialize (Hm w). destruct (m w) as [[a | |] w1]; simpl in *; try done.
  eapply R_trans; [exact Hm | apply Hf].
Qed.
Lemma keeps_val {A : Type} (m : M A) (w w1 : world) (a : A) :
  keeps R m → m w = (Val a, w1) → R w w1.
Proof. intros Hm Hrun. specialize (Hm w). by rewrite Hrun in Hm. Qed.

Lemma reaches_bind_keeps {A B : Type} (w0 : world) (m : M A) (f : A → M B)
    (Q : B → world → Prop) :
  keeps R m →
  (∀ a, reaches (R w0) (f a) Q) →
  reaches (R w0) (m ≫= f) Q.
Proof.
  intros Hm Hf w b w' Hc Hrun. unfold mbind, M_bind in Hrun.
  specialize (Hm w). destruct (m w) as [[a | |] w1]; [| done | done].
  apply (Hf a w1 b w'); [| exact Hrun].
  eapply R_trans; [exact Hc | exact Hm].
Qed.
End Keeps.

(** ** [calm] is a preorder kept by everything but the state machine's
    own publications and the control-store transaction *)

Lemma calm_refl (w : world) : calm w w.
Proof.
  repeat split. exists []. by rewrite app_nil_r.
Qed.

Lemma calm_trans (w1 w2 w3 : world) : calm w1 w2 → calm w2 w3 → calm w1 w3.
Proof.
  intros (Hc & Hs & Hx & Hv & e1 & Hl1 & Hq1) (Hc' & Hs' & Hx' & Hv' & e2 & Hl2 & Hq2).
  repeat split; try congruence.
  exists (e1 ++ e2). split.
  - by rewrite Hl2, Hl1, app_assoc.
  - by apply Forall_app.
Qed.

Lemma calm_add_log (e : event) (w : world) :
  quiet_event e → calm w (add_log e w).
Proof.
  intros He. repeat split. exists [e]. split; [done | by constructor].
Qed.

Lemma calm_published (evs : list event) :
  Forall quiet_event evs → published evs = [].
Proof.
  induction 1 as [| e evs He _ IH]; [done |].
  unfold published in *. destruct e; simpl in *; done.
Qed.

#[local] Abbreviation calmly := (keeps calm).

Lemma calmly_ret {A : Type} (a : A) : calmly (mret a).
Proof. apply keeps_ret, calm_refl. Qed.

Lemma calmly_bind {A B : Type} (m : M A) (f : A → M B) :
  calmly m → (∀ a, calmly (f a)) → calmly (m ≫= f).
Proof. apply keeps_bind, calm_trans. Qed.

Lemma calmly_emit (e : event) : quiet_event e → calmly (emit e).
Proof. intros He. apply keeps_modify. intros w. by apply calm_add_log. Qed.

(** Solves [calmly m] by following the syntax of [m]. *)
Ltac calm_step :=
  first
    [ assumption
    | apply calmly_ret
    | apply (keeps_oops calm calm_refl)
    | apply (keeps_out_of_fuel calm calm_refl)
    | apply (keeps_get_world calm calm_refl)
    | apply calmly_emit; exact I
    | apply keeps_modify; intros ?; apply calm_refl
    | apply keeps_modify; intros ?; repeat split; exists []; by rewrite app_nil_r
    | apply calmly_bind; [| intros ?]
    | match goal with
      | |- keeps _ (match ?x with _ => _ end) => destruct x
      | |- keeps _ (let _ := _ in _) => cbv zeta
      end ].

Ltac calm_tac := repeat calm_step.

Lemma calmly_pop_ext : calmly pop_ext.
Proof. intros w. repeat split. exists []. by rewrite app_nil_r. Qed.

Lemma calmly_load_be (p : pointer) : calmly (load_be p).
Proof. intros w. unfold load_be. destruct p, (be_cell w); apply calm_refl. Qed.

Lemma calmly_store_be (p : pointer) f : calmly (store_be p f).
Proof. unfold store_be. pose proof (calmly_load_be p). calm_tac. Qed.

Lemma calmly_load_chain (c : option nat) : calmly (load_chain c).
Proof.
  intros w. unfold load_chain. destruct c as [i |]; [| apply calm_refl].
  destruct (chains w !! i); apply calm_refl.
Qed.

Lemma calmly_store_chain (c : option nat) f : calmly (store_chain c f).
Proof. unfold store_chain. pose proof (calmly_load_chain c). calm_tac. Qed.

Lemma calmly_chain_index (c : option nat) : calmly (chain_index c).
Proof. unfold chain_index. pose proof (calmly_load_chain c). calm_tac. Qed.

Lemma calmly_load_rdev (p : rdev_ptr) : calmly (load_rdev p).
Proof. intros w. unfold load_rdev. destruct p, (rdev_cell w); apply calm_refl. Qed.

Lemma calmly_store_rdev (p : rdev_ptr) f : calmly (store_rdev p f).
Proof. unfold store_rdev. pose proof (calmly_load_rdev p). calm_tac. Qed.

Lemma calmly_bind_evtchn (evtchn : Z) (h : handler) :
  calmly (bind_interdomain_evtchn_to_irqhandler_lateeoi evtchn h).
Proof.
  unfold bind_interdomain_evtchn_to_irqhandler_lateeoi.
  pose proof calmly_pop_ext. calm_tac.
Qed.

Lemma calmly_gather (dir n1 n2 : string) : calmly (xenbus_gather dir n1 n2).
Proof. unfold xenbus_gather. calm_tac. Qed.

Lemma calmly_read_unsigned (dir node : string) (d : Z) :
  calmly (xenbus_read_unsigned dir node d).
Proof. unfold xenbus_read_unsigned. calm_tac. Qed.

Lemma calmly_chain_register (c : option nat) (flag : bool) :
  calmly (rswitch_gwca_chain_register c flag).
Proof.
  unfold rswitch_gwca_chain_register. pose proof (calmly_load_chain c). calm_tac.
Qed.

Lemma calmly_gwca_get : calmly rswitch_gwca_get.
Proof. unfold rswitch_gwca_get. calm_tac. Qed.

Lemma calmly_gwca_put (c : option nat) : calmly (rswitch_gwca_put c).
Proof.
  unfold rswitch_gwca_put.
  pose proof (calmly_store_chain c (set_chain_used false)). calm_tac.
Qed.

Create HintDb calm.

#[local] Hint Resolve calmly_pop_ext calmly_load_be calmly_store_be
  calmly_load_chain calmly_store_chain calmly_chain_index calmly_load_rdev
  calmly_store_rdev calmly_bind_evtchn calmly_gather calmly_read_unsigned
  calmly_chain_register calmly_gwca_get calmly_gwca_put : calm.

Ltac calm_auto := repeat first [ solve [auto with calm] | calm_step ].

Lemma calmly_disconnect : calmly rswitch_vmq_back_disconnect.
Proof.
  unfold rswitch_vmq_back_disconnect, dev_get_drvdata, unbind_from_irqhandler,
    skip.
  calm_auto.
Qed.

Lemma calmly_connect : calmly rswitch_vmq_back_connect.
Proof.
  unfold rswitch_vmq_back_connect, dev_get_drvdata, xenbus_dev_fatal,
    notify_remote_via_evtchn.
  calm_auto.
Qed.

(** ** The state machine follows the edge table *)

Lemma step_refines_table (desired : xenbus_state) (w : world) :
  set_backend_state_step desired w = table_step desired w.
Proof.
  unfold set_backend_state_step, table_step.
  cbv [mbind M_bind get_world].
  destruct (dev_state w), desired; reflexivity.
Qed.

Lemma default_last_cons (s t : xenbus_state) (l : list xenbus_state) :
  default s (last (t :: l)) = default t (last l).
Proof. rewrite last_cons. by destruct (last l). Qed.

Lemma default_last_app (s : xenbus_state) (l1 l2 : list xenbus_state) :
  default s (last (l1 ++ l2)) = default (default s (last l1)) (last l2).
Proof. rewrite last_app. by destruct (last l2). Qed.

Lemma along_edges_app (l1 l2 : list xenbus_state) (s : xenbus_state) :
  along_edges s (l1 ++ l2)
  ↔ along_edges s l1 ∧ along_edges (default s (last l1)) l2.
Proof.
  revert s. induction l1 as [| t l1 IH]; intros s; simpl.
  - tauto.
  - rewrite IH, default_last_cons. tauto.
Qed.

Lemma trace_ok_refl (w : world) : trace_ok w w.
Proof. exists []. by rewrite app_nil_r. Qed.

Lemma trace_ok_trans (w1 w2 w3 : world) :
  trace_ok w1 w2 → trace_ok w2 w3 → trace_ok w1 w3.
Proof.
  intros (e1 & Hl1 & Ha1 & Hs1) (e2 & Hl2 & Ha2 & Hs2).
  exists (e1 ++ e2). unfold published in *. rewrite omap_app.
  split; [by rewrite Hl2, Hl1, app_assoc |].
  split.
  - apply along_edges_app. split; [done |]. by rewrite <- Hs1.
  - by rewrite default_last_app, <- Hs1.
Qed.

Lemma calm_trace_ok (w w' : world) : calm w w' → trace_ok w w'.
Proof.
  intros (_ & Hs & _ & _ & evs & Hl & Hq).
  exists evs. rewrite (calm_published evs Hq). done.
Qed.

Lemma switch_trace_ok (w : world) (t : xenbus_state) :
  table_edge (dev_state w) t → trace_ok w (xenbus_switch_state t w).2.
Proof. intros He. exists [EvSwitchState t]. done. Qed.

#[local] Abbreviation on_table := (keeps trace_ok).

Lemma on_table_calmly {A : Type} (m : M A) : keeps calm m → on_table m.
Proof. intros H w. apply calm_trace_ok, H. Qed.

Lemma on_table_step (desired : xenbus_state) :
  on_table (set_backend_state_step desired).
Proof.
  intros w. rewrite step_refines_table. unfold table_step.
  cbv [mbind M_bind get_world].
  destruct (edge_table (dev_state w) desired) as [[[| |] next] |] eqn:He.
  - (* no action *)
    apply (switch_trace_ok w next). by exists desired, ActNone.
  - (* Connect *)
    pose proof (calmly_connect w) as Hc.
    destruct (rswitch_vmq_back_connect w) as [[err | |] w1]; simpl in Hc;
      try (by apply calm_trace_ok).
    destruct (bool_decide (err ≠ 0)); [by apply calm_trace_ok |].
    eapply trace_ok_trans; [by apply calm_trace_ok |].
    apply (switch_trace_ok w1 next).
    destruct Hc as (_ & -> & _). by exists desired, ActConnect.
  - (* Disconnect *)
    pose proof (calmly_disconnect w) as Hc.
    destruct (rswitch_vmq_back_disconnect w) as [[[] | |] w1]; simpl in Hc;
      try (by apply calm_trace_ok).
    eapply trace_ok_trans; [by apply calm_trace_ok |].
    apply (switch_trace_ok w1 next).
    destruct Hc as (_ & -> & _). by exists desired, ActDisconnect.
  - (* no row: the warning *)
    apply calm_trace_ok, calm_add_log. exact I.
Qed.

Lemma on_table_set_backend_state (fuel : nat) (desired : xenbus_state) :
  on_table (set_backend_state fuel desired).
Proof.
  induction fuel as [| fuel IH]; simpl.
  - apply (keeps_bind _ trace_ok_trans); [apply (keeps_get_world _ trace_ok_refl) |].
    intros w. destruct (bool_decide _).
    + apply (keeps_ret _ trace_ok_refl).
    + apply (keeps_out_of_fuel _ trace_ok_refl).
  - apply (keeps_bind _ trace_ok_trans); [apply (keeps_get_world _ trace_ok_refl) |].
    intros w. destruct (bool_decide _); [apply (keeps_ret _ trace_ok_refl) |].
    apply (keeps_bind _ trace_ok_trans); [apply on_table_step |].
    intros [|]; [apply (keeps_ret _ trace_ok_refl) | apply IH].
Qed.

Lemma on_table_run_desired (fuel : nat) (ds : list xenbus_state) :
  on_table (run_desired fuel ds).
Proof.
  induction ds as [| d ds IH]; simpl.
  - apply (keeps_ret _ trace_ok_refl).
  - apply (keeps_bind _ trace_ok_trans);
      [apply on_table_set_backend_state | intros _; apply IH].
Qed.

Lemma connect_failure_stops (fuel : nat) (w w1 : world) (err : Z) :
  dev_state w = XenbusStateInitWait ∨ dev_state w = XenbusStateInitialised →
  rswitch_vmq_back_connect w = (Val err, w1) →
  err ≠ 0 →
  set_backend_state (S fuel) XenbusStateConnected w = (Val tt, w1)
  ∧ dev_state w1 = dev_state w.
Proof.
  intros Hs Hc Herr. split.
  - simpl. cbv [mbind M_bind get_world].
    rewrite bool_decide_eq_false_2 by (destruct Hs as [-> | ->]; discriminate).
    rewrite step_refines_table. unfold table_step.
    cbv [mbind M_bind get_world].
    replace (edge_table (dev_state w) XenbusStateConnected)
      with (Some (ActConnect, XenbusStateConnected))
      by (destruct Hs as [-> | ->]; reflexivity).
    rewrite Hc. by rewrite bool_decide_eq_true_2.
  - pose proof (calmly_connect w) as H. rewrite Hc in H.
    by destruct H as (_ & ? & _).
Qed.

(** C1. Whatever sequence of desired states is handed to
    set_backend_state, and whether or not every call returns, each state
    the backend publishes is reached from the state it was in along an edge
    of the table, and the device is left in the last published state. When
    Connect fails on the edge from InitWait or Initialised to Connected,
    set_backend_state returns at once and the state is the one it was. *)
Theorem set_backend_state_follows_table :
  (∀ (fuel : nat) (ds : list xenbus_state) (w : world),
     ∃ evs, log (run_desired fuel ds w).2 = log w ++ evs
            ∧ along_edges (dev_state w) (published evs)
            ∧ dev_state (run_desired fuel ds w).2
              = default (dev_state w) (last (published evs)))
  ∧ (∀ (fuel : nat) (w w1 : world) (err : Z),
       dev_state w = XenbusStateInitWait
       ∨ dev_state w = XenbusStateInitialised →
       rswitch_vmq_back_connect w = (Val err, w1) →
       err ≠ 0 →
       set_backend_state (S fuel) XenbusStateConnected w = (Val tt, w1)
       ∧ dev_state w1 = dev_state w).
Proof.
  split.
  - intros fuel ds w. apply (on_table_run_desired fuel ds w).
  - apply connect_failure_stops.
Qed.

Lemma set_backend_state_follows_table_witness :
  set_backend_state 1 XenbusStateConnected (attached xs0 [17; -16])
  = (Val tt, (rswitch_vmq_back_connect (attached xs0 [17; -16])).2)
  ∧ dev_state (rswitch_vmq_back_connect (attached xs0 [17; -16])).2
    = dev_state (attached xs0 [17; -16]).
Proof.
  destruct set_backend_state_follows_table as [_ H].
  apply (H 0%nat (attached xs0 [17; -16]) _ (-16)).
  - left. vm_compute. reflexivity.
  - vm_compute. reflexivity.
  - lia.
Defined.

(** ** The driver loop on a pair that has no row *)

Lemma set_backend_state_unfold (fuel : nat) (desired : xenbus_state) (w : world) :
  set_backend_state (S fuel) desired w
  = if bool_decide (dev_state w = desired) then (Val tt, w)
    else match set_backend_state_step desired w with
         | (Val true, w1) => (Val tt, w1)
         | (Val false, w1) => set_backend_state fuel desired w1
         | (Oops, w1) => (Oops, w1)
         | (OutOfFuel, w1) => (OutOfFuel, w1)
         end.
Proof.
  simpl. cbv [mbind M_bind get_world].
  destruct (bool_decide _); [done |].
  by destruct (set_backend_state_step desired w) as [[[|] | |] w1].
Qed.

Lemma set_backend_state_spins (fuel : nat) (desired : xenbus_state) (w : world) :
  dev_state w ≠ desired →
  edge_table (dev_state w) desired = None →
  ∃ w', set_backend_state fuel desired w = (OutOfFuel, w')
        ∧ dev_state w' = dev_state w
        ∧ log w' = log w ++ replicate fuel EvWarn.
Proof.
  revert w. induction fuel as [| fuel IH]; intros w Hne Hnone.
  - exists w. simpl. cbv [mbind M_bind get_world].
    rewrite bool_decide_eq_false_2 by done. by rewrite app_nil_r.
  - rewrite set_backend_state_unfold, bool_decide_eq_false_2 by done.
    rewrite step_refines_table. unfold table_step.
    cbv [mbind M_bind get_world]. rewrite Hnone.
    change ((WARN_ON w).1) with (@Val unit tt).
    change (WARN_ON w) with (@Val unit tt, add_log EvWarn w).
    cbv [mret M_ret].
    destruct (IH (add_log EvWarn w) Hne Hnone) as (w' & Hrun & Hs & Hl).
    exists w'. split; [done |]. split; [done |].
    rewrite Hl. simpl. by rewrite <- app_assoc.
Qed.

(** C6, at a pair that has no row: the backend published Reconfigured in
    answer to a reconfiguring frontend, and the frontend then closes. For
    every bound on the number of iterations the loop is still running when
    the bound is reached, the state is still Reconfigured, and every
    iteration has raised the warning. *)
Theorem set_backend_state_never_returns (fuel : nat) :
  let w := (rswitch_vmq_frontend_changed 1 XenbusStateReconfiguring
              (attached xs0 [])).2 in
  dev_state w = XenbusStateReconfigured
  ∧ ∃ w', set_backend_state fuel XenbusStateClosed w = (OutOfFuel, w')
          ∧ dev_state w' = XenbusStateReconfigured
          ∧ log w' = log w ++ replicate fuel EvWarn.
Proof.
  intros w.
  assert (Hs : dev_state w = XenbusStateReconfigured) by (vm_compute; reflexivity).
  clearbody w. split; [exact Hs |].
  destruct (set_backend_state_spins fuel XenbusStateClosed w) as (w' & H1 & H2 & H3).
  - rewrite Hs. discriminate.
  - rewrite Hs. reflexivity.
  - exists w'. split; [exact H1 |]. split; [| exact H3].
    rewrite H2. exact Hs.
Qed.

(** ** Connect after a failed rx bind *)

(** C2, at the failing input: the frontend's channels are 11 and 12, the
    tx bind yields irq 17, the rx bind fails with -EBUSY. Connect returns
    -16, no unbind has been called, and the attachment keeps tx_irq = 17
    next to rx_irq = 0. *)
Theorem connect_rx_bind_failure_keeps_tx_bound :
  let w := attached xs0 [17; -16] in
  let r := rswitch_vmq_back_connect w in
  r.1 = Val (-16)
  ∧ log r.2 = log w ++ [EvBind 11 TxInterrupt 17;
                        EvBind 12 RxInterrupt (-16);
                        EvDevFatal (-16)]
  ∧ unbinds (log r.2) = []
  ∧ (tx_irq <$> be_cell r.2) = Some 17
  ∧ (rx_irq <$> be_cell r.2) = Some 0.
Proof. vm_compute. done. Qed.

(** A second Connect on the same attachment binds the tx channel again
    and overwrites the irq that was left bound: irq 17 is never unbound. *)
Lemma connect_retry_loses_tx_irq :
  let w := attached xs0 [17; -16; 23; 24] in
  let r := (rswitch_vmq_back_connect;; rswitch_vmq_back_connect) w in
  r.1 = Val 0
  ∧ unbinds (log r.2) = []
  ∧ (tx_irq <$> be_cell r.2) = Some 23
  ∧ (rx_irq <$> be_cell r.2) = Some 24.
Proof. vm_compute. done. Qed.

(** ** Attach when registering the local device fails *)

(** The pool has free chains, the frontend directory is complete,
    register_netdev fails with -ENOMEM. The probe returns -12; the device's
    driver data still points at the attachment, which is still allocated
    and holds both chains, and both chains are still marked used in the
    pool. *)
Lemma probe_ndev_failure_keeps_attachment :
  let r := rswitch_vmq_back_probe 1 (world0 xs0 [0; 0; 0; -12]) in
  r.1 = Val (-12)
  ∧ dev_drvdata r.2 = Addr
  ∧ (tx_chain <$> be_cell r.2) = Some (Some 0%nat)
  ∧ (rx_chain <$> be_cell r.2) = Some (Some 1%nat)
  ∧ (rdev <$> be_cell r.2) = Some (ERR_PTR (-12))
  ∧ (chain_used <$> chains r.2) = [true; true; false].
Proof. vm_compute. done. Qed.

(** C3, at the failing input: the pool has free chains, the frontend
    directory is complete, the local device registers, and the control
    store refuses to start the transaction with -ENOMEM. The probe returns
    -12 through its fail label, which gives the two chains back and does
    nothing else. The attachment is not freed and the driver data of the
    device still points at it; it still holds the pointers to the two
    chains, which are back in the pool; and the local device registered in
    this call stays registered, with its slot in the switch's table still
    set: after register_netdev and the two DMA set-ups the trace has no
    unregistration and no free. *)
Theorem probe_transaction_failure_rolls_back_chains_only :
  let r := rswitch_vmq_back_probe 1 (world0 xs0 [0; 0; 0; 0; 0; 0; -12]) in
  r.1 = Val (-12)
  ∧ log r.2 = [EvGwcaGet 0; EvGwcaGet 1; EvNapiAdd; EvRegisterNetdev 0;
               EvRxdmacInit 0; EvTxdmacInit 0; EvXsStart (-12);
               EvGwcaPut 1; EvGwcaPut 0]
  ∧ dev_drvdata r.2 = Addr
  ∧ (tx_chain <$> be_cell r.2) = Some (Some 0%nat)
  ∧ (rx_chain <$> be_cell r.2) = Some (Some 1%nat)
  ∧ (rdev <$> be_cell r.2) = Some RdevAddr
  ∧ is_Some (rdev_cell r.2)
  ∧ priv_rdev r.2 !! (RSWITCH_BACK_BASE_INDEX + 2) = Some Addr
  ∧ (chain_used <$> chains r.2) = [false; false; false].
Proof. vm_compute. repeat split; eauto. Qed.

(** C4, at the same failing input: both chains were acquired and neither
    was released. *)
Theorem probe_ndev_failure_leaks_chains :
  let r := rswitch_vmq_back_probe 1 (world0 xs0 [0; 0; 0; -12]) in
  r.1 = Val (-12)
  ∧ acquired (log r.2) = [0; 1]%nat
  ∧ releases 0 (log r.2) = 0%nat
  ∧ releases 1 (log r.2) = 0%nat.
Proof. vm_compute. done. Qed.

(** The sibling paths of the probe do release what they acquired, once. *)
Lemma probe_transaction_failure_releases_once :
  let r := rswitch_vmq_back_probe 1 (world0 xs0 [0; 0; 0; 0; 0; 0; 0; 0; -12]) in
  r.1 = Val (-12)
  ∧ acquired (log r.2) = [0; 1]%nat
  ∧ releases 0 (log r.2) = 1%nat
  ∧ releases 1 (log r.2) = 1%nat.
Proof. vm_compute. done. Qed.

Lemma probe_pool_exhausted_releases_once :
  let r := rswitch_vmq_back_probe 1 (set_chains [chain_free] (world0 xs0 [])) in
  r.1 = Val (- ENODEV)
  ∧ acquired (log r.2) = [0]%nat
  ∧ releases 0 (log r.2) = 1%nat
  ∧ dev_drvdata r.2 = Null.
Proof. vm_compute. done. Qed.

(** A successful attach followed by Remove gives each chain back once. *)
Lemma attach_then_remove_releases_once :
  let r := (rswitch_vmq_back_probe 1 ≫= λ _, rswitch_vmq_back_remove)
             (world0 xs0 []) in
  r.1 = Val 0
  ∧ acquired (log r.2) = [0; 1]%nat
  ∧ releases 0 (log r.2) = 1%nat
  ∧ releases 1 (log r.2) = 1%nat
  ∧ be_cell r.2 = None ∧ dev_drvdata r.2 = Null.
Proof. vm_compute. done. Qed.

(** Remove skips a chain pointer that is NULL. *)
Lemma remove_skips_absent_chain :
  let w := set_be_cell (Some (set_tx_chain (Some 0%nat) be_zero))
             (set_dev_drvdata Addr
                (set_chains [set_chain_used true chain_free] (world0 xs0 []))) in
  let r := rswitch_vmq_back_remove w in
  r.1 = Val 0 ∧ log r.2 = [EvGwcaPut 0; EvKfree] ∧ be_cell r.2 = None
  ∧ dev_drvdata r.2 = Null.
Proof. vm_compute. done. Qed.

(** ** Attach when the owner id or the interface index is not there *)

Lemma probe_with_any_store (store : gmap string string) (fuel : nat) :
  let r := rswitch_vmq_back_probe (S fuel) (world0 store []) in
  r.1 = Val 0
  ∧ (osid <$> be_cell r.2)
    = Some (default 255 (xs_read_unsigned store (otherend cfg0) "osid"))
  ∧ (if_num <$> be_cell r.2)
    = Some (default 255 (xs_read_unsigned store (otherend cfg0) "if-num"))
  ∧ acquired (log r.2) = [0; 1]%nat
  ∧ releases 0 (log r.2) = 0%nat
  ∧ releases 1 (log r.2) = 0%nat
  ∧ published (log r.2) = [XenbusStateInitWait].
Proof.
  lazy -[xs_read_unsigned default]. done.
Qed.

(** C5, as the code has it. When the owner id or the interface index is
    missing from the frontend's directory, or is not a number, Attach does
    not fail for it: the attachment takes 255 for that value, keeps both
    chains, and Attach goes on to publish InitWait and return 0. *)
Theorem probe_missing_key_uses_default (store : gmap string string) (fuel : nat) :
  xs_read_unsigned store (otherend cfg0) "osid" = None
  ∨ xs_read_unsigned store (otherend cfg0) "if-num" = None →
  let r := rswitch_vmq_back_probe (S fuel) (world0 store []) in
  r.1 = Val 0
  ∧ (xs_read_unsigned store (otherend cfg0) "osid" = None →
     (osid <$> be_cell r.2) = Some 255)
  ∧ (xs_read_unsigned store (otherend cfg0) "if-num" = None →
     (if_num <$> be_cell r.2) = Some 255)
  ∧ acquired (log r.2) = [0; 1]%nat
  ∧ releases 0 (log r.2) = 0%nat
  ∧ releases 1 (log r.2) = 0%nat
  ∧ published (log r.2) = [XenbusStateInitWait].
Proof.
  intros _.
  destruct (probe_with_any_store store fuel) as (H1 & H2 & H3 & H4 & H5 & H6 & H7).
  cbv zeta in *.
  split; [exact H1 |].
  split; [intros Hn; rewrite H2, Hn; reflexivity |].
  split; [intros Hn; rewrite H3, Hn; reflexivity |].
  split; [exact H4 |]. split; [exact H5 |]. split; [exact H6 | exact H7].
Qed.

Lemma probe_missing_key_uses_default_witness :
  let r := rswitch_vmq_back_probe 1 (world0 xs_no_config []) in
  r.1 = Val 0
  ∧ (osid <$> be_cell r.2) = Some 255
  ∧ (if_num <$> be_cell r.2) = Some 255.
Proof.
  assert (H1 : xs_read_unsigned xs_no_config (otherend cfg0) "osid" = None)
    by (vm_compute; reflexivity).
  assert (H2 : xs_read_unsigned xs_no_config (otherend cfg0) "if-num" = None)
    by (vm_compute; reflexivity).
  destruct (probe_missing_key_uses_default xs_no_config 0 (or_introl H1))
    as (Hr & Ho & Hi & _).
  intros r. split; [exact Hr |]. split; [exact (Ho H1) | exact (Hi H2)].
Defined.

(** C5 as the specification words it fails: with both keys missing from the
    frontend's directory the probe returns 0, not an error, and releases
    neither chain. *)
Lemma probe_missing_keys_not_fatal :
  let w := world0 ∅ [] in
  let r := rswitch_vmq_back_probe 1 w in
  xs w !! xs_path (otherend (cfg w)) "osid" = None
  ∧ xs w !! xs_path (otherend (cfg w)) "if-num" = None
  ∧ ¬ (∃ err, err ≠ 0 ∧ r.1 = Val err)
  ∧ r.1 = Val 0
  ∧ acquired (log r.2) = [0; 1]%nat
  ∧ releases 0 (log r.2) = 0%nat
  ∧ releases 1 (log r.2) = 0%nat.
Proof.
  vm_compute. repeat split; try done.
  intros (err & Hne & Heq). by injection Heq as <-.
Qed.

(** ** Attach publishes the chain identifiers in one transaction *)

Lemma bind_inv {A B : Type} (m : M A) (f : A → M B) (w w' : world) (b : B) :
  (m ≫= f) w = (Val b, w') →
  ∃ a w1, m w = (Val a, w1) ∧ f a w1 = (Val b, w').
Proof.
  unfold mbind, M_bind. destruct (m w) as [[a | |] w1]; [eauto | done | done].
Qed.

Lemma load_be_inv (p : pointer) (w w1 : world) (b : rswitch_vmq_back_info) :
  load_be p w = (Val b, w1) → w1 = w ∧ be_cell w = Some b.
Proof.
  unfold load_be. destruct p; [done |].
  destruct (be_cell w); [| done]. by intros [= -> ->].
Qed.

Lemma load_rdev_inv (p : rdev_ptr) (w w1 : world) (r : rswitch_device) :
  load_rdev p w = (Val r, w1) → w1 = w ∧ rdev_cell w = Some r.
Proof.
  unfold load_rdev. destruct p; [done |].
  destruct (rdev_cell w); [| done]. by intros [= -> ->].
Qed.

Lemma chain_index_inv (c : option nat) (w w1 : world) (idx : Z) :
  chain_index c w = (Val idx, w1) →
  w1 = w ∧ ∃ i, c = Some i ∧ idx = Z.of_nat i.
Proof.
  unfold chain_index, load_chain. destruct c as [i |]; [| done].
  cbv [mbind M_bind mret M_ret]. destruct (chains w !! i); [| done].
  intros [= <- <-]. eauto.
Qed.

Lemma transaction_start_run (w : world) :
  ∃ w1, xenbus_transaction_start w = (Val (hd 0 (ext w)), w1)
        ∧ same_attachment w w1
        ∧ xs w1 = xs w ∧ xs_versions w1 = xs_versions w
        ∧ log w1 = log w ++ [EvXsStart (hd 0 (ext w))]
        ∧ (hd 0 (ext w) = 0 → xbt w1 = Some []).
Proof.
  unfold xenbus_transaction_start.
  cbv [mbind M_bind mret M_ret pop_ext emit modify skip].
  destruct (bool_decide (hd 0 (ext w) = 0)) eqn:Hd; eexists; split;
    try reflexivity; repeat split; try done.
  intros Hz. by rewrite bool_decide_eq_true_2 in Hd.
Qed.

Lemma printf_run (dir node val : string) (w : world) :
  ∃ w1, xenbus_printf dir node val w = (Val (hd 0 (ext w)), w1)
        ∧ same_attachment w w1
        ∧ xs w1 = xs w ∧ xs_versions w1 = xs_versions w
        ∧ log w1 = log w ++ [EvXsPrintf (xs_path dir node) val (hd 0 (ext w))]
        ∧ (hd 0 (ext w) = 0 →
           xbt w1 = (λ l, l ++ [(xs_path dir node, val)]) <$> xbt w).
Proof.
  unfold xenbus_printf.
  cbv [mbind M_bind mret M_ret pop_ext emit modify skip].
  destruct (bool_decide (hd 0 (ext w) = 0)) eqn:Hd; eexists; split;
    try reflexivity; repeat split; try done.
  intros Hz. by rewrite bool_decide_eq_true_2 in Hd.
Qed.

Lemma commit_same (w : world) :
  same_attachment w (commit w) ∧ log (commit w) = log w
  ∧ dev_state (commit w) = dev_state w.
Proof. unfold commit, same_attachment. by destruct (xbt w). Qed.

Lemma commit_store (w : world) (l : list (string * string)) :
  xbt w = Some l →
  xs (commit w) = apply_writes l (xs w)
  ∧ xs_versions (commit w) = xs_versions w ++ [xs (commit w)].
Proof. unfold commit. by intros ->. Qed.

Lemma transaction_end_run (w : world) :
  ∃ w1, xenbus_transaction_end false w = (Val (hd 0 (ext w)), w1)
        ∧ same_attachment w w1
        ∧ dev_state w1 = dev_state w
        ∧ log w1 = log w ++ [EvXsEnd false (hd 0 (ext w))]
        ∧ (hd 0 (ext w) ≠ 0 →
           xs w1 = xs w ∧ xs_versions w1 = xs_versions w)
        ∧ (hd 0 (ext w) = 0 → ∀ l, xbt w = Some l →
           xs w1 = apply_writes l (xs w)
           ∧ xs_versions w1 = xs_versions w ++ [xs w1]).
Proof.
  unfold xenbus_transaction_end.
  cbv [mbind M_bind mret M_ret pop_ext emit modify skip orb negb].
  destruct (bool_decide (hd 0 (ext w) = 0)) eqn:Hd.
  - apply bool_decide_eq_true in Hd.
    eexists. split; [reflexivity |].
    set (w0 := add_log _ _).
    destruct (commit_same w0) as (Hsame & Hlog & Hst).
    split; [exact Hsame |]. split; [exact Hst |]. split; [exact Hlog |].
    split; [done |].
    intros _ l Hl. apply (commit_store w0 l Hl).
  - apply bool_decide_eq_false in Hd.
    eexists. split; [reflexivity |].
    split; [done |]. split; [done |]. split; [done |]. split; [done |].
    done.
Qed.

Lemma probe_fail_val (be : pointer) (err a : Z) (w w' : world) :
  probe_fail be err w = (Val a, w') → a = err.
Proof.
  unfold probe_fail. intros H.
  apply bind_inv in H as (? & ? & _ & H).
  apply bind_inv in H as (? & ? & _ & H).
  apply bind_inv in H as (? & ? & _ & H).
  apply bind_inv in H as (? & ? & _ & H).
  by injection H as <- _.
Qed.

Lemma probe_abort_transaction_val (be : pointer) (err a : Z) (w w' : world) :
  probe_abort_transaction be err w = (Val a, w') → a = err.
Proof.
  unfold probe_abort_transaction. intros H.
  apply bind_inv in H as (? & ? & _ & H).
  apply bind_inv in H as (? & ? & _ & H).
  by apply probe_fail_val in H.
Qed.

Lemma same_attachment_trans (w1 w2 w3 : world) :
  same_attachment w1 w2 → same_attachment w2 w3 → same_attachment w1 w3.
Proof. unfold same_attachment. intros (? & ? & ?) (? & ? & ?). repeat split; congruence. Qed.

Lemma publish_round_cases (again : M Z) (w w' : world) :
  probe_publish_round Addr again w = (Val 0, w') →
  ∃ b r tx rx,
    be_cell w = Some b ∧ tx_chain b = Some tx ∧ rx_chain b = Some rx
    ∧ rdev_cell w = Some r
    ∧ ((∃ wc, again wc = (Val 0, w')
              ∧ same_attachment w wc
              ∧ xs wc = xs w ∧ xs_versions wc = xs_versions w
              ∧ log wc = log w ++ publish_round
                           (publish_writes (nodename (cfg w)) tx rx
                              (rdev_rx_chain_index r)) (- EAGAIN))
       ∨ (same_attachment w w'
          ∧ xs w' = apply_writes
                      (publish_writes (nodename (cfg w)) tx rx
                         (rdev_rx_chain_index r)) (xs w)
          ∧ xs_versions w' = xs_versions w ++ [xs w']
          ∧ log w' = log w ++ publish_round
                       (publish_writes (nodename (cfg w)) tx rx
                          (rdev_rx_chain_index r)) 0
                     ++ [EvSwitchState XenbusStateInitWait])).
Proof.
  intros H. unfold probe_publish_round in H.
  apply bind_inv in H as (w0 & w0' & Hg & H). injection Hg as <- <-.
  cbv zeta in H.
  (* start *)
  destruct (transaction_start_run w) as (w1 & Hrun & Hsa1 & Hxs1 & Hv1 & Hl1 & Hx1).
  rewrite (bind_val _ _ _ _ _ Hrun) in H. clear Hrun.
  destruct (bool_decide (hd 0 (ext w) ≠ 0)) eqn:E1;
    [apply probe_fail_val in H; apply bool_decide_eq_true in E1; congruence |].
  apply bool_decide_eq_false in E1.
  assert (Hr1 : hd 0 (ext w) = 0) by lia. clear E1.
  rewrite Hr1 in Hl1. specialize (Hx1 Hr1).
  (* tx-chain-id *)
  apply bind_inv in H as (b1 & ? & Hb & H). apply load_be_inv in Hb as [-> Hb1].
  apply bind_inv in H as (? & ? & Hi & H).
  apply chain_index_inv in Hi as [-> (tx & Htx & ->)].
  destruct (printf_run (nodename (cfg w)) "tx-chain-id" (pretty (Z.of_nat tx)) w1)
    as (w2 & Hrun & Hsa2 & Hxs2 & Hv2 & Hl2 & Hx2).
  rewrite (bind_val _ _ _ _ _ Hrun) in H. clear Hrun.
  destruct (bool_decide (hd 0 (ext w1) ≠ 0)) eqn:E2;
    [apply probe_abort_transaction_val in H; apply bool_decide_eq_true in E2;
     congruence |].
  apply bool_decide_eq_false in E2.
  assert (Hr2 : hd 0 (ext w1) = 0) by lia. clear E2.
  rewrite Hr2 in Hl2. specialize (Hx2 Hr2).
  (* rx-chain-id *)
  apply bind_inv in H as (b2 & ? & Hb & H). apply load_be_inv in Hb as [-> Hb2].
  apply bind_inv in H as (? & ? & Hi & H).
  apply chain_index_inv in Hi as [-> (rx & Hrx & ->)].
  destruct (printf_run (nodename (cfg w)) "rx-chain-id" (pretty (Z.of_nat rx)) w2)
    as (w3 & Hrun & Hsa3 & Hxs3 & Hv3 & Hl3 & Hx3).
  rewrite (bind_val _ _ _ _ _ Hrun) in H. clear Hrun.
  destruct (bool_decide (hd 0 (ext w2) ≠ 0)) eqn:E3;
    [apply probe_abort_transaction_val in H; apply bool_decide_eq_true in E3;
     congruence |].
  apply bool_decide_eq_false in E3.
  assert (Hr3 : hd 0 (ext w2) = 0) by lia. clear E3.
  rewrite Hr3 in Hl3. specialize (Hx3 Hr3).
  (* remote-chain-id *)
  apply bind_inv in H as (b3 & ? & Hb & H). apply load_be_inv in Hb as [-> Hb3].
  apply bind_inv in H as (r & ? & Hr & H). apply load_rdev_inv in Hr as [-> Hrd].
  destruct (printf_run (nodename (cfg w)) "remote-chain-id"
              (pretty (rdev_rx_chain_index r)) w3)
    as (w4 & Hrun & Hsa4 & Hxs4 & Hv4 & Hl4 & Hx4).
  rewrite (bind_val _ _ _ _ _ Hrun) in H. clear Hrun.
  destruct (bool_decide (hd 0 (ext w3) ≠ 0)) eqn:E4;
    [apply probe_abort_transaction_val in H; apply bool_decide_eq_true in E4;
     congruence |].
  apply bool_decide_eq_false in E4.
  assert (Hr4 : hd 0 (ext w3) = 0) by lia. clear E4.
  rewrite Hr4 in Hl4. specialize (Hx4 Hr4).
  (* the attachment read in the three steps is the one of [w] *)
  pose proof (same_attachment_trans _ _ _ Hsa1 Hsa2) as Hsa12.
  pose proof (same_attachment_trans _ _ _ Hsa12 Hsa3) as Hsa13.
  pose proof (same_attachment_trans _ _ _ Hsa13 Hsa4) as Hsa14.
  assert (Hbw : be_cell w = Some b1) by (destruct Hsa1 as (_ & <- & _); done).
  assert (b2 = b1) as ->.
  { destruct Hsa12 as (_ & Hbe & _). rewrite Hbe, Hbw in Hb2. by injection Hb2. }
  assert (b3 = b1) as ->.
  { destruct Hsa13 as (_ & Hbe & _). rewrite Hbe, Hbw in Hb3. by injection Hb3. }
  assert (Hrw : rdev_cell w = Some r).
  { destruct Hsa13 as (_ & _ & Hrc). by rewrite <- Hrc. }
  assert (Hxbt : xbt w4 = Some (publish_writes (nodename (cfg w)) tx rx
                                  (rdev_rx_chain_index r))).
  { rewrite Hx4, Hx3, Hx2, Hx1. reflexivity. }
  assert (Hlog4 : log w4 = log w ++
            [EvXsStart 0;
             EvXsPrintf (xs_path (nodename (cfg w)) "tx-chain-id")
               (pretty (Z.of_nat tx)) 0;
             EvXsPrintf (xs_path (nodename (cfg w)) "rx-chain-id")
               (pretty (Z.of_nat rx)) 0;
             EvXsPrintf (xs_path (nodename (cfg w)) "remote-chain-id")
               (pretty (rdev_rx_chain_index r)) 0]).
  { rewrite Hl4, Hl3, Hl2, Hl1. by rewrite <- !app_assoc. }
  (* end *)
  destruct (transaction_end_run w4)
    as (w5 & Hrun & Hsa5 & Hst5 & Hl5 & Hne5 & Hz5).
  rewrite (bind_val _ _ _ _ _ Hrun) in H. clear Hrun.
  pose proof (same_attachment_trans _ _ _ Hsa14 Hsa5) as Hsa15.
  exists b1, r, tx, rx. do 4 (split; [done |]).
  destruct (bool_decide (hd 0 (ext w4) = - EAGAIN)) eqn:E5.
  - (* conflict: the next round *)
    apply bool_decide_eq_true in E5. left. exists w5.
    destruct Hne5 as [Hxs5 Hv5]; [rewrite E5; done |].
    split; [exact H |]. split; [exact Hsa15 |].
    split; [congruence |]. split; [congruence |].
    rewrite Hl5, Hlog4, E5. by rewrite <- app_assoc.
  - destruct (bool_decide (hd 0 (ext w4) ≠ 0)) eqn:E6.
    + apply bind_inv in H as (? & ? & _ & H).
      apply probe_fail_val in H. apply bool_decide_eq_true in E6. congruence.
    + apply bool_decide_eq_false in E6.
      assert (Hr5 : hd 0 (ext w4) = 0) by lia.
      destruct (Hz5 Hr5 _ Hxbt) as [Hxs5 Hv5].
      right. injection H as <-.
      split; [exact Hsa15 |].
      cbn [xs xs_versions log add_log set_dev_state].
      split; [rewrite Hxs5; congruence |].
      split; [rewrite Hv5; congruence |].
      rewrite Hl5, Hlog4, Hr5. by rewrite <- !app_assoc.
Qed.

Lemma probe_publish_spec (fuel : nat) (w w' : world) :
  probe_publish fuel Addr w = (Val 0, w') →
  ∃ b r tx rx conflicts,
    be_cell w = Some b ∧ tx_chain b = Some tx ∧ rx_chain b = Some rx
    ∧ rdev_cell w = Some r
    ∧ same_attachment w w'
    ∧ xs w' = apply_writes
                (publish_writes (nodename (cfg w)) tx rx
                   (rdev_rx_chain_index r)) (xs w)
    ∧ xs_versions w' = xs_versions w ++ [xs w']
    ∧ log w' = log w
               ++ concat (replicate conflicts
                            (publish_round
                               (publish_writes (nodename (cfg w)) tx rx
                                  (rdev_rx_chain_index r)) (- EAGAIN)))
               ++ publish_round
                    (publish_writes (nodename (cfg w)) tx rx
                       (rdev_rx_chain_index r)) 0
               ++ [EvSwitchState XenbusStateInitWait].
Proof.
  revert w. induction fuel as [| fuel IH]; intros w H; [done |].
  simpl in H.
  apply publish_round_cases in H
    as (b & r & tx & rx & Hb & Htx & Hrx & Hr & [Hagain | Hdone]).
  - destruct Hagain as (wc & Hrun & Hsa & Hxs & Hv & Hl).
    apply IH in Hrun
      as (b' & r' & tx' & rx' & n & Hb' & Htx' & Hrx' & Hr' & Hsa' & Hxs' & Hv' & Hl').
    pose proof Hsa as (Hcfg & Hbe & Hrd).
    rewrite Hbe, Hb in Hb'. injection Hb' as <-.
    rewrite Hrd, Hr in Hr'. injection Hr' as <-.
    rewrite Htx in Htx'. injection Htx' as <-.
    rewrite Hrx in Hrx'. injection Hrx' as <-.
    rewrite Hcfg in Hxs', Hl'.
    exists b, r, tx, rx, (S n). do 4 (split; [done |]).
    split; [by eapply same_attachment_trans |].
    split; [by rewrite Hxs', Hxs |].
    split; [by rewrite Hv', Hv |].
    rewrite Hl', Hl. simpl. by rewrite <- !app_assoc.
  - destruct Hdone as (Hsa & Hxs & Hv & Hl).
    exists b, r, tx, rx, 0%nat. done.
Qed.

(** *** The probe up to the transaction *)

Lemma reaches_bind_calm {A B : Type} (w0 : world) (m : M A) (f : A → M B)
    (Q : B → world → Prop) :
  keeps calm m →
  (∀ a, reaches (calm w0) (f a) Q) →
  reaches (calm w0) (m ≫= f) Q.
Proof.
  intros Hm Hf w b w' Hc Hrun.
  apply bind_inv in Hrun as (a & w1 & Hm1 & Hf1).
  apply (Hf a w1 b w'); [| exact Hf1].
  eapply calm_trans; [exact Hc |].
  specialize (Hm w). by rewrite Hm1 in Hm.
Qed.

Lemma reaches_ret_nonzero (P : world → Prop) (v : Z)
    (Q : world → Prop) :
  v ≠ 0 → reaches P (mret v) (λ a w', a = 0 → Q w').
Proof. intros Hv w a w' _ [= <- _] Ha. done. Qed.

Lemma IS_ERR_nonzero (p : rdev_ptr) : IS_ERR p = true → PTR_ERR p ≠ 0.
Proof.
  destruct p as [v |]; simpl; [| done].
  intros H. apply bool_decide_eq_true in H. lia.
Qed.

Lemma calmly_kzalloc_be : keeps calm kzalloc_be.
Proof. unfold kzalloc_be. calm_auto. Qed.

Lemma calmly_find_priv : keeps calm rswitch_find_priv.
Proof. unfold rswitch_find_priv. calm_auto. Qed.

Lemma calmly_dev_fatal (err : Z) : keeps calm (xenbus_dev_fatal err).
Proof. unfold xenbus_dev_fatal. calm_auto. Qed.

Lemma calmly_dev_set_drvdata (p : pointer) : keeps calm (dev_set_drvdata p).
Proof. unfold dev_set_drvdata. calm_auto. Qed.

Lemma calmly_ndev_register (priv : pointer) (index : Z) :
  keeps calm (rswitch_vmq_back_ndev_register priv index).
Proof.
  unfold rswitch_vmq_back_ndev_register, out_txdmac, out_rxdmac,
    out_reg_netdev, alloc_etherdev_mqs, netif_napi_add, netif_napi_del,
    unregister_netdev, rswitch_rxdmac_free, free_netdev, register_netdev,
    rswitch_rxdmac_init, rswitch_txdmac_init, skip.
  calm_auto.
Qed.

Lemma calmly_probe_fail (be : pointer) (err : Z) : keeps calm (probe_fail be err).
Proof. unfold probe_fail, skip. calm_auto. Qed.

#[local] Hint Resolve calmly_kzalloc_be calmly_find_priv calmly_dev_fatal
  calmly_dev_set_drvdata calmly_ndev_register calmly_probe_fail : calm.

Lemma probe_leads_to_publish (fuel : nat) (w0 : world) :
  reaches (calm w0) (rswitch_vmq_back_probe fuel)
    (λ a w', a = 0 →
       ∃ w1, calm w0 w1 ∧ probe_publish fuel Addr w1 = (Val 0, w')).
Proof.
  unfold rswitch_vmq_back_probe.
  apply reaches_bind_calm; [calm_auto |]. intros be.
  destruct be; simpl bool_decide; cbv iota.
  { apply reaches_bind_calm; [calm_auto |]. intros _.
    apply reaches_ret_nonzero. done. }
  repeat (apply reaches_bind_calm; [solve [calm_auto] |]; intros ?).
  destruct (bool_decide (rswitch_priv _ = Null)).
  { apply reaches_bind_calm; [calm_auto |]. intros _.
    apply reaches_ret_nonzero. done. }
  repeat (apply reaches_bind_calm; [solve [calm_auto] |]; intros ?).
  destruct (_ || _).
  { intros wa ra wb _ Hrun Ha. apply probe_fail_val in Hrun. by subst. }
  repeat (apply reaches_bind_calm; [solve [calm_auto] |]; intros ?).
  destruct (IS_ERR _) eqn:Herr; cbv zeta.
  { apply reaches_bind_calm; [calm_auto |]. intros _.
    apply reaches_ret_nonzero. by apply IS_ERR_nonzero. }
  intros wa ra wb Hc Hrun ->. by exists wa.
Qed.

Lemma xs_path_inj (dir a b : string) : xs_path dir a = xs_path dir b → a = b.
Proof.
  unfold xs_path. intros H.
  apply (String.app_inj dir) in H. by apply (String.app_inj "/") in H.
Qed.

Lemma publish_writes_lookup (dir : string) (tx rx : nat) (remote : Z)
    (store : gmap string string) (kv : string * string) :
  kv ∈ publish_writes dir tx rx remote →
  apply_writes (publish_writes dir tx rx remote) store !! kv.1 = Some kv.2.
Proof.
  unfold publish_writes, apply_writes. simpl.
  rewrite !elem_of_cons, elem_of_nil.
  intros [-> | [-> | [-> | []]]]; simpl.
  - rewrite !lookup_insert_ne by (intros H; by apply xs_path_inj in H).
    apply lookup_insert_eq.
  - rewrite lookup_insert_ne by (intros H; by apply xs_path_inj in H).
    apply lookup_insert_eq.
  - apply lookup_insert_eq.
Qed.

Lemma xs_events_quiet (evs : list event) :
  Forall quiet_event evs → xs_events evs = [].
Proof.
  induction 1 as [| e evs He _ IH]; [done |].
  unfold xs_events in *. rewrite filter_cons. by destruct e.
Qed.

Lemma xs_events_round (writes : list (string * string)) (ret : Z) :
  xs_events (publish_round writes ret) = publish_round writes ret.
Proof.
  unfold xs_events, publish_round. rewrite filter_cons. simpl.
  f_equal. rewrite filter_app. f_equal.
  induction writes as [| kv writes IH]; [done |].
  simpl. rewrite filter_cons. simpl. by rewrite IH.
Qed.

Lemma xs_events_rounds (n : nat) (writes : list (string * string)) (ret : Z) :
  xs_events (concat (replicate n (publish_round writes ret)))
  = concat (replicate n (publish_round writes ret)).
Proof.
  induction n as [| n IH]; [done |].
  cbn [replicate concat]. unfold xs_events in *. rewrite filter_app, IH.
  f_equal. apply xs_events_round.
Qed.

(** C7. When Attach succeeds, the control store was changed once: a single
    transaction that wrote tx-chain-id, rx-chain-id and remote-chain-id of
    the attachment and ended without conflict made all three visible
    together. Every round before it wrote the same three keys under its own
    transaction, ended with a conflict and was started over from the
    transaction start, making nothing visible. So every content of the
    store an observer can see during the attach is either one from before
    the attach or holds all three keys. *)
Theorem probe_publishes_atomically (fuel : nat) (w w' : world) :
  rswitch_vmq_back_probe fuel w = (Val 0, w') →
  ∃ (b : rswitch_vmq_back_info) (r : rswitch_device) (tx rx conflicts : nat)
    (evs : list event),
    be_cell w' = Some b ∧ tx_chain b = Some tx ∧ rx_chain b = Some rx
    ∧ rdev_cell w' = Some r
    ∧ log w' = log w ++ evs
    ∧ xs_events evs
      = concat (replicate conflicts
                  (publish_round
                     (publish_writes (nodename (cfg w)) tx rx
                        (rdev_rx_chain_index r)) (- EAGAIN)))
        ++ publish_round
             (publish_writes (nodename (cfg w)) tx rx
                (rdev_rx_chain_index r)) 0
    ∧ xs w' = apply_writes
                (publish_writes (nodename (cfg w)) tx rx
                   (rdev_rx_chain_index r)) (xs w)
    ∧ xs_versions w' = xs_versions w ++ [xs w']
    ∧ (∀ kv, kv ∈ publish_writes (nodename (cfg w)) tx rx
                    (rdev_rx_chain_index r) →
             xs w' !! kv.1 = Some kv.2)
    ∧ (∀ store, store ∈ xs_versions w' →
         store ∈ xs_versions w
         ∨ ∀ kv, kv ∈ publish_writes (nodename (cfg w)) tx rx
                        (rdev_rx_chain_index r) →
                 store !! kv.1 = Some kv.2).
Proof.
  intros Hrun.
  destruct (probe_leads_to_publish fuel w w 0 w' (calm_refl w) Hrun eq_refl)
    as (w1 & Hcalm & Hpub).
  destruct Hcalm as (Hcfg & _ & Hxs & Hv & pre & Hlog & Hquiet).
  apply probe_publish_spec in Hpub
    as (b & r & tx & rx & n & Hb & Htx & Hrx & Hr & Hsa & Hxs' & Hv' & Hl').
  destruct Hsa as (_ & Hbe & Hrd).
  rewrite Hcfg in Hxs', Hl'. rewrite Hxs in Hxs'. rewrite Hv in Hv'.
  set (writes := publish_writes (nodename (cfg w)) tx rx (rdev_rx_chain_index r)) in *.
  assert (Hkeys : ∀ kv, kv ∈ writes → xs w' !! kv.1 = Some kv.2).
  { intros kv Hkv. rewrite Hxs'. by apply publish_writes_lookup. }
  exists b, r, tx, rx, n,
    (pre ++ concat (replicate n (publish_round writes (- EAGAIN)))
         ++ publish_round writes 0 ++ [EvSwitchState XenbusStateInitWait]).
  split; [by rewrite Hbe |]. do 2 (split; [done |]).
  split; [by rewrite Hrd |].
  split; [by rewrite Hl', Hlog, <- app_assoc |].
  split.
  { unfold xs_events. rewrite !filter_app.
    fold (xs_events pre). rewrite (xs_events_quiet pre Hquiet).
    fold (xs_events (concat (replicate n (publish_round writes (- EAGAIN))))).
    rewrite xs_events_rounds.
    fold (xs_events (publish_round writes 0)). rewrite xs_events_round.
    change (filter _ [EvSwitchState XenbusStateInitWait]) with (@nil event).
    rewrite app_nil_r. reflexivity. }
  split; [done |]. split; [done |]. split; [done |].
  intros store Hin. rewrite Hv' in Hin.
  apply elem_of_app in Hin as [Hin | Hin]; [by left |].
  apply list_elem_of_singleton in Hin as ->. by right.
Qed.

Lemma probe_publishes_atomically_witness :
  let w := world0 xs0 [0; 0; 0; 0; 0; 0; 0; 0; 0; 0; -11] in
  let w' := (rswitch_vmq_back_probe 2 w).2 in
  xs_versions w' = xs_versions w ++ [xs w']
  ∧ length (xs_versions w') = 2%nat.
Proof.
  intros w w'.
  assert (Hrun : rswitch_vmq_back_probe 2 w = (Val 0, w')).
  { assert (H1 : (rswitch_vmq_back_probe 2 w).1 = Val 0)
      by (vm_compute; reflexivity).
    subst w'. destruct (rswitch_vmq_back_probe 2 w) as [o w1].
    simpl in H1. subst o. reflexivity. }
  clearbody w'.
  destruct (probe_publishes_atomically 2 w w' Hrun)
    as (b & r & tx & rx & n & evs & _ & _ & _ & _ & _ & _ & _ & Hv & _).
  split; [exact Hv |]. rewrite Hv. reflexivity.
Defined.

(** ** The frontend closes or disappears *)

Lemma set_backend_state_done (fuel : nat) (desired : xenbus_state) (w : world) :
  dev_state w = desired → set_backend_state fuel desired w = (Val tt, w).
Proof.
  intros H. destruct fuel; simpl; cbv [mbind M_bind get_world];
    by rewrite bool_decide_eq_true_2.
Qed.

Lemma step_plain (desired next : xenbus_state) (w : world) :
  edge_table (dev_state w) desired = Some (ActNone, next) →
  set_backend_state_step desired w
  = (Val false, add_log (EvSwitchState next) (set_dev_state next w)).
Proof.
  intros H. rewrite step_refines_table. unfold table_step.
  cbv [mbind M_bind get_world]. by rewrite H.
Qed.

Lemma step_disconnect (desired next : xenbus_state) (w : world)
    (b : rswitch_vmq_back_info) :
  edge_table (dev_state w) desired = Some (ActDisconnect, next) →
  dev_drvdata w = Addr →
  be_cell w = Some b →
  ∃ w1, rswitch_vmq_back_disconnect w = (Val tt, w1)
        ∧ set_backend_state_step desired w
          = (Val false, add_log (EvSwitchState next) (set_dev_state next w1)).
Proof.
  intros H Hd Hb.
  destruct (disconnect_run w b Hd Hb) as (w1 & Hrun & _).
  exists w1. split; [done |].
  rewrite step_refines_table. unfold table_step.
  cbv [mbind M_bind get_world]. by rewrite H, Hrun.
Qed.

(** From each of the five states of the table the loop reaches Closed in
    at most two iterations, along the Closing/Closed path. *)
Lemma set_backend_state_closes (fuel : nat) (w : world)
    (b : rswitch_vmq_back_info) :
  (2 ≤ fuel)%nat →
  dev_drvdata w = Addr →
  be_cell w = Some b →
  machine_state (dev_state w) →
  ∃ w1, set_backend_state fuel XenbusStateClosed w = (Val tt, w1)
        ∧ dev_state w1 = XenbusStateClosed
        ∧ cfg w1 = cfg w
        ∧ log w1 = log w ++ closing_path (dev_state w) b
        ∧ be_cell w1 = Some (after_closing (dev_state w) b)
        ∧ dev_drvdata w1 = Addr
        ∧ chains w1 = chains w.
Proof.
  intros Hfuel Hd Hb Hs.
  destruct fuel as [| [| fuel]]; [lia | lia |].
  destruct (dev_state w) eqn:Hst; try done.
  - (* InitWait *)
    eexists.
    rewrite set_backend_state_unfold, Hst, bool_decide_eq_false_2 by done.
    rewrite (step_plain _ XenbusStateClosing) by (by rewrite Hst).
    rewrite set_backend_state_unfold, bool_decide_eq_false_2 by done.
    rewrite (step_plain _ XenbusStateClosed) by done.
    rewrite set_backend_state_done by done.
    split; [reflexivity |]. cbn. rewrite <- app_assoc. done.
  - (* Initialised *)
    eexists.
    rewrite set_backend_state_unfold, Hst, bool_decide_eq_false_2 by done.
    rewrite (step_plain _ XenbusStateClosing) by (by rewrite Hst).
    rewrite set_backend_state_unfold, bool_decide_eq_false_2 by done.
    rewrite (step_plain _ XenbusStateClosed) by done.
    rewrite set_backend_state_done by done.
    split; [reflexivity |]. cbn. rewrite <- app_assoc. done.
  - (* Connected *)
    destruct (disconnect_run_pool w b Hd Hb)
      as (w1 & Hrun & Hlog & Hb1 & Hd1 & Hst1 & Hch1).
    destruct (disconnect_run w b Hd Hb)
      as (w1' & Hrun' & _ & _ & _ & _ & Hcfg & _).
    rewrite Hrun in Hrun'. injection Hrun' as <-.
    destruct (step_disconnect XenbusStateClosed XenbusStateClosing w b)
      as (w1' & Hrun' & Hstep); [by rewrite Hst | done | done |].
    rewrite Hrun in Hrun'. injection Hrun' as <-.
    eexists.
    rewrite set_backend_state_unfold, Hst, bool_decide_eq_false_2 by done.
    rewrite Hstep.
    rewrite set_backend_state_unfold, bool_decide_eq_false_2 by done.
    rewrite (step_plain _ XenbusStateClosed) by done.
    rewrite set_backend_state_done by done.
    split; [reflexivity |]. cbn. rewrite Hlog, <- !app_assoc. done.
  - (* Closing *)
    eexists.
    rewrite set_backend_state_unfold, Hst, bool_decide_eq_false_2 by done.
    rewrite (step_plain _ XenbusStateClosed) by (by rewrite Hst).
    rewrite set_backend_state_done by done.
    split; [reflexivity |]. cbn. done.
  - (* Closed *)
    exists w. rewrite set_backend_state_done by done.
    cbn. rewrite app_nil_r. done.
Qed.

(** A frontend that closes or disappears while the pair of the current
    state and Closed has no row: the callback does not get past the
    loop. *)
Lemma frontend_gone_spins (fuel : nat) (frontend : xenbus_state) (w : world)
    (b : rswitch_vmq_back_info) :
  frontend = XenbusStateClosed ∨ frontend = XenbusStateUnknown →
  dev_drvdata w = Addr →
  be_cell w = Some b →
  dev_state w ≠ XenbusStateClosed →
  edge_table (dev_state w) XenbusStateClosed = None →
  ∃ w', rswitch_vmq_frontend_changed fuel frontend w = (OutOfFuel, w')
        ∧ dev_state w' = dev_state w
        ∧ log w' = log w ++ replicate fuel EvWarn.
Proof.
  intros Hf Hd Hb Hne Hnone.
  destruct (set_backend_state_spins fuel XenbusStateClosed
              (set_be_cell (Some (set_frontend_state frontend b)) w) Hne Hnone)
    as (w' & Hrun & Hst & Hl).
  exists w'. split; [| by split].
  unfold rswitch_vmq_frontend_changed.
  rewrite (bind_val _ _ w w Addr) by (unfold dev_get_drvdata; by rewrite <- Hd).
  rewrite (bind_val _ _ _ _ _ (store_be_val w b _ Hb)).
  destruct Hf as [-> | ->]; by apply bind_out_of_fuel.
Qed.

(** C8, at the failing input. The backend answered a reconfiguring
    frontend by publishing Reconfigured; the device is not online. The
    frontend now announces Closed, or its state becomes Unknown. Whatever
    the bound on the iterations, the callback has not returned when the
    bound is reached: the device is still in Reconfigured, and the only
    calls made are the warnings of the loop, one per iteration. Neither
    Closing nor Closed has been published, and the device has not been
    unregistered. *)
Theorem frontend_closed_after_reconfigure_never_unregisters (fuel : nat) :
  let w := (rswitch_vmq_frontend_changed 1 XenbusStateReconfiguring
              (attached xs0 [])).2 in
  dev_state w = XenbusStateReconfigured
  ∧ online (cfg w) = false
  ∧ (∃ w', rswitch_vmq_frontend_changed fuel XenbusStateClosed w = (OutOfFuel, w')
           ∧ dev_state w' = XenbusStateReconfigured
           ∧ log w' = log w ++ replicate fuel EvWarn)
  ∧ (∃ w', rswitch_vmq_frontend_changed fuel XenbusStateUnknown w = (OutOfFuel, w')
           ∧ dev_state w' = XenbusStateReconfigured
           ∧ log w' = log w ++ replicate fuel EvWarn).
Proof.
  intros w.
  assert (Hs : dev_state w = XenbusStateReconfigured) by (vm_compute; reflexivity).
  assert (Hon : online (cfg w) = false) by (vm_compute; reflexivity).
  assert (Hd : dev_drvdata w = Addr) by (vm_compute; reflexivity).
  assert (Hb : is_Some (be_cell w)) by (vm_compute; eexists; reflexivity).
  clearbody w. destruct Hb as [b Hb].
  split; [exact Hs |]. split; [exact Hon |].
  split.
  - destruct (frontend_gone_spins fuel XenbusStateClosed w b)
      as (w' & Hrun & Hst & Hl); [by left | exact Hd | exact Hb | | |].
    + rewrite Hs. discriminate.
    + rewrite Hs. reflexivity.
    + exists w'. split; [exact Hrun |]. split; [| exact Hl].
      rewrite Hst. exact Hs.
  - destruct (frontend_gone_spins fuel XenbusStateUnknown w b)
      as (w' & Hrun & Hst & Hl); [by right | exact Hd | exact Hb | | |].
    + rewrite Hs. discriminate.
    + rewrite Hs. reflexivity.
    + exists w'. split; [exact Hrun |]. split; [| exact Hl].
      rewrite Hst. exact Hs.
Qed.

(** A frontend state the callback has no case for (InitWait, Reconfigured,
    or a value outside the enumeration) is only reported. *)
Lemma frontend_unexpected_state_reported :
  let w := attached xs0 [] in
  let r := rswitch_vmq_frontend_changed 2 XenbusStateInitWait w in
  r.1 = Val tt ∧ log r.2 = log w ++ [EvDevFatal (- EINVAL)]
  ∧ dev_state r.2 = dev_state w.
Proof. vm_compute. done. Qed.

(** ** What a failing Attach leaves behind *)

Lemma held_refl (w : world) : held w w.
Proof.
  split; [eauto |]. split; [done |]. exists []. by rewrite app_nil_r.
Qed.

Lemma held_trans (w1 w2 w3 : world) : held w1 w2 → held w2 w3 → held w1 w3.
Proof.
  intros (Hb & Hd & e1 & Hl1 & Hq1) (Hb' & Hd' & e2 & Hl2 & Hq2).
  split; [| split; [auto |]].
  - intros b Hbe. destruct (Hb b Hbe) as (b1 & Hb1 & Ht1 & Hr1).
    destruct (Hb' b1 Hb1) as (b2 & Hb2 & Ht2 & Hr2).
    exists b2. split; [done |]. split; congruence.
  - exists (e1 ++ e2). split; [by rewrite Hl2, Hl1, app_assoc | by apply Forall_app].
Qed.

(** Solves [held w (f w)] for a world update [f] that leaves the
    attachment and the driver data alone and adds at most one event. *)
Ltac held_world :=
  split; [by eauto |];
  split; [done |];
  first [ exists []; split; [simpl; by rewrite app_nil_r | by constructor]
        | eexists [_]; split; [reflexivity | by repeat constructor] ].

Lemma held_pop_ext : keeps held pop_ext.
Proof. intros w. simpl. held_world. Qed.

Lemma held_emit (e : event) : pool_quiet e → keeps held (emit e).
Proof.
  intros He. apply keeps_modify. intros w.
  split; [by eauto |]. split; [done |].
  exists [e]. split; [done | by constructor].
Qed.

Lemma held_load_be (p : pointer) : keeps held (load_be p).
Proof. intros w. unfold load_be. destruct p, (be_cell w); apply held_refl. Qed.

Lemma held_store_be (p : pointer) f :
  (∀ b, tx_chain (f b) = tx_chain b ∧ rx_chain (f b) = rx_chain b) →
  keeps held (store_be p f).
Proof.
  intros Hf w. unfold store_be, load_be. cbv [mbind M_bind].
  destruct p; [apply held_refl |].
  destruct (be_cell w) as [b |] eqn:Hb; [| apply held_refl].
  simpl. split; [| split; [done |]].
  - intros b0 Hb0. rewrite Hb in Hb0. injection Hb0 as <-.
    exists (f b). split; [done |]. apply Hf.
  - exists []. by rewrite app_nil_r.
Qed.

Ltac held_step :=
  first
    [ assumption
    | apply (keeps_ret held held_refl)
    | apply (keeps_oops held held_refl)
    | apply (keeps_out_of_fuel held held_refl)
    | apply (keeps_get_world held held_refl)
    | apply keeps_modify; intros ?; apply held_refl
    | apply keeps_modify; intros ?; held_world
    | apply held_store_be; intros ?; split; reflexivity
    | apply (keeps_bind held held_trans); [| intros ?]
    | match goal with
      | |- keeps _ (match ?x with _ => _ end) => destruct x
      | |- keeps _ (let _ := _ in _) => cbv zeta
      end ].

Create HintDb held.

Ltac held_auto := repeat first [ solve [auto with held] | held_step ].

Lemma held_load_chain (c : option nat) : keeps held (load_chain c).
Proof.
  intros w. unfold load_chain. destruct c as [i |]; [| apply held_refl].
  destruct (chains w !! i); apply held_refl.
Qed.

Lemma held_store_chain (c : option nat) f : keeps held (store_chain c f).
Proof. unfold store_chain. pose proof (held_load_chain c). held_auto. Qed.

Lemma held_chain_index (c : option nat) : keeps held (chain_index c).
Proof. unfold chain_index. pose proof (held_load_chain c). held_auto. Qed.

Lemma held_load_rdev (p : rdev_ptr) : keeps held (load_rdev p).
Proof. intros w. unfold load_rdev. destruct p, (rdev_cell w); apply held_refl. Qed.

Lemma held_store_rdev (p : rdev_ptr) f : keeps held (store_rdev p f).
Proof. unfold store_rdev. pose proof (held_load_rdev p). held_auto. Qed.

Lemma held_read_unsigned (dir node : string) (d : Z) :
  keeps held (xenbus_read_unsigned dir node d).
Proof. unfold xenbus_read_unsigned. held_auto. Qed.

Lemma held_dev_fatal (err : Z) : keeps held (xenbus_dev_fatal err).
Proof. apply held_emit. exact I. Qed.

Lemma held_switch_state (s : xenbus_state) : keeps held (xenbus_switch_state s).
Proof. unfold xenbus_switch_state, emit. held_auto. Qed.

Lemma held_transaction_start : keeps held xenbus_transaction_start.
Proof.
  unfold xenbus_transaction_start, emit, skip. pose proof held_pop_ext.
  held_auto.
Qed.

Lemma held_printf (dir node val : string) : keeps held (xenbus_printf dir node val).
Proof. unfold xenbus_printf, emit, skip. pose proof held_pop_ext. held_auto. Qed.

Lemma held_transaction_end (abort : bool) : keeps held (xenbus_transaction_end abort).
Proof.
  unfold xenbus_transaction_end, emit. pose proof held_pop_ext.
  held_auto. apply keeps_modify. intros w. unfold commit.
  destruct (xbt w); [held_world | apply held_refl].
Qed.

Lemma held_ndev_register (priv : pointer) (index : Z) :
  keeps held (rswitch_vmq_back_ndev_register priv index).
Proof.
  unfold rswitch_vmq_back_ndev_register, out_txdmac, out_rxdmac,
    out_reg_netdev, alloc_etherdev_mqs, netif_napi_add, netif_napi_del,
    unregister_netdev, rswitch_rxdmac_free, free_netdev, register_netdev,
    rswitch_rxdmac_init, rswitch_txdmac_init, skip, emit.
  pose proof held_pop_ext. pose proof held_store_rdev.
  held_auto.
Qed.

#[local] Hint Resolve held_pop_ext held_load_be held_load_chain
  held_store_chain held_chain_index held_load_rdev held_store_rdev
  held_read_unsigned held_dev_fatal held_switch_state held_transaction_start
  held_printf held_transaction_end held_ndev_register : held.

Lemma reaches_weaken {A : Type} (P P' : world → Prop) (m : M A)
    (Q : A → world → Prop) :
  (∀ w, P w → P' w) → reaches P' m Q → reaches P m Q.
Proof. intros HP Hm w a w' Hw Hrun. by apply (Hm w a w'); [apply HP |]. Qed.

Lemma reaches_load_be {B : Type} (P : world → Prop)
    (f : rswitch_vmq_back_info → M B) (Q : B → world → Prop) :
  (∀ b, reaches (λ w, P w ∧ be_cell w = Some b) (f b) Q) →
  reaches P (load_be Addr ≫= f) Q.
Proof.
  intros Hf w a w' HP Hrun.
  apply bind_inv in Hrun as (b & w1 & Hl & Hrun).
  apply load_be_inv in Hl as [-> Hb].
  by apply (Hf b w a w').
Qed.

Lemma reaches_probe_fail (wd : world) (err : Z) :
  reaches (held wd) (probe_fail Addr err) (probe_exit wd).
Proof.
  intros w a w' HR Hrun.
  pose proof (probe_fail_val _ _ _ _ _ Hrun) as ->.
  right. by exists w.
Qed.

Lemma reaches_probe_abort (wd : world) (err : Z) :
  reaches (held wd) (probe_abort_transaction Addr err) (probe_exit wd).
Proof.
  unfold probe_abort_transaction.
  do 2 (apply (reaches_bind_keeps held held_trans); [solve [held_auto] |];
        intros ?).
  apply reaches_probe_fail.
Qed.

Lemma reaches_publish (fuel : nat) (wd : world) :
  reaches (held wd) (probe_publish fuel Addr) (probe_exit wd).
Proof.
  induction fuel as [| fuel IH]; simpl; [by intros w a w' _ Hrun |].
  unfold probe_publish_round.
  do 2 (apply (reaches_bind_keeps held held_trans); [solve [held_auto] |];
        intros ?).
  destruct (bool_decide _); [apply reaches_probe_fail |].
  do 3 (apply (reaches_bind_keeps held held_trans); [solve [held_auto] |];
        intros ?).
  destruct (bool_decide _); [apply reaches_probe_abort |].
  do 3 (apply (reaches_bind_keeps held held_trans); [solve [held_auto] |];
        intros ?).
  destruct (bool_decide _); [apply reaches_probe_abort |].
  do 3 (apply (reaches_bind_keeps held held_trans); [solve [held_auto] |];
        intros ?).
  destruct (bool_decide _); [apply reaches_probe_abort |].
  apply (reaches_bind_keeps held held_trans); [solve [held_auto] |]. intros ?.
  destruct (bool_decide _); [apply IH |].
  destruct (bool_decide _).
  - apply (reaches_bind_keeps held held_trans); [solve [held_auto] |]. intros ?.
    apply reaches_probe_fail.
  - apply (reaches_bind_keeps held held_trans); [solve [held_auto] |]. intros ?.
    intros w r w' HR [= <- <-]. left. split; [done | by left].
Qed.

(** The part of the probe that follows dev_set_drvdata. *)
Lemma reaches_configure (fuel : nat) (wd : world) :
  reaches (held wd)
    (w ← get_world;
     v ← xenbus_read_unsigned (otherend (cfg w)) "osid" 255;
     store_be Addr (set_osid v);;
     b ← load_be Addr;
     store_chain (tx_chain b) (set_chain_osid (osid b));;
     store_chain (rx_chain b) (set_chain_osid (osid b));;
     store_be Addr
       (set_name ("rswitch-vmq-osid" +:+ pretty (int_of_u32 (osid b))));;
     v ← xenbus_read_unsigned (otherend (cfg w)) "if-num" 255;
     store_be Addr (set_if_num v);;
     b ← load_be Addr;
     p ← rswitch_vmq_back_ndev_register (rswitch_priv b)
           (int_of_u32 (if_num b));
     store_be Addr (set_rdev p);;
     b ← load_be Addr;
     if IS_ERR (rdev b) then
       let err := PTR_ERR (rdev b) in
       xenbus_dev_fatal err;;
       mret err
     else probe_publish fuel Addr)
    (probe_exit wd).
Proof.
  do 12 (apply (reaches_bind_keeps held held_trans); [solve [held_auto] |];
         intros ?).
  apply reaches_load_be. intros b.
  destruct (IS_ERR (rdev b)) eqn:Herr; cbv zeta.
  - intros w r w' [HR Hb] [= <- <-]. left. split.
    + eapply held_trans; [exact HR |]. apply (held_dev_fatal _ w).
    + right. by exists b.
  - eapply reaches_weaken; [| apply reaches_publish]. by intros w [HR _].
Qed.

(** *** Chains in a trace *)

Lemma acquired_app (l1 l2 : list event) :
  acquired (l1 ++ l2) = acquired l1 ++ acquired l2.
Proof. apply omap_app. Qed.

Lemma releases_app (c : nat) (l1 l2 : list event) :
  releases c (l1 ++ l2) = (releases c l1 + releases c l2)%nat.
Proof. unfold releases. by rewrite filter_app, length_app. Qed.

Lemma acquired_quiet (evs : list event) :
  Forall pool_quiet evs → acquired evs = [].
Proof.
  induction 1 as [| e evs He _ IH]; [done |].
  unfold acquired in *. by destruct e.
Qed.

Lemma releases_quiet (c : nat) (evs : list event) :
  Forall pool_quiet evs → releases c evs = 0%nat.
Proof.
  induction 1 as [| e evs He _ IH]; [done |].
  unfold releases in *. rewrite filter_cons.
  destruct (decide (e = EvGwcaPut c)) as [-> |]; done.
Qed.

Lemma kfree_quiet (evs : list event) :
  Forall pool_quiet evs → EvKfree ∉ evs.
Proof.
  intros H Hin. rewrite Forall_forall in H. by apply H in Hin.
Qed.

Lemma acquired_gets (c : option nat) : acquired (gets_of c) = option_list c.
Proof. by destruct c. Qed.

Lemma acquired_puts (c : option nat) : acquired (puts_of c) = [].
Proof. by destruct c. Qed.

Lemma releases_gets (c : nat) (c' : option nat) : releases c (gets_of c') = 0%nat.
Proof. by destruct c'. Qed.

Lemma releases_puts (c : nat) (c' : option nat) :
  releases c (puts_of c') = if decide (c' = Some c) then 1%nat else 0%nat.
Proof.
  destruct c' as [i |]; [| done]. unfold releases. simpl.
  rewrite filter_cons, filter_nil.
  destruct (decide (EvGwcaPut i = EvGwcaPut c)) as [Heq | Hne];
    destruct (decide (Some i = Some c)) as [Heq' | Hne']; try done.
  - injection Heq as ->. done.
  - injection Heq' as ->. done.
Qed.

Lemma kfree_gets (c : option nat) : EvKfree ∉ gets_of c.
Proof.
  destruct c; simpl; [| apply not_elem_of_nil].
  intros H. apply list_elem_of_singleton in H. discriminate.
Qed.

Lemma kfree_puts (c : option nat) : EvKfree ∉ puts_of c.
Proof.
  destruct c; simpl; [| apply not_elem_of_nil].
  intros H. apply list_elem_of_singleton in H. discriminate.
Qed.

(** *** The steps of the probe up to dev_set_drvdata *)

Lemma kzalloc_be_inv (w w1 : world) (be : pointer) :
  kzalloc_be w = (Val be, w1) →
  log w1 = log w ∧ dev_drvdata w1 = dev_drvdata w ∧ chains w1 = chains w
  ∧ (be = Addr → be_cell w1 = Some be_zero).
Proof.
  unfold kzalloc_be, pop_ext. cbv [mbind M_bind mret M_ret modify].
  destruct (bool_decide _); intros [= <- <-]; done.
Qed.

Lemma find_priv_inv (w w1 : world) (p : pointer) :
  rswitch_find_priv w = (Val p, w1) →
  log w1 = log w ∧ dev_drvdata w1 = dev_drvdata w ∧ chains w1 = chains w
  ∧ be_cell w1 = be_cell w.
Proof.
  unfold rswitch_find_priv, pop_ext. cbv [mbind M_bind mret M_ret].
  intros [= <- <-]. done.
Qed.

Lemma store_be_inv f (w w1 : world) (u : unit) :
  store_be Addr f w = (Val u, w1) →
  ∃ b, be_cell w = Some b ∧ w1 = set_be_cell (Some (f b)) w.
Proof.
  unfold store_be. intros H.
  apply bind_inv in H as (b & w0 & Hl & H).
  apply load_be_inv in Hl as [-> Hb].
  injection H as <-. by exists b.
Qed.

Lemma store_chain_inv (c : option nat) f (w w1 : world) (u : unit) :
  store_chain c f w = (Val u, w1) →
  be_cell w1 = be_cell w ∧ dev_drvdata w1 = dev_drvdata w ∧ log w1 = log w.
Proof.
  unfold store_chain, load_chain. cbv [mbind M_bind modify].
  destruct c as [i |]; [| done].
  destruct (chains w !! i); [| done].
  intros H. inversion H. subst. done.
Qed.

Lemma gwca_get_inv (w w1 : world) (c : option nat) :
  rswitch_gwca_get w = (Val c, w1) →
  be_cell w1 = be_cell w ∧ dev_drvdata w1 = dev_drvdata w
  ∧ log w1 = log w ++ gets_of c
  ∧ (c = None → chains w1 = chains w)
  ∧ (∀ i, c = Some i →
       (∃ ch, chains w !! i = Some ch ∧ chain_used ch = false)
       ∧ (∃ ch, chains w1 !! i = Some ch ∧ chain_used ch = true)).
Proof.
  unfold rswitch_gwca_get. cbv [mbind M_bind get_world modify emit mret M_ret].
  destruct (list_find _ (chains w)) as [[i ch] |] eqn:Hfind.
  - intros [= <- <-]. simpl. do 4 (split; [done |]).
    intros ? [= <-]. apply list_find_Some in Hfind as (Hl & Hu & _).
    split; [by exists ch |].
    exists (set_chain_used true ch). split; [| done].
    apply list_lookup_insert_eq. by eapply lookup_lt_Some.
  - intros [= <- <-]. simpl. rewrite app_nil_r. do 4 (split; [done |]).
    by intros.
Qed.

Lemma gwca_put_inv (c : option nat) (w w1 : world) (u : unit) :
  rswitch_gwca_put c w = (Val u, w1) →
  be_cell w1 = be_cell w ∧ dev_drvdata w1 = dev_drvdata w
  ∧ log w1 = log w ++ puts_of c.
Proof.
  unfold rswitch_gwca_put. intros H.
  apply bind_inv in H as (u0 & w0 & Hs & H).
  apply store_chain_inv in Hs as (Hb & Hd & Hl).
  destruct c as [i |]; [| done].
  inversion H. subst. simpl. by rewrite Hb, Hd, Hl.
Qed.

Lemma probe_fail_inv (err a : Z) (w w' : world) (b : rswitch_vmq_back_info) :
  probe_fail Addr err w = (Val a, w') →
  be_cell w = Some b →
  be_cell w' = Some b ∧ dev_drvdata w' = dev_drvdata w
  ∧ log w' = log w ++ puts_of (rx_chain b) ++ puts_of (tx_chain b).
Proof.
  unfold probe_fail. intros H Hb.
  apply bind_inv in H as (b1 & ? & Hl & H). apply load_be_inv in Hl as [-> Hb1].
  rewrite Hb in Hb1. injection Hb1 as <-.
  apply bind_inv in H as (u1 & w1 & Hrx & H).
  assert (Hw1 : be_cell w1 = Some b ∧ dev_drvdata w1 = dev_drvdata w
                ∧ log w1 = log w ++ puts_of (rx_chain b)).
  { destruct (rx_chain b) as [j |] eqn:Hj.
    - rewrite bool_decide_eq_true_2 in Hrx by done.
      apply gwca_put_inv in Hrx as (-> & -> & ->). done.
    - rewrite bool_decide_eq_false_2 in Hrx by (by intros []).
      inversion Hrx. subst. simpl. by rewrite app_nil_r. }
  destruct Hw1 as (Hb1 & Hd1 & Hl1).
  apply bind_inv in H as (b2 & ? & Hl & H). apply load_be_inv in Hl as [-> Hb2].
  rewrite Hb1 in Hb2. injection Hb2 as <-.
  apply bind_inv in H as (u2 & w2 & Htx & H).
  inversion H. subst. clear H.
  destruct (tx_chain b) as [i |] eqn:Hi.
  - rewrite bool_decide_eq_true_2 in Htx by done.
    apply gwca_put_inv in Htx as (-> & -> & ->).
    by rewrite Hb1, Hd1, Hl1, <- app_assoc.
  - rewrite bool_decide_eq_false_2 in Htx by (by intros []).
    inversion Htx. subst. simpl. by rewrite Hb1, Hd1, Hl1, app_nil_r.
Qed.

Lemma probe_early_exit (w w1 w' : world) (e err : Z) :
  log w1 = log w →
  (xenbus_dev_fatal e ≫= λ _, mret e) w1 = (Val err, w') →
  ∃ evs, log w' = log w ++ evs
         ∧ (EvKfree ∉ evs)
         ∧ acquired evs = [].
Proof.
  intros Hl H. inversion H. subst. exists [EvDevFatal err].
  simpl. rewrite Hl. split; [done |]. split; [| done].
  intros Hin. apply list_elem_of_singleton in Hin. discriminate.
Qed.

(** What a failing Attach leaves behind, on every path and for every
    world. It has not freed the attachment. If it had acquired both chains,
    the driver data of the device still points at the attachment, which
    still holds both chain pointers. Unless the error is the one of the
    local device registration, every chain Attach acquired in the call has
    been released once: the chains are all its fail label gives back. *)
Theorem probe_failure_retains_attachment (fuel : nat) (w w' : world) (err : Z) :
  rswitch_vmq_back_probe fuel w = (Val err, w') →
  err ≠ 0 →
  ∃ evs, log w' = log w ++ evs
         ∧ (EvKfree ∉ evs)
         ∧ (∀ tx rx, acquired evs = [tx; rx] →
              dev_drvdata w' = Addr
              ∧ ∃ b, be_cell w' = Some b
                     ∧ tx_chain b = Some tx ∧ rx_chain b = Some rx)
         ∧ ((∀ b, be_cell w' = Some b → IS_ERR (rdev b) = false) →
            ∀ c, c ∈ acquired evs → releases c evs = 1%nat).
Proof.
  intros H Herr. unfold rswitch_vmq_back_probe in H.
  apply bind_inv in H as (be & w1 & Hk & H).
  apply kzalloc_be_inv in Hk as (Hl1 & Hd1 & Hc1 & Hb1).
  destruct be; simpl bool_decide in H; cbv iota in H.
  { destruct (probe_early_exit w w1 w' _ err Hl1 H) as (evs & Hl & Hk & Ha).
    exists evs. rewrite Ha. split; [done |]. split; [done |].
    split; [done |]. intros _ c Hc. by apply elem_of_nil in Hc. }
  specialize (Hb1 eq_refl).
  apply bind_inv in H as (? & w1d & Hs0 & H).
  apply store_be_inv in Hs0 as (b0 & Hbe0 & ->).
  apply bind_inv in H as (priv & w2 & Hp & H).
  apply find_priv_inv in Hp as (Hl2 & Hd2 & Hc2 & Hb2).
  simpl in Hl2, Hd2, Hc2, Hb2.
  apply bind_inv in H as (u & w3 & Hs & H).
  apply store_be_inv in Hs as (b2 & Hbe2 & ->).
  apply bind_inv in H as (b3 & ? & Hld & H).
  apply load_be_inv in Hld as [-> Hb3].
  destruct (bool_decide (rswitch_priv b3 = Null)).
  { destruct (probe_early_exit w (set_be_cell _ w2) w' _ err
                (eq_trans Hl2 Hl1) H) as (evs & Hl & Hk & Ha).
    exists evs. rewrite Ha. split; [done |]. split; [done |].
    split; [done |]. intros _ c Hc. by apply elem_of_nil in Hc. }
  (* the two chains *)
  apply bind_inv in H as (c1 & w4 & Hg1 & H).
  apply gwca_get_inv in Hg1 as (Hb4 & Hd4 & Hl4 & _ & Hu4).
  apply bind_inv in H as (? & w5 & Hs & H).
  apply store_be_inv in Hs as (b4 & Hbe4 & ->).
  apply bind_inv in H as (c2 & w6 & Hg2 & H).
  apply gwca_get_inv in Hg2 as (Hb6 & Hd6 & Hl6 & _ & Hu6).
  apply bind_inv in H as (? & w7 & Hs & H).
  apply store_be_inv in Hs as (b6 & Hbe6 & ->).
  apply bind_inv in H as (b7 & ? & Hld & H).
  apply load_be_inv in Hld as [-> Hb7].
  simpl in Hb4, Hd4, Hl4, Hb6, Hd6, Hl6, Hbe6, Hb7, Hu6.
  rewrite Hb6 in Hbe6. injection Hbe6 as <-.
  injection Hb7 as <-.
  change (rx_chain (set_rx_chain c2 (set_tx_chain c1 b4))) with c2 in H.
  change (tx_chain (set_rx_chain c2 (set_tx_chain c1 b4))) with c1 in H.
  set (b7 := set_rx_chain c2 (set_tx_chain c1 b4)) in *.
  set (w7 := set_be_cell (Some b7) w6) in *.
  assert (Hl7 : log w7 = log w ++ gets_of c1 ++ gets_of c2).
  { subst w7. simpl. rewrite Hl6. simpl. rewrite Hl4. simpl.
    by rewrite Hl2, Hl1, app_assoc. }
  assert (Hbe7 : be_cell w7 = Some b7) by done.
  destruct (bool_decide (c2 = None) || bool_decide (c1 = None)) eqn:Hnone.
  { (* one of the chains is missing *)
    apply (probe_fail_inv _ _ _ _ b7) in H as (Hb' & Hd' & Hl'); [| done].
    change (rx_chain b7) with c2 in Hl'. change (tx_chain b7) with c1 in Hl'.
    exists (gets_of c1 ++ gets_of c2 ++ puts_of c2 ++ puts_of c1).
    split; [by rewrite Hl', Hl7, <- !app_assoc |].
    split.
    { rewrite !not_elem_of_app.
      eauto using kfree_gets, kfree_puts. }
    rewrite !acquired_app, !acquired_gets, !acquired_puts, !app_nil_r.
    split.
    - intros tx rx Heq. destruct c1, c2; done.
    - intros _ c Hc. rewrite !releases_app, !releases_gets, !releases_puts.
      destruct c1 as [i |], c2 as [j |]; try done; simpl in Hc.
      + apply list_elem_of_singleton in Hc as ->.
        repeat case_decide; first [done | congruence].
      + apply list_elem_of_singleton in Hc as ->.
        repeat case_decide; first [done | congruence].
      + by apply elem_of_nil in Hc. }
  destruct c1 as [i |]; [| by rewrite orb_true_r in Hnone].
  destruct c2 as [j |]; [| done].
  assert (Hij : i ≠ j).
  { destruct (Hu4 i eq_refl) as (_ & ch & Hch & Hused).
    destruct (Hu6 j eq_refl) as ((ch' & Hch' & Hfree) & _).
    intros <-. rewrite Hch in Hch'. injection Hch' as <-. congruence. }
  (* back pointers, directions and the driver data *)
  apply bind_inv in H as (? & w8 & Hs & H).
  apply store_chain_inv in Hs as (Hb8 & Hd8 & Hl8).
  apply bind_inv in H as (? & w9 & Hs & H).
  apply store_chain_inv in Hs as (Hb9 & Hd9 & Hl9).
  apply bind_inv in H as (? & w10 & Hs & H).
  apply store_chain_inv in Hs as (Hb10 & Hd10 & Hl10).
  apply bind_inv in H as (? & w11 & Hs & H).
  apply store_chain_inv in Hs as (Hb11 & Hd11 & Hl11).
  apply bind_inv in H as (? & wd & Hs & H).
  inversion Hs. subst wd. clear Hs.
  set (wd := set_dev_drvdata Addr w11) in *.
  assert (Hbd : be_cell wd = Some b7).
  { subst wd. simpl. by rewrite Hb11, Hb10, Hb9, Hb8. }
  assert (Hld : log wd = log w ++ [EvGwcaGet i; EvGwcaGet j]).
  { subst wd. simpl. by rewrite Hl11, Hl10, Hl9, Hl8, Hl7. }
  apply (reaches_configure fuel wd wd err w' (held_refl wd)) in H.
  destruct H as [[HR Hexit] | (wf & HR & Hfail)].
  - (* straight out: the local device registration failed *)
    destruct Hexit as [-> | (b' & Hb' & HE)]; [done |].
    destruct HR as (Hbe & Hdrv & evs & Hl & Hq).
    destruct (Hbe b7 Hbd) as (b'' & Hb'' & Htx & Hrx).
    rewrite Hb' in Hb''. injection Hb'' as <-.
    exists ([EvGwcaGet i; EvGwcaGet j] ++ evs).
    split; [by rewrite Hl, Hld, <- app_assoc |].
    split.
    { rewrite not_elem_of_app. split; [| by apply kfree_quiet].
      intros Hin. repeat (apply elem_of_cons in Hin as [Hin | Hin]; [done |]).
      by apply elem_of_nil in Hin. }
    rewrite acquired_app, (acquired_quiet evs Hq).
    split.
    + intros tx rx [= <- <-]. split; [by apply Hdrv |]. by exists b'.
    + intros Hno. specialize (Hno b' Hb'). congruence.
  - (* through the fail label *)
    destruct HR as (Hbe & Hdrv & evs & Hl & Hq).
    destruct (Hbe b7 Hbd) as (bf & Hbf & Htx & Hrx).
    apply (probe_fail_inv _ _ _ _ bf) in Hfail as (Hb' & Hd' & Hl'); [| done].
    rewrite Htx, Hrx in Hl'.
    change (rx_chain b7) with (Some j) in Hl'.
    change (tx_chain b7) with (Some i) in Hl'.
    exists ([EvGwcaGet i; EvGwcaGet j] ++ evs ++ [EvGwcaPut j; EvGwcaPut i]).
    split; [by rewrite Hl', Hl, Hld, <- !app_assoc |].
    split.
    { rewrite !not_elem_of_app. split; [| split; [by apply kfree_quiet |]].
      - intros Hin. repeat (apply elem_of_cons in Hin as [Hin | Hin]; [done |]).
        by apply elem_of_nil in Hin.
      - intros Hin. repeat (apply elem_of_cons in Hin as [Hin | Hin]; [done |]).
        by apply elem_of_nil in Hin. }
    rewrite !acquired_app, (acquired_quiet evs Hq).
    split.
    + intros tx rx [= <- <-]. split; [rewrite Hd'; by apply Hdrv |].
      exists bf. by rewrite Htx, Hrx.
    + intros _ c Hc. rewrite !releases_app, (releases_quiet c evs Hq).
      change (releases c [EvGwcaGet i; EvGwcaGet j]) with 0%nat.
      change [EvGwcaPut j; EvGwcaPut i] with (puts_of (Some j) ++ puts_of (Some i)).
      rewrite releases_app, !releases_puts.
      simpl in Hc. apply elem_of_cons in Hc as [-> | Hc].
      * repeat case_decide; first [done | congruence].
      * apply list_elem_of_singleton in Hc as ->.
        repeat case_decide; first [done | congruence].
Qed.

Lemma probe_failure_retains_attachment_witness :
  let w := world0 xs0 [0; 0; 0; 0; 0; 0; -12] in
  let w' := (rswitch_vmq_back_probe 1 w).2 in
  ∃ evs, log w' = log w ++ evs
         ∧ (EvKfree ∉ evs)
         ∧ (∀ tx rx, acquired evs = [tx; rx] →
              dev_drvdata w' = Addr
              ∧ ∃ b, be_cell w' = Some b
                     ∧ tx_chain b = Some tx ∧ rx_chain b = Some rx).
Proof.
  intros w w'.
  assert (Hrun : rswitch_vmq_back_probe 1 w = (Val (-12), w')).
  { assert (H1 : (rswitch_vmq_back_probe 1 w).1 = Val (-12))
      by (vm_compute; reflexivity).
    subst w'. destruct (rswitch_vmq_back_probe 1 w) as [o w1].
    simpl in H1. subst o. reflexivity. }
  clearbody w'.
  assert (Hne : -12 ≠ 0) by lia.
  destruct (probe_failure_retains_attachment 1 w w' (-12) Hrun Hne)
    as (evs & H1 & H2 & H3 & _).
  exists evs. split; [exact H1 |]. split; [exact H2 | exact H3].
Defined.

(** * Further properties *)

(** ** The driver loop, pair by pair *)

(** *** Code without a loop never uses up the budget *)

Lemma finite_ret {A : Type} (a : A) : finite (mret a).
Proof. by intros w. Qed.

Lemma finite_oops {A : Type} : finite (@oops A).
Proof. by intros w. Qed.

Lemma finite_get_world : finite get_world.
Proof. by intros w. Qed.

Lemma finite_modify (f : world → world) : finite (modify f).
Proof. by intros w. Qed.

Lemma finite_bind {A B : Type} (m : M A) (f : A → M B) :
  finite m → (∀ a, finite (f a)) → finite (m ≫= f).
Proof.
  intros Hm Hf w. unfold mbind, M_bind. specialize (Hm w).
  destruct (m w) as [[a | |] w1]; simpl in *; [apply Hf | done | done].
Qed.

Lemma finite_pop_ext : finite pop_ext.
Proof. by intros w. Qed.

Lemma finite_load_be (p : pointer) : finite (load_be p).
Proof. intros w. unfold load_be. by destruct p, (be_cell w). Qed.

Lemma finite_load_chain (c : option nat) : finite (load_chain c).
Proof.
  intros w. unfold load_chain. destruct c as [i |]; [| done].
  by destruct (chains w !! i).
Qed.

Lemma finite_load_rdev (p : rdev_ptr) : finite (load_rdev p).
Proof. intros w. unfold load_rdev. by destruct p, (rdev_cell w). Qed.

Ltac finite_step :=
  first
    [ assumption
    | apply finite_ret
    | apply finite_oops
    | apply finite_get_world
    | apply finite_modify
    | apply finite_pop_ext
    | apply finite_load_be
    | apply finite_load_chain
    | apply finite_load_rdev
    | apply finite_bind; [| intros ?]
    | match goal with
      | |- finite (match ?x with _ => _ end) => destruct x
      | |- finite (let _ := _ in _) => cbv zeta
      end ].

Ltac finite_tac := repeat finite_step.

Lemma finite_disconnect : finite rswitch_vmq_back_disconnect.
Proof.
  unfold rswitch_vmq_back_disconnect, dev_get_drvdata, unbind_from_irqhandler,
    store_be, emit, skip.
  finite_tac. by intros w.
Qed.

Lemma finite_connect : finite rswitch_vmq_back_connect.
Proof.
  unfold rswitch_vmq_back_connect, dev_get_drvdata, xenbus_gather,
    xenbus_dev_fatal, bind_interdomain_evtchn_to_irqhandler_lateeoi,
    rswitch_gwca_chain_register, notify_remote_via_evtchn, chain_index,
    store_rdev, store_be, emit.
  finite_tac. by intros w.
Qed.

(** What one iteration leaves when the pair has a row. *)
Lemma step_outcome (desired next : xenbus_state) (a : action) (w : world) :
  edge_table (dev_state w) desired = Some (a, next) →
  match set_backend_state_step desired w with
  | (Val false, w1) => dev_state w1 = next
  | (Val true, w1) => a = ActConnect ∧ dev_state w1 = dev_state w
  | (Oops, _) => a ≠ ActNone
  | (OutOfFuel, _) => False
  end.
Proof.
  intros He. rewrite step_refines_table. unfold table_step.
  cbv [mbind M_bind get_world]. rewrite He. destruct a.
  - reflexivity.
  - pose proof (calmly_connect w) as Hc. pose proof (finite_connect w) as Hf.
    destruct (rswitch_vmq_back_connect w) as [[err | |] w1]; simpl in *;
      [| done | done].
    destruct (bool_decide (err ≠ 0)); simpl.
    + split; [done |]. by destruct Hc as (_ & ? & _).
    + reflexivity.
  - pose proof (finite_disconnect w) as Hf.
    destruct (rswitch_vmq_back_disconnect w) as [[[] | |] w1]; simpl in *; done.
Qed.

Lemma connect_row_desired (current desired next : xenbus_state) :
  edge_table current desired = Some (ActConnect, next) →
  desired = XenbusStateConnected
  ∧ (current = XenbusStateInitWait ∨ current = XenbusStateInitialised).
Proof. destruct current, desired; simpl; intros [= <-] || intros [=]; auto. Qed.

Lemma set_backend_state_within (n : nat) :
  ∀ (k fuel : nat) (desired : xenbus_state) (w : world),
    hops n (dev_state w) desired = Some k →
    (k ≤ fuel)%nat →
    (set_backend_state fuel desired w).1 ≠ OutOfFuel
    ∧ ((set_backend_state fuel desired w).1 = Val tt →
       dev_state (set_backend_state fuel desired w).2 = desired
       ∨ (desired = XenbusStateConnected
          ∧ (dev_state (set_backend_state fuel desired w).2 = XenbusStateInitWait
             ∨ dev_state (set_backend_state fuel desired w).2
               = XenbusStateInitialised))).
Proof.
  induction n as [| n IH]; intros k fuel desired w Hh Hk; simpl in Hh.
  - destruct (bool_decide (dev_state w = desired)) eqn:Heq; [| done].
    apply bool_decide_eq_true in Heq.
    rewrite (set_backend_state_done fuel desired w Heq). simpl. auto.
  - destruct (bool_decide (dev_state w = desired)) eqn:Heq.
    { apply bool_decide_eq_true in Heq.
      rewrite (set_backend_state_done fuel desired w Heq). simpl. auto. }
    destruct (edge_table (dev_state w) desired) as [[a next] |] eqn:He; [| done].
    destruct (hops n next desired) as [k' |] eqn:Hn; [| done].
    injection Hh as <-.
    destruct fuel as [| fuel]; [lia |].
    rewrite set_backend_state_unfold, Heq.
    pose proof (step_outcome desired next a w He) as Hstep.
    destruct (set_backend_state_step desired w) as [[[|] | |] w1]; simpl.
    + destruct Hstep as [-> Hs].
      apply connect_row_desired in He as [-> Hpre].
      split; [done |]. intros _. right. split; [done |]. by rewrite Hs.
    + subst next. apply IH with (k := k'); [done | lia].
    + done.
    + done.
Qed.

Lemma row_gives_hops (current desired : xenbus_state) :
  current = desired ∨ is_Some (edge_table current desired) →
  ∃ k, hops 3 current desired = Some k ∧ (k ≤ 3)%nat.
Proof.
  intros H.
  destruct current, desired;
    first [ by (vm_compute; eexists; split; [reflexivity | lia])
          | by destruct H as [H | [x H]] ].
Qed.

(** X1. Whenever the current and the desired state are the same or their
    pair has a row in the table, set_backend_state stops within three
    iterations. When it returns, the device is in the state asked for,
    unless Connected was asked for and Connect failed: then it is left in
    InitWait or Initialised. *)
Theorem set_backend_state_stops_within_three (fuel : nat)
    (desired : xenbus_state) (w : world) :
  dev_state w = desired ∨ is_Some (edge_table (dev_state w) desired) →
  (3 ≤ fuel)%nat →
  (set_backend_state fuel desired w).1 ≠ OutOfFuel
  ∧ ((set_backend_state fuel desired w).1 = Val tt →
     dev_state (set_backend_state fuel desired w).2 = desired
     ∨ (desired = XenbusStateConnected
        ∧ (dev_state (set_backend_state fuel desired w).2 = XenbusStateInitWait
           ∨ dev_state (set_backend_state fuel desired w).2
             = XenbusStateInitialised))).
Proof.
  intros Hrow Hfuel.
  destruct (row_gives_hops _ _ Hrow) as (k & Hh & Hk).
  apply (set_backend_state_within 3 k); [done | lia].
Qed.

Lemma set_backend_state_stops_within_three_witness :
  (set_backend_state 3 XenbusStateInitWait
     (set_dev_state XenbusStateConnected (attached xs0 []))).1 ≠ OutOfFuel.
Proof.
  refine (proj1 (set_backend_state_stops_within_three 3 XenbusStateInitWait
                   (set_dev_state XenbusStateConnected (attached xs0 []))
                   _ (le_n 3))).
  right. eexists. reflexivity.
Defined.

(** X2. Given room for three iterations, set_backend_state fails to
    return exactly when the current state differs from the desired one and
    their pair has no row in the table: the loop then only raises its
    warning, again and again, and a pair that has a row never leads to
    one that has none. *)
Theorem set_backend_state_hangs_iff_no_row (fuel : nat)
    (desired : xenbus_state) (w : world) :
  (3 ≤ fuel)%nat →
  (set_backend_state fuel desired w).1 = OutOfFuel
  ↔ dev_state w ≠ desired ∧ edge_table (dev_state w) desired = None.
Proof.
  intros Hfuel. split.
  - intros Hout.
    destruct (decide (dev_state w = desired)) as [Heq | Hne].
    { rewrite (set_backend_state_done fuel desired w Heq) in Hout. done. }
    split; [done |].
    destruct (edge_table (dev_state w) desired) as [row |] eqn:He; [| done].
    destruct (row_gives_hops (dev_state w) desired) as (k & Hh & Hk).
    { right. rewrite He. by eexists. }
    destruct (set_backend_state_within 3 k fuel desired w Hh) as [Hfin _]; [lia |].
    done.
  - intros [Hne Hnone].
    destruct (set_backend_state_spins fuel desired w Hne Hnone) as (w' & Hrun & _).
    by rewrite Hrun.
Qed.

Lemma set_backend_state_hangs_iff_no_row_witness :
  (set_backend_state 3 XenbusStateInitWait
     (set_dev_state XenbusStateInitialised (world0 xs0 []))).1 = OutOfFuel.
Proof.
  apply (set_backend_state_hangs_iff_no_row 3 XenbusStateInitWait
           (set_dev_state XenbusStateInitialised (world0 xs0 []))).
  - lia.
  - split; [discriminate | reflexivity].
Defined.

(** ** Relations kept by the primitives of the model *)

Section KeepsPrimitives.
Variable R : world → world → Prop.
Hypothesis R_refl : ∀ w, R w w.

Lemma keeps_load_be (p : pointer) : keeps R (load_be p).
Proof. intros w. unfold load_be. destruct p, (be_cell w); apply R_refl. Qed.

Lemma keeps_load_chain (c : option nat) : keeps R (load_chain c).
Proof.
  intros w. unfold load_chain. destruct c as [i |]; [| apply R_refl].
  destruct (chains w !! i); apply R_refl.
Qed.

Lemma keeps_load_rdev (p : rdev_ptr) : keeps R (load_rdev p).
Proof. intros w. unfold load_rdev. destruct p, (rdev_cell w); apply R_refl. Qed.

Lemma keeps_dev_get_drvdata : keeps R dev_get_drvdata.
Proof. intros w. apply R_refl. Qed.

Lemma keeps_pop_ext : (∀ w l, R w (set_ext l w)) → keeps R pop_ext.
Proof. intros H w. apply H. Qed.

Lemma keeps_commit :
  (∀ w v, R w (set_xbt None (set_xs v w))) → keeps R (modify commit).
Proof.
  intros H w. unfold modify, commit. simpl.
  destruct (xbt w); [apply H | apply R_refl].
Qed.
End KeepsPrimitives.

(** Follows the syntax of a program built from the primitives; [wtac]
    relates a world to an update of it, [pre] is tried first at every
    step. *)
Ltac keeps_prog_with pre refl trans wtac :=
  repeat first
    [ pre
    | assumption
    | apply (keeps_ret _ refl)
    | apply (keeps_oops _ refl)
    | apply (keeps_out_of_fuel _ refl)
    | apply (keeps_get_world _ refl)
    | apply (keeps_load_be _ refl)
    | apply (keeps_load_chain _ refl)
    | apply (keeps_load_rdev _ refl)
    | apply (keeps_dev_get_drvdata _ refl)
    | apply keeps_pop_ext; intros ? ?; wtac
    | apply (keeps_commit _ refl); intros ? ?; wtac
    | apply keeps_modify; intros ?; first [apply refl | wtac]
    | apply (keeps_bind _ trans); [| intros ?]
    | match goal with
      | |- keeps _ (match ?x with _ => _ end) => destruct x
      | |- keeps _ (let _ := _ in _) => cbv zeta
      end ].

Ltac keeps_prog refl trans wtac := keeps_prog_with fail refl trans wtac.

(* [store_be] stays folded for relations that read the attachment *)
Ltac unfold_services_but_store_be :=
  unfold xenbus_dev_fatal, xenbus_switch_state, xenbus_dev_is_online,
    xenbus_transaction_start, xenbus_printf, xenbus_transaction_end,
    xenbus_read_unsigned, xenbus_gather, rswitch_find_priv, rswitch_gwca_get,
    rswitch_gwca_put, rswitch_gwca_chain_register, unbind_from_irqhandler,
    notify_remote_via_evtchn, bind_interdomain_evtchn_to_irqhandler_lateeoi,
    alloc_etherdev_mqs, netif_napi_add, netif_napi_del, unregister_netdev,
    rswitch_rxdmac_free, free_netdev, register_netdev, rswitch_rxdmac_init,
    rswitch_txdmac_init, rswitch_ndev_unregister, device_unregister,
    kzalloc_be, kfree_be, dev_set_drvdata, WARN_ON, store_chain,
    store_rdev, chain_index, emit, skip.

Ltac unfold_services := unfold_services_but_store_be; unfold store_be.

(** ** device_unregister is called only for a frontend that is gone *)

Lemma registered_refl (w : world) : registered w w.
Proof. split; [done |]. exists []. split; [by rewrite app_nil_r | apply not_elem_of_nil]. Qed.

Lemma registered_trans (w1 w2 w3 : world) :
  registered w1 w2 → registered w2 w3 → registered w1 w3.
Proof.
  intros (Hc & e1 & Hl1 & Hn1) (Hc' & e2 & Hl2 & Hn2).
  split; [congruence |]. exists (e1 ++ e2).
  split; [by rewrite Hl2, Hl1, app_assoc |].
  rewrite not_elem_of_app. done.
Qed.

Ltac registered_world :=
  split; [done |];
  first [ exists []; split; [simpl; by rewrite app_nil_r | apply not_elem_of_nil]
        | eexists [_]; split;
          [reflexivity
          | let H := fresh in
            intros H; apply list_elem_of_singleton in H; discriminate] ].

Ltac registered_tac :=
  unfold_services; keeps_prog registered_refl registered_trans registered_world.

Lemma registered_disconnect : keeps registered rswitch_vmq_back_disconnect.
Proof. unfold rswitch_vmq_back_disconnect. registered_tac. Qed.

Lemma registered_connect : keeps registered rswitch_vmq_back_connect.
Proof. unfold rswitch_vmq_back_connect. registered_tac. Qed.

Lemma registered_step (desired : xenbus_state) :
  keeps registered (set_backend_state_step desired).
Proof.
  intros w. rewrite step_refines_table. revert w.
  unfold table_step.
  pose proof registered_disconnect. pose proof registered_connect.
  registered_tac.
Qed.

Lemma registered_set_backend_state (fuel : nat) (desired : xenbus_state) :
  keeps registered (set_backend_state fuel desired).
Proof.
  induction fuel as [| fuel IH]; simpl.
  - registered_tac.
  - pose proof (registered_step desired). registered_tac.
Qed.

(** X3. Whatever state the frontend announces and however the call ends,
    rswitch_vmq_frontend_changed calls device_unregister only when the
    frontend is Unknown, or is Closed while the device is not online. *)
Theorem frontend_changed_unregisters_only_when_gone (fuel : nat)
    (frontend : xenbus_state) (w : world) :
  frontend ≠ XenbusStateUnknown →
  (frontend = XenbusStateClosed → online (cfg w) = true) →
  ∃ evs, log (rswitch_vmq_frontend_changed fuel frontend w).2 = log w ++ evs
         ∧ EvDeviceUnregister ∉ evs.
Proof.
  intros Hu Hon.
  enough (Hreg : registered w (rswitch_vmq_frontend_changed fuel frontend w).2)
    by apply Hreg.
  unfold rswitch_vmq_frontend_changed.
  cbv [mbind M_bind dev_get_drvdata].
  pose proof (keeps_val registered (store_be (dev_drvdata w)
                (set_frontend_state frontend)) w) as Hst.
  assert (Hk : keeps registered
                 (store_be (dev_drvdata w) (set_frontend_state frontend)))
    by registered_tac.
  specialize (Hk w).
  destruct (store_be (dev_drvdata w) (set_frontend_state frontend) w)
    as [[[] | |] w0]; simpl in Hk; try exact Hk.
  clear Hst.
  assert (Hsb : ∀ d, registered w (set_backend_state fuel d w0).2).
  { intros d. eapply registered_trans; [exact Hk |].
    apply registered_set_backend_state. }
  destruct frontend.
  - done.
  - apply Hsb.
  - eapply registered_trans; [exact Hk |].
    assert (Hf : keeps registered (xenbus_dev_fatal (- EINVAL))) by registered_tac.
    apply Hf.
  - apply Hsb.
  - apply Hsb.
  - apply Hsb.
  - (* Closed, online *)
    specialize (Hsb XenbusStateClosed).
    destruct (set_backend_state fuel XenbusStateClosed w0) as [[[] | |] w1];
      simpl in *; try exact Hsb.
    cbv [xenbus_dev_is_online mbind M_bind get_world mret M_ret].
    destruct Hsb as (Hc & Hev). rewrite Hc, (Hon eq_refl). simpl.
    by split.
  - eapply registered_trans; [exact Hk |].
    assert (Hf : keeps registered (xenbus_switch_state XenbusStateReconfigured))
      by registered_tac.
    apply Hf.
  - eapply registered_trans; [exact Hk |].
    assert (Hf : keeps registered (xenbus_dev_fatal (- EINVAL))) by registered_tac.
    apply Hf.
Qed.

Lemma frontend_changed_unregisters_only_when_gone_witness :
  ∃ evs, log (rswitch_vmq_frontend_changed 3 XenbusStateClosing
                (attached xs0 [])).2 = log (attached xs0 []) ++ evs
         ∧ EvDeviceUnregister ∉ evs.
Proof.
  apply (frontend_changed_unregisters_only_when_gone 3 XenbusStateClosing
           (attached xs0 [])); discriminate.
Defined.

(** ** Attach publishes InitWait exactly when it succeeds *)

Lemma mute_refl (w : world) : mute w w.
Proof. split; [done |]. exists []. by rewrite app_nil_r. Qed.

Lemma mute_trans (w1 w2 w3 : world) : mute w1 w2 → mute w2 w3 → mute w1 w3.
Proof.
  intros (Hs & e1 & Hl1 & Hp1) (Hs' & e2 & Hl2 & Hp2).
  split; [congruence |]. exists (e1 ++ e2).
  split; [by rewrite Hl2, Hl1, app_assoc |].
  unfold published in *. by rewrite omap_app, Hp1, Hp2.
Qed.

Ltac mute_world :=
  split; [done |];
  first [ exists []; split; [simpl; by rewrite app_nil_r | reflexivity]
        | eexists [_]; split; [reflexivity | reflexivity] ].

Ltac mute_tac := unfold_services; keeps_prog mute_refl mute_trans mute_world.

Lemma mute_ndev_register (priv : pointer) (index : Z) :
  keeps mute (rswitch_vmq_back_ndev_register priv index).
Proof.
  unfold rswitch_vmq_back_ndev_register, out_txdmac, out_rxdmac, out_reg_netdev.
  mute_tac.
Qed.

Lemma mute_probe_fail (be : pointer) (err : Z) : keeps mute (probe_fail be err).
Proof. unfold probe_fail. mute_tac. Qed.

Lemma reaches_mute_fail (w0 : world) (be : pointer) (err : Z) :
  err ≠ 0 → reaches (mute w0) (probe_fail be err) (probe_result w0).
Proof.
  intros Herr w a w' HR Hrun.
  pose proof (probe_fail_val _ _ _ _ _ Hrun) as ->.
  right. split; [done |]. eapply mute_trans; [exact HR |].
  by apply (keeps_val mute (probe_fail be err) w w' err (mute_probe_fail be err)).
Qed.

Lemma reaches_mute_abort (w0 : world) (be : pointer) (err : Z) :
  err ≠ 0 → reaches (mute w0) (probe_abort_transaction be err) (probe_result w0).
Proof.
  intros Herr. unfold probe_abort_transaction.
  do 2 (apply (reaches_bind_keeps mute mute_trans); [solve [mute_tac] |];
        intros ?).
  by apply reaches_mute_fail.
Qed.

Lemma reaches_mute_ret (w0 : world) (v : Z) :
  v ≠ 0 → reaches (mute w0) (mret v) (probe_result w0).
Proof. intros Hv w a w' HR [= <- <-]. by right. Qed.

Lemma reaches_mute_publish (fuel : nat) (w0 : world) (be : pointer) :
  reaches (mute w0) (probe_publish fuel be) (probe_result w0).
Proof.
  induction fuel as [| fuel IH]; simpl; [by intros w a w' _ Hrun |].
  unfold probe_publish_round.
  do 2 (apply (reaches_bind_keeps mute mute_trans); [solve [mute_tac] |];
        intros ?).
  destruct (bool_decide _) eqn:E;
    [apply bool_decide_eq_true in E; by apply reaches_mute_fail |]. clear E.
  do 3 (apply (reaches_bind_keeps mute mute_trans); [solve [mute_tac] |];
        intros ?).
  destruct (bool_decide _) eqn:E;
    [apply bool_decide_eq_true in E; by apply reaches_mute_abort |]. clear E.
  do 3 (apply (reaches_bind_keeps mute mute_trans); [solve [mute_tac] |];
        intros ?).
  destruct (bool_decide _) eqn:E;
    [apply bool_decide_eq_true in E; by apply reaches_mute_abort |]. clear E.
  do 3 (apply (reaches_bind_keeps mute mute_trans); [solve [mute_tac] |];
        intros ?).
  destruct (bool_decide _) eqn:E;
    [apply bool_decide_eq_true in E; by apply reaches_mute_abort |]. clear E.
  apply (reaches_bind_keeps mute mute_trans); [solve [mute_tac] |]. intros ?.
  destruct (bool_decide _); [apply IH |].
  destruct (bool_decide _) eqn:E.
  - apply bool_decide_eq_true in E.
    apply (reaches_bind_keeps mute mute_trans); [solve [mute_tac] |]. intros ?.
    by apply reaches_mute_fail.
  - intros w r w' HR Hrun. inversion Hrun. subst.
    left. split; [done |]. by exists w.
Qed.

Lemma reaches_mute_probe (fuel : nat) (w0 : world) :
  reaches (mute w0) (rswitch_vmq_back_probe fuel) (probe_result w0).
Proof.
  unfold rswitch_vmq_back_probe.
  apply (reaches_bind_keeps mute mute_trans); [solve [mute_tac] |]. intros be.
  destruct (bool_decide (be = Null)).
  { apply (reaches_bind_keeps mute mute_trans); [solve [mute_tac] |]. intros ?.
    by apply reaches_mute_ret. }
  do 4 (apply (reaches_bind_keeps mute mute_trans); [solve [mute_tac] |];
        intros ?).
  destruct (bool_decide _).
  { apply (reaches_bind_keeps mute mute_trans); [solve [mute_tac] |]. intros ?.
    by apply reaches_mute_ret. }
  do 5 (apply (reaches_bind_keeps mute mute_trans); [solve [mute_tac] |];
        intros ?).
  destruct (_ || _); [by apply reaches_mute_fail |].
  pose proof mute_ndev_register.
  do 18 (apply (reaches_bind_keeps mute mute_trans); [solve [mute_tac] |];
         intros ?).
  destruct (IS_ERR _) eqn:Herr; cbv zeta.
  - apply (reaches_bind_keeps mute mute_trans); [solve [mute_tac] |]. intros ?.
    apply reaches_mute_ret. by apply IS_ERR_nonzero.
  - apply reaches_mute_publish.
Qed.

(** X4. Whenever the probe returns, it has published InitWait, as its last
    act and as the only state, exactly when it returns 0; when it returns
    an error it has published nothing and the state of the device is the
    one it found. *)
Theorem probe_publishes_initwait_iff_success (fuel : nat) (w w' : world) (a : Z) :
  rswitch_vmq_back_probe fuel w = (Val a, w') →
  ∃ evs, log w' = log w ++ evs
         ∧ ((a = 0 ∧ published evs = [XenbusStateInitWait]
             ∧ last evs = Some (EvSwitchState XenbusStateInitWait)
             ∧ dev_state w' = XenbusStateInitWait)
            ∨ (a ≠ 0 ∧ published evs = [] ∧ dev_state w' = dev_state w)).
Proof.
  intros Hrun.
  destruct (reaches_mute_probe fuel w w a w' (mute_refl w) Hrun)
    as [(-> & w1 & (Hs & evs & Hl & Hp) & ->) | (Ha & Hs & evs & Hl & Hp)].
  - exists (evs ++ [EvSwitchState XenbusStateInitWait]).
    split; [simpl; by rewrite Hl, app_assoc |]. left.
    split; [done |]. split.
    { unfold published in *. by rewrite omap_app, Hp. }
    split; [apply last_snoc | done].
  - exists evs. split; [done |]. right. done.
Qed.

Lemma probe_publishes_initwait_iff_success_witness :
  ∃ evs, log (rswitch_vmq_back_probe 1 (world0 xs0 [0; 0; 0; -12])).2 = [] ++ evs
         ∧ published evs = [].
Proof.
  assert (Hrun : ∃ w', rswitch_vmq_back_probe 1 (world0 xs0 [0; 0; 0; -12])
                       = (Val (-12), w')).
  { assert (H1 : (rswitch_vmq_back_probe 1 (world0 xs0 [0; 0; 0; -12])).1
                 = Val (-12)) by (vm_compute; reflexivity).
    destruct (rswitch_vmq_back_probe 1 (world0 xs0 [0; 0; 0; -12])) as [o w1].
    simpl in H1. subst o. by exists w1. }
  destruct Hrun as (w' & Hrun).
  destruct (probe_publishes_initwait_iff_success 1 _ w' (-12) Hrun)
    as (evs & Hl & [(Ha & _) | (_ & Hp & _)]); [lia |].
  rewrite Hrun. exists evs. split; [exact Hl | exact Hp].
Defined.

(** ** Connect *)

Lemma gather_run (dir n1 n2 : string) (w : world) :
  xenbus_gather dir n1 n2 w
  = (Val match xs_scan dir n1 (xs w) with
         | inl err => inl err
         | inr v1 =>
             match xs_scan dir n2 (xs w) with
             | inl err => inl err
             | inr v2 => inr (v1, v2)
             end
         end, w).
Proof.
  unfold xenbus_gather. cbv [mbind M_bind get_world].
  destruct (xs_scan dir n1 (xs w)); [done |].
  by destruct (xs_scan dir n2 (xs w)).
Qed.

Lemma xs_scan_error (dir node : string) (store : gmap string string) (err : Z) :
  xs_scan dir node store = inl err → err = - ENOENT ∨ err = - EINVAL.
Proof.
  unfold xs_scan. destruct (store !! xs_path dir node) as [s |]; [| intros [= <-]; auto].
  destruct (parse_unsigned s); [done | intros [= <-]; auto].
Qed.

(** X5. When the frontend's directory lacks tx-evtch or rx-evtch, or holds
    something that is not a number there, Connect reports the error and
    returns it (-ENOENT for a missing key, -EINVAL for a malformed one)
    without binding a channel, signalling the frontend or touching the
    attachment: the world is the one it found, plus the report. *)
Theorem connect_without_channels_binds_nothing (w : world) (err : Z) :
  xs_scan (otherend (cfg w)) "tx-evtch" (xs w) = inl err
  ∨ (∃ v, xs_scan (otherend (cfg w)) "tx-evtch" (xs w) = inr v
          ∧ xs_scan (otherend (cfg w)) "rx-evtch" (xs w) = inl err) →
  rswitch_vmq_back_connect w = (Val err, add_log (EvDevFatal err) w)
  ∧ (err = - ENOENT ∨ err = - EINVAL).
Proof.
  intros H. unfold rswitch_vmq_back_connect.
  cbv [mbind M_bind dev_get_drvdata get_world]. rewrite gather_run.
  destruct H as [H | (v & Hv & H)].
  - rewrite H. split; [reflexivity | by eapply xs_scan_error].
  - rewrite Hv, H. split; [reflexivity | by eapply xs_scan_error].
Qed.

Lemma connect_without_channels_binds_nothing_witness :
  rswitch_vmq_back_connect (world0 ∅ [])
  = (Val (- ENOENT), add_log (EvDevFatal (- ENOENT)) (world0 ∅ [])).
Proof.
  apply (connect_without_channels_binds_nothing (world0 ∅ []) (- ENOENT)).
  left. reflexivity.
Defined.

Lemma bind_evtchn_run (evtchn : Z) (h : handler) (w : world) :
  bind_interdomain_evtchn_to_irqhandler_lateeoi evtchn h w
  = (Val (hd 0 (ext w)),
     add_log (EvBind evtchn h (hd 0 (ext w))) (set_ext (tail (ext w)) w)).
Proof. reflexivity. Qed.

(** Connect up to the first bind. *)
Lemma connect_reads_channels (w : world) (b : rswitch_vmq_back_info)
    (tx_evt rx_evt : Z) :
  dev_drvdata w = Addr →
  be_cell w = Some b →
  xs_scan (otherend (cfg w)) "tx-evtch" (xs w) = inr tx_evt →
  xs_scan (otherend (cfg w)) "rx-evtch" (xs w) = inr rx_evt →
  rswitch_vmq_back_connect w
  = (let w1 := set_be_cell (Some (set_rx_evtchn rx_evt (set_tx_evtchn tx_evt b))) w in
     let tx := hd 0 (ext w) in
     let w2 := add_log (EvBind tx_evt TxInterrupt tx) (set_ext (tail (ext w)) w1) in
     if bool_decide (tx < 0) then (Val tx, add_log (EvDevFatal tx) w2)
     else
       let w3 := set_be_cell (Some (set_tx_irq tx
                   (set_rx_evtchn rx_evt (set_tx_evtchn tx_evt b)))) w2 in
       let rx := hd 0 (tail (ext w)) in
       let w4 := add_log (EvBind rx_evt RxInterrupt rx)
                   (set_ext (tail (tail (ext w))) w3) in
       if bool_decide (rx < 0) then (Val rx, add_log (EvDevFatal rx) w4)
       else
         let w5 := set_be_cell (Some (connected_be tx_evt rx_evt tx rx b)) w4 in
         (b ← load_be Addr;
          rswitch_gwca_chain_register (tx_chain b) false;;
          b ← load_be Addr;
          rswitch_gwca_chain_register (rx_chain b) true;;
          notify_remote_via_evtchn tx_evt;;
          notify_remote_via_evtchn rx_evt;;
          b ← load_be Addr;
          idx ← chain_index (rx_chain b);
          store_rdev (rdev b) (set_remote_chain idx);;
          mret 0) w5).
Proof.
  intros Hd Hb Htx Hrx. unfold rswitch_vmq_back_connect.
  rewrite (bind_val _ _ w w Addr) by (unfold dev_get_drvdata; by rewrite <- Hd).
  rewrite (bind_val _ _ w w w) by reflexivity.
  rewrite (bind_val _ _ _ _ _ (gather_run _ _ _ w)), Htx, Hrx.
  rewrite (bind_val _ _ _ _ _ (store_be_val w b _ Hb)).
  erewrite bind_val by (apply store_be_val; reflexivity).
  rewrite (bind_val _ _ _ _ _ (bind_evtchn_run _ _ _)).
  cbn [ext set_be_cell].
  destruct (bool_decide (hd 0 (ext w) < 0)); [reflexivity |].
  erewrite bind_val by (apply store_be_val; reflexivity).
  rewrite (bind_val _ _ _ _ _ (bind_evtchn_run _ _ _)).
  cbn [ext set_be_cell add_log set_ext].
  destruct (bool_decide (hd 0 (tail (ext w)) < 0)); [reflexivity |].
  erewrite bind_val by (apply store_be_val; reflexivity).
  reflexivity.
Qed.

(** A Connect that finds everything and whose two binds succeed, field by
    field. *)
Lemma connect_run (w : world) (b : rswitch_vmq_back_info) (i j : nat)
    (tx_evt rx_evt tx rx : Z) (rest : list Z) :
  connectable w b i j →
  xs_scan (otherend (cfg w)) "tx-evtch" (xs w) = inr tx_evt →
  xs_scan (otherend (cfg w)) "rx-evtch" (xs w) = inr rx_evt →
  ext w = tx :: rx :: rest →
  0 ≤ tx → 0 ≤ rx →
  ∃ w', rswitch_vmq_back_connect w = (Val 0, w')
        ∧ log w' = log w ++ connect_calls tx_evt rx_evt tx rx i j
        ∧ be_cell w' = Some (connected_be tx_evt rx_evt tx rx b)
        ∧ rdev_cell w' = set_remote_chain (Z.of_nat j) <$> rdev_cell w
        ∧ ext w' = rest
        ∧ chains w' = chains w
        ∧ dev_drvdata w' = Addr
        ∧ dev_state w' = dev_state w
        ∧ cfg w' = cfg w
        ∧ xs w' = xs w.
Proof.
  intros (Hd & Hb & Hi & Hj & [ci Hci] & [cj Hcj] & Hr & [r Hrc]) Htx Hrx He H0tx H0rx.
  rewrite (connect_reads_channels w b tx_evt rx_evt Hd Hb Htx Hrx).
  rewrite He. cbn [hd tail].
  rewrite (bool_decide_eq_false_2 (tx < 0)) by lia.
  rewrite (bool_decide_eq_false_2 (rx < 0)) by lia.
  cbv zeta.
  destruct w as [c s d bc rc pr ch x xb xv e l].
  simpl in Hd, Hb, Hci, Hcj, Hrc, He. subst d bc rc e.
  destruct b as [bn bd br bf bt bx bp bte bre bti bri bo bi].
  simpl in Hi, Hj, Hr. subst bt bx br.
  eexists. split.
  - cbv [mbind M_bind load_be be_cell set_be_cell add_log set_ext
         rswitch_gwca_chain_register load_chain chains connected_be
         set_rx_irq set_tx_irq set_rx_evtchn set_tx_evtchn tx_chain rx_chain
         emit modify notify_remote_via_evtchn chain_index store_rdev load_rdev
         rdev rdev_cell mret M_ret
         cfg dev_state dev_drvdata priv_rdev xs xbt xs_versions ext log].
    repeat (rewrite ?Hci, ?Hcj; cbn iota beta zeta). reflexivity.
  - cbn. rewrite <- !app_assoc. done.
Qed.

(** X6. A Connect that finds the attachment, its chains and its local
    device, reads both channel numbers and gets both binds returns 0 after
    exactly these calls, in this order: bind tx, bind rx, register the tx
    chain with flag false and the rx chain with flag true, signal tx,
    signal rx. It records channels and handlers in the attachment and the
    rx chain's index as the local device's remote chain, and leaves the
    published state and the chain pool alone. *)
Theorem connect_binds_registers_then_signals (w : world)
    (b : rswitch_vmq_back_info) (i j : nat) (tx_evt rx_evt tx rx : Z)
    (rest : list Z) :
  connectable w b i j →
  xs_scan (otherend (cfg w)) "tx-evtch" (xs w) = inr tx_evt →
  xs_scan (otherend (cfg w)) "rx-evtch" (xs w) = inr rx_evt →
  ext w = tx :: rx :: rest →
  0 ≤ tx → 0 ≤ rx →
  ∃ w', rswitch_vmq_back_connect w = (Val 0, w')
        ∧ log w' = log w ++ connect_calls tx_evt rx_evt tx rx i j
        ∧ be_cell w' = Some (connected_be tx_evt rx_evt tx rx b)
        ∧ (remote_chain <$> rdev_cell w') = Some (Z.of_nat j)
        ∧ chains w' = chains w
        ∧ dev_state w' = dev_state w.
Proof.
  intros Hc Htx Hrx He H0tx H0rx.
  destruct (connect_run w b i j tx_evt rx_evt tx rx rest Hc Htx Hrx He H0tx H0rx)
    as (w' & Hrun & Hl & Hb & Hr & _ & Hch & _ & Hs & _).
  exists w'. do 3 (split; [done |]). split; [| done].
  destruct Hc as (_ & _ & _ & _ & _ & _ & _ & [r Hrc]).
  by rewrite Hr, Hrc.
Qed.

(** X7. When the first bind fails, Connect reports the error and returns
    it after that single bind: both channel numbers are already recorded in
    the attachment, no handler is, and no chain has been registered nor the
    frontend signalled. *)
Theorem connect_tx_bind_failure_binds_nothing (w : world)
    (b : rswitch_vmq_back_info) (tx_evt rx_evt err : Z) (rest : list Z) :
  dev_drvdata w = Addr →
  be_cell w = Some b →
  xs_scan (otherend (cfg w)) "tx-evtch" (xs w) = inr tx_evt →
  xs_scan (otherend (cfg w)) "rx-evtch" (xs w) = inr rx_evt →
  ext w = err :: rest →
  err < 0 →
  ∃ w', rswitch_vmq_back_connect w = (Val err, w')
        ∧ log w' = log w ++ [EvBind tx_evt TxInterrupt err; EvDevFatal err]
        ∧ be_cell w' = Some (set_rx_evtchn rx_evt (set_tx_evtchn tx_evt b))
        ∧ ext w' = rest.
Proof.
  intros Hd Hb Htx Hrx He Herr.
  rewrite (connect_reads_channels w b tx_evt rx_evt Hd Hb Htx Hrx).
  rewrite He. cbn [hd tail].
  rewrite (bool_decide_eq_true_2 (err < 0)) by lia.
  eexists. split; [reflexivity |]. cbn. rewrite <- app_assoc. done.
Qed.

Lemma connect_binds_registers_then_signals_witness :
  ∃ w', rswitch_vmq_back_connect (attached xs0 [5; 6]) = (Val 0, w')
        ∧ log w' = log (attached xs0 [5; 6]) ++ connect_calls 11 12 5 6 0 1.
Proof.
  destruct (connect_binds_registers_then_signals (attached xs0 [5; 6])
              (default be_zero (be_cell (attached xs0 [5; 6])))
              0 1 11 12 5 6 []) as (w' & Hrun & Hl & _).
  - unfold connectable.
    do 4 (split; [vm_compute; reflexivity |]).
    do 2 (split; [eexists; vm_compute; reflexivity |]).
    split; [vm_compute; reflexivity | eexists; vm_compute; reflexivity].
  - vm_compute; reflexivity.
  - vm_compute; reflexivity.
  - vm_compute; reflexivity.
  - lia.
  - lia.
  - exists w'. split; [exact Hrun | exact Hl].
Defined.

Lemma connect_tx_bind_failure_binds_nothing_witness :
  ∃ w', rswitch_vmq_back_connect (attached xs0 [- EINVAL]) = (Val (- EINVAL), w')
        ∧ log w' = log (attached xs0 [- EINVAL])
                   ++ [EvBind 11 TxInterrupt (- EINVAL); EvDevFatal (- EINVAL)].
Proof.
  destruct (connect_tx_bind_failure_binds_nothing (attached xs0 [- EINVAL])
              (default be_zero (be_cell (attached xs0 [- EINVAL])))
              11 12 (- EINVAL) []) as (w' & Hrun & Hl & _).
  - vm_compute; reflexivity.
  - vm_compute; reflexivity.
  - vm_compute; reflexivity.
  - vm_compute; reflexivity.
  - vm_compute; reflexivity.
  - reflexivity.
  - exists w'. split; [exact Hrun | exact Hl].
Defined.

(** X8. Connect followed by Disconnect: the two handlers Connect bound are
    unbound again, rx before tx, and the attachment ends with no handler
    while it keeps the channel numbers Connect read. Nothing else happens
    after Connect's own calls, and the published state is not touched. *)
Theorem connect_then_disconnect_unbinds_both (w : world)
    (b : rswitch_vmq_back_info) (i j : nat) (tx_evt rx_evt tx rx : Z)
    (rest : list Z) :
  connectable w b i j →
  xs_scan (otherend (cfg w)) "tx-evtch" (xs w) = inr tx_evt →
  xs_scan (otherend (cfg w)) "rx-evtch" (xs w) = inr rx_evt →
  ext w = tx :: rx :: rest →
  0 < tx → 0 < rx →
  ∃ w', (rswitch_vmq_back_connect;; rswitch_vmq_back_disconnect) w = (Val tt, w')
        ∧ log w' = log w ++ connect_calls tx_evt rx_evt tx rx i j
                         ++ [EvUnbind rx; EvUnbind tx]
        ∧ be_cell w' = Some (connected_be tx_evt rx_evt 0 0 b)
        ∧ dev_state w' = dev_state w.
Proof.
  intros Hc Htx Hrx He H0tx H0rx.
  destruct (connect_run w b i j tx_evt rx_evt tx rx rest Hc Htx Hrx He)
    as (w1 & Hrun & Hl & Hb & _ & _ & _ & Hd & Hs & _); [lia | lia |].
  destruct (disconnect_run w1 _ Hd Hb)
    as (w2 & Hrun2 & Hl2 & Hb2 & _ & Hs2 & _).
  exists w2. split; [by rewrite (bind_val _ _ _ _ _ Hrun) |].
  split; [| split; [by rewrite Hb2 | by rewrite Hs2]].
  rewrite Hl2, Hl, <- app_assoc. do 2 f_equal.
  unfold disconnect_unbinds, connected_be. cbn.
  rewrite !bool_decide_eq_true_2 by lia. done.
Qed.

Lemma connect_then_disconnect_unbinds_both_witness :
  ∃ w', (rswitch_vmq_back_connect;; rswitch_vmq_back_disconnect)
          (attached xs0 [5; 6]) = (Val tt, w')
        ∧ log w' = log (attached xs0 [5; 6]) ++ connect_calls 11 12 5 6 0 1
                   ++ [EvUnbind 6; EvUnbind 5].
Proof.
  destruct (connect_then_disconnect_unbinds_both (attached xs0 [5; 6])
              (default be_zero (be_cell (attached xs0 [5; 6])))
              0 1 11 12 5 6 []) as (w' & Hrun & Hl & _).
  - unfold connectable.
    do 4 (split; [vm_compute; reflexivity |]).
    do 2 (split; [eexists; vm_compute; reflexivity |]).
    split; [vm_compute; reflexivity | eexists; vm_compute; reflexivity].
  - vm_compute; reflexivity.
  - vm_compute; reflexivity.
  - vm_compute; reflexivity.
  - lia.
  - lia.
  - exists w'. split; [exact Hrun | exact Hl].
Defined.

(** X9. A data interrupt on a chain of the attachment, after Connect, is
    relayed on the two channels Connect read from the frontend's directory:
    rx first, then tx -- the reverse of the order in which Connect itself
    signalled them. *)
Theorem data_irq_after_connect_signals_read_channels (w : world)
    (b : rswitch_vmq_back_info) (i j k : nat) (ck : rswitch_gwca_chain)
    (tx_evt rx_evt tx rx : Z) (rest : list Z) :
  connectable w b i j →
  xs_scan (otherend (cfg w)) "tx-evtch" (xs w) = inr tx_evt →
  xs_scan (otherend (cfg w)) "rx-evtch" (xs w) = inr rx_evt →
  ext w = tx :: rx :: rest →
  0 ≤ tx → 0 ≤ rx →
  chains w !! k = Some ck →
  back_info ck = Addr →
  ∃ w', (rswitch_vmq_back_connect;; rswitch_vmq_back_data_irq (Some k)) w
        = (Val tt, w')
        ∧ log w' = log w ++ connect_calls tx_evt rx_evt tx rx i j
                         ++ [EvNotify rx_evt; EvNotify tx_evt].
Proof.
  intros Hc Htx Hrx He H0tx H0rx Hk Hbi.
  destruct (connect_run w b i j tx_evt rx_evt tx rx rest Hc Htx Hrx He H0tx H0rx)
    as (w1 & Hrun & Hl & Hb & _ & _ & Hch & _).
  rewrite (bind_val _ _ _ _ _ Hrun).
  unfold rswitch_vmq_back_data_irq.
  assert (Hload : load_chain (Some k) w1 = (Val ck, w1)).
  { unfold load_chain. by rewrite Hch, Hk. }
  rewrite (bind_val _ _ _ _ _ Hload). cbv zeta. rewrite Hbi.
  rewrite (bind_val _ _ _ _ _ (load_be_val w1 _ Hb)).
  rewrite (bind_val _ _ w1 (add_log (EvNotify rx_evt) w1) tt) by reflexivity.
  rewrite (bind_val _ _ _ _ _ (load_be_val (add_log (EvNotify rx_evt) w1) _ Hb)).
  eexists. split; [reflexivity |].
  cbn. rewrite Hl, <- !app_assoc. done.
Qed.

Lemma data_irq_after_connect_signals_read_channels_witness :
  ∃ w', (rswitch_vmq_back_connect;; rswitch_vmq_back_data_irq (Some 1%nat))
          (attached xs0 [5; 6]) = (Val tt, w')
        ∧ log w' = log (attached xs0 [5; 6]) ++ connect_calls 11 12 5 6 0 1
                   ++ [EvNotify 12; EvNotify 11].
Proof.
  destruct (data_irq_after_connect_signals_read_channels (attached xs0 [5; 6])
              (default be_zero (be_cell (attached xs0 [5; 6])))
              0 1 1 (default chain_free (chains (attached xs0 [5; 6]) !! 1%nat))
              11 12 5 6 []) as (w' & Hrun & Hl).
  - unfold connectable.
    do 4 (split; [vm_compute; reflexivity |]).
    do 2 (split; [eexists; vm_compute; reflexivity |]).
    split; [vm_compute; reflexivity | eexists; vm_compute; reflexivity].
  - vm_compute; reflexivity.
  - vm_compute; reflexivity.
  - vm_compute; reflexivity.
  - lia.
  - lia.
  - vm_compute; reflexivity.
  - vm_compute; reflexivity.
  - exists w'. split; [exact Hrun | exact Hl].
Defined.

(** ** Remove *)

Lemma gwca_put_run (k : nat) (c : rswitch_gwca_chain) (w : world) :
  chains w !! k = Some c →
  rswitch_gwca_put (Some k) w
  = (Val tt, add_log (EvGwcaPut k)
               (set_chains (<[k := set_chain_used false c]> (chains w)) w)).
Proof.
  intros H. unfold rswitch_gwca_put, store_chain, load_chain.
  cbv [mbind M_bind modify emit]. by rewrite H.
Qed.

(** The conditional release of one chain pointer. *)
Lemma put_if_set_run (c : option nat) (w : world) :
  (∀ k, c = Some k → is_Some (chains w !! k)) →
  ∃ w1, (if bool_decide (c ≠ None) then rswitch_gwca_put c else skip) w
        = (Val tt, w1)
        ∧ log w1 = log w ++ puts_of c
        ∧ be_cell w1 = be_cell w
        ∧ dev_drvdata w1 = dev_drvdata w
        ∧ dev_state w1 = dev_state w
        ∧ (∀ k, is_Some (chains w !! k) → is_Some (chains w1 !! k))
        ∧ (∀ k, c = Some k → chain_is_free w1 k)
        ∧ (∀ k, chain_is_free w k → chain_is_free w1 k)
        ∧ (∀ k, c ≠ Some k → chains w1 !! k = chains w !! k).
Proof.
  intros Hin. destruct c as [k |].
  - destruct (Hin k eq_refl) as [ck Hk].
    rewrite bool_decide_eq_true_2 by done.
    rewrite (gwca_put_run k ck w Hk). eexists. split; [reflexivity |].
    cbn. do 4 (split; [done |]).
    assert (Hlt : (k < length (chains w))%nat) by by eapply lookup_lt_Some.
    split; [| split].
    + intros k' Hk'. apply lookup_lt_is_Some. rewrite length_insert.
      by apply lookup_lt_is_Some.
    + intros ? [= <-]. unfold chain_is_free. cbn.
      by rewrite list_lookup_insert_eq.
    + split.
      * intros k'. unfold chain_is_free. cbn. intros Hf.
        destruct (decide (k = k')) as [<- |].
        -- by rewrite list_lookup_insert_eq.
        -- by rewrite list_lookup_insert_ne.
      * intros k' Hne. cbn. apply list_lookup_insert_ne. congruence.
  - rewrite bool_decide_eq_false_2 by (by intros []).
    exists w. cbn. rewrite app_nil_r. do 5 (split; [done |]).
    split; [done |]. split; [done |]. split; done.
Qed.

(** The first block of Remove: the teardown of the local device. *)
Lemma remove_detach_run (w : world) (b : rswitch_vmq_back_info) :
  dev_drvdata w = Addr →
  be_cell w = Some b →
  ∃ w1 b1,
    (if negb (rdev_is_null (rdev b)) then
       rswitch_vmq_back_disconnect;;
       b ← load_be Addr;
       rswitch_ndev_unregister
         ((RSWITCH_BACK_BASE_INDEX + if_num b) `mod` 2 ^ 32);;
       store_be Addr (set_rdev (RdevRaw 0))
     else skip) w = (Val tt, w1)
    ∧ log w1 = log w
               ++ (if rdev_is_null (rdev b) then []
                   else disconnect_unbinds b
                        ++ [EvNdevUnregister
                              ((RSWITCH_BACK_BASE_INDEX + if_num b) `mod` 2 ^ 32)])
    ∧ be_cell w1 = Some b1
    ∧ rx_chain b1 = rx_chain b ∧ tx_chain b1 = tx_chain b
    ∧ dev_drvdata w1 = Addr
    ∧ dev_state w1 = dev_state w
    ∧ chains w1 = chains w.
Proof.
  intros Hd Hb. destruct (rdev_is_null (rdev b)); cbn [negb].
  - exists w, b. unfold skip, mret, M_ret. rewrite app_nil_r. done.
  - destruct (disconnect_run_pool w b Hd Hb)
      as (w1 & Hrun & Hl & Hb1 & Hd1 & Hs1 & Hc1).
    rewrite (bind_val _ _ _ _ _ Hrun).
    rewrite (bind_val _ _ _ _ _ (load_be_val w1 _ Hb1)).
    set (e := EvNdevUnregister _).
    rewrite (bind_val _ _ w1 (add_log e w1) tt) by reflexivity.
    rewrite (store_be_val (add_log e w1) (unbound b) _ Hb1).
    exists (set_be_cell (Some (set_rdev (RdevRaw 0) (unbound b))) (add_log e w1)),
           (set_rdev (RdevRaw 0) (unbound b)).
    split; [reflexivity |].
    split.
    { change (log w1 ++ [e] = log w ++ disconnect_unbinds b ++ [e]).
      by rewrite Hl, <- app_assoc. }
    split; [reflexivity |]. split; [reflexivity |]. split; [reflexivity |].
    split; [exact Hd1 |]. split; [exact Hs1 | exact Hc1].
Qed.

(** X10. Remove on a device that carries an attachment returns 0 after
    these calls and no others: if the attachment has a local device (any
    value but NULL in the field, so an error pointer counts), the unbinds
    of Disconnect and the unregistration of index
    RSWITCH_BACK_BASE_INDEX + if_num; then the release of the rx chain and
    of the tx chain, each only if set; then the free of the attachment.
    Afterwards the driver data is NULL, the attachment is gone, each of
    its chains is free in the pool, and the published state is untouched. *)
Theorem remove_releases_everything (w : world) (b : rswitch_vmq_back_info) :
  dev_drvdata w = Addr →
  be_cell w = Some b →
  (∀ k, chain_of b k → is_Some (chains w !! k)) →
  ∃ w', rswitch_vmq_back_remove w = (Val 0, w')
        ∧ log w' = log w ++ remove_calls b
        ∧ be_cell w' = None
        ∧ dev_drvdata w' = Null
        ∧ dev_state w' = dev_state w
        ∧ (∀ k, chain_of b k → chain_is_free w' k).
Proof.
  intros Hd Hb Hin. unfold rswitch_vmq_back_remove.
  rewrite (bind_val _ _ w w Addr) by (unfold dev_get_drvdata; by rewrite <- Hd).
  rewrite (bind_val _ _ _ _ _ (load_be_val w b Hb)).
  destruct (remove_detach_run w b Hd Hb)
    as (w1 & b1 & Hrun1 & Hl1 & Hb1 & Hrx1 & Htx1 & Hd1 & Hs1 & Hc1).
  rewrite (bind_val _ _ _ _ _ Hrun1).
  rewrite (bind_val _ _ _ _ _ (load_be_val w1 b1 Hb1)).
  destruct (put_if_set_run (rx_chain b1) w1)
    as (w2 & Hrun2 & Hl2 & Hb2 & Hd2 & Hs2 & Hc2 & Hfree2 & _).
  { intros k Hk. rewrite Hc1. apply Hin. left. by rewrite <- Hrx1. }
  rewrite (bind_val _ _ _ _ _ Hrun2).
  rewrite Hb1 in Hb2.
  rewrite (bind_val _ _ _ _ _ (load_be_val w2 b1 Hb2)).
  destruct (put_if_set_run (tx_chain b1) w2)
    as (w3 & Hrun3 & Hl3 & Hb3 & Hd3 & Hs3 & _ & Hfree3 & Hkeep3 & _).
  { intros k Hk. apply Hc2. rewrite Hc1. apply Hin. right. by rewrite <- Htx1. }
  rewrite (bind_val _ _ _ _ _ Hrun3).
  eexists. split; [reflexivity |]. cbn.
  split.
  { rewrite Hl3, Hl2, Hl1, Hrx1, Htx1. unfold remove_calls.
    by rewrite <- !app_assoc. }
  do 2 (split; [done |]).
  split; [by rewrite Hs3, Hs2, Hs1 |].
  intros k [Hk | Hk]; unfold chain_is_free; cbn.
  - apply Hkeep3, Hfree2. by rewrite Hrx1.
  - apply Hfree3. by rewrite Htx1.
Qed.

Lemma remove_releases_everything_witness :
  ∃ w', rswitch_vmq_back_remove (attached xs0 []) = (Val 0, w')
        ∧ dev_drvdata w' = Null
        ∧ chain_is_free w' 0 ∧ chain_is_free w' 1.
Proof.
  destruct (remove_releases_everything (attached xs0 [])
              (default be_zero (be_cell (attached xs0 []))))
    as (w' & Hrun & _ & _ & Hd & _ & Hfree).
  - vm_compute; reflexivity.
  - vm_compute; reflexivity.
  - intros k [Hk | Hk]; vm_compute in Hk; injection Hk as <-;
      eexists; vm_compute; reflexivity.
  - exists w'. split; [exact Hrun |]. split; [exact Hd |].
    split; apply Hfree; [right | left]; vm_compute; reflexivity.
Defined.

(** ** The registration of the local device *)

(** X11. When the registration of the local device fails, either the
    allocation failed, the result is ERR_PTR(-ENOMEM) and nothing was
    called or written; or the calls were some set-up steps, then the undo
    of each step that had succeeded, latest first, then the free of the
    device. In the second case the device is gone, but its slot in the
    switch's table, written right after the allocation, still points at
    it: no path clears priv->rdev[RSWITCH_BACK_BASE_INDEX + index]. *)
Theorem ndev_register_failure_unwinds (index : Z) (w w' : world) (p : rdev_ptr) :
  rswitch_vmq_back_ndev_register Addr index w = (Val p, w') →
  p ≠ RdevAddr →
  (p = ERR_PTR (- ENOMEM) ∧ log w' = log w ∧ priv_rdev w' = priv_rdev w
   ∧ rdev_cell w' = rdev_cell w)
  ∨ (∃ ups, log w' = log w ++ ups ++ rev (flat_map ndev_undo ups) ++ [EvFreeNetdev]
            ∧ Forall (λ e, ndev_setup e = true) ups
            ∧ rdev_cell w' = None
            ∧ priv_rdev w' !! (RSWITCH_BACK_BASE_INDEX + index) = Some Addr).
Proof.
  destruct w as [c s d bc rc pr ch x xb xv e l].
  unfold rswitch_vmq_back_ndev_register, alloc_etherdev_mqs, register_netdev,
    rswitch_rxdmac_init, rswitch_txdmac_init, out_txdmac, out_rxdmac,
    out_reg_netdev, netif_napi_add, netif_napi_del, unregister_netdev,
    rswitch_rxdmac_free, free_netdev, store_rdev, load_rdev, pop_ext.
  cbv [mbind M_bind mret M_ret skip emit modify get_world
       ext rdev_cell set_rdev_cell set_priv_rdev set_ext add_log
       cfg dev_state dev_drvdata be_cell priv_rdev chains xs xbt xs_versions log].
  set (a0 := hd 0 e). set (e1 := tl e). set (a1 := hd 0 e1). set (e2 := tl e1).
  set (a2 := hd 0 e2). set (e3 := tl e2). set (a3 := hd 0 e3).
  intros H Hp.
  rewrite (bool_decide_eq_false_2 (Addr = Null)) in H by done.
  case_bool_decide as H0; cbn [rdev_is_null] in H.
  2: { rewrite bool_decide_eq_true_2 in H by done.
       left. injection H as <- <-. done. }
  right.
  case_bool_decide as H1; cbv beta in H.
  { injection H as <- <-. exists [EvNapiAdd; EvRegisterNetdev (hd 0 (tail e))].
    cbn. rewrite bool_decide_eq_false_2 by done. cbn.
    rewrite <- !app_assoc. split; [done |].
    split; [by repeat constructor |]. split; [done |].
    by rewrite lookup_insert_eq. }
  case_bool_decide as H2; cbv beta iota in H.
  { rewrite bool_decide_eq_true_2 in H by done. cbv beta in H.
    injection H as <- <-.
    exists [EvNapiAdd; EvRegisterNetdev (hd 0 (tail e));
            EvRxdmacInit (hd 0 (tail (tail e)))].
    cbn. rewrite H1. rewrite bool_decide_eq_true_2 by done.
    rewrite bool_decide_eq_true_2 by done. cbn.
    rewrite <- !app_assoc. split; [done |].
    split; [by repeat constructor |]. split; [done |].
    by rewrite lookup_insert_eq. }
  rewrite (bool_decide_eq_false_2 _ H2) in H. cbv beta iota in H.
  case_bool_decide as H3; cbv beta in H.
  { injection H as <- <-.
    exists [EvNapiAdd; EvRegisterNetdev (hd 0 (tail e));
            EvRxdmacInit (hd 0 (tail (tail e)));
            EvTxdmacInit (hd 0 (tail (tail (tail e))))].
    cbn. rewrite H1. rewrite bool_decide_eq_true_2 by done.
    rewrite bool_decide_eq_false_2 by done. cbn.
    rewrite <- !app_assoc. split; [done |].
    split; [by repeat constructor |]. split; [done |].
    by rewrite lookup_insert_eq. }
  injection H as <- <-. done.
Qed.

Lemma ndev_register_failure_unwinds_witness :
  ∃ w', rswitch_vmq_back_ndev_register Addr 2 (world0 ∅ [0; 0; - EINVAL])
        = (Val (ERR_PTR (- EINVAL)), w')
        ∧ rdev_cell w' = None
        ∧ priv_rdev w' !! (RSWITCH_BACK_BASE_INDEX + 2) = Some Addr.
Proof.
  exists (rswitch_vmq_back_ndev_register Addr 2 (world0 ∅ [0; 0; - EINVAL])).2.
  assert (Hrun : rswitch_vmq_back_ndev_register Addr 2 (world0 ∅ [0; 0; - EINVAL])
                 = (Val (ERR_PTR (- EINVAL)),
                    (rswitch_vmq_back_ndev_register Addr 2
                       (world0 ∅ [0; 0; - EINVAL])).2))
    by (vm_compute; reflexivity).
  split; [exact Hrun |].
  destruct (ndev_register_failure_unwinds 2 _ _ _ Hrun)
    as [(Hp & _) | (ups & _ & _ & Hr & Hs)].
  - discriminate.
  - discriminate Hp.
  - split; [exact Hr | exact Hs].
Defined.

(** ** What a successful Attach leaves *)

Lemma settled_refl (w : world) : settled w w.
Proof. split; [done |]. split; [done |]. intros b Hb. by exists b. Qed.

Lemma settled_trans (w1 w2 w3 : world) :
  settled w1 w2 → settled w2 w3 → settled w1 w3.
Proof.
  intros (Hc & Hd & Hb) (Hc' & Hd' & Hb').
  split; [congruence |]. split; [congruence |].
  intros b Hbe. destruct (Hb b Hbe) as (b1 & Hb1 & Ht1 & Hr1 & Ho1).
  destruct (Hb' b1 Hb1) as (b2 & Hb2 & Ht2 & Hr2 & Ho2).
  exists b2. split; [done |]. repeat split; congruence.
Qed.

Lemma steady_refl (w : world) : steady w w.
Proof. done. Qed.

Lemma steady_trans (w1 w2 w3 : world) :
  steady w1 w2 → steady w2 w3 → steady w1 w3.
Proof. intros (? & ? & ? & ?) (? & ? & ? & ?). repeat split; congruence. Qed.

Lemma steady_settled (w w' : world) : steady w w' → settled w w'.
Proof.
  intros (Hc & Hd & Hb & _). split; [done |]. split; [done |].
  intros b Hbe. exists b. by rewrite Hb.
Qed.

Lemma settled_store_be (p : pointer) f :
  (∀ b, tx_chain (f b) = tx_chain b ∧ rx_chain (f b) = rx_chain b
        ∧ osid (f b) = osid b) →
  keeps settled (store_be p f).
Proof.
  intros Hf w. unfold store_be, load_be. cbv [mbind M_bind].
  destruct p; [apply settled_refl |].
  destruct (be_cell w) as [b |] eqn:Hb; [| apply settled_refl].
  simpl. split; [done |]. split; [done |].
  intros b0 Hb0. rewrite Hb in Hb0. injection Hb0 as <-.
  exists (f b). split; [done |]. apply Hf.
Qed.

Ltac settled_world :=
  split; [done |]; split; [done |];
  let b := fresh "b" in let Hb := fresh "Hb" in
  intros b Hb; exists b; split; [exact Hb | done].

Ltac steady_world := by repeat split.

Ltac settled_tac :=
  unfold_services_but_store_be;
  keeps_prog_with ltac:(apply settled_store_be; intros ?; done)
    settled_refl settled_trans settled_world.

Ltac steady_tac :=
  unfold_services_but_store_be;
  keeps_prog steady_refl steady_trans steady_world.

Lemma settled_ndev_register (priv : pointer) (index : Z) :
  keeps settled (rswitch_vmq_back_ndev_register priv index).
Proof.
  unfold rswitch_vmq_back_ndev_register, out_txdmac, out_rxdmac, out_reg_netdev.
  settled_tac.
Qed.

Lemma reaches_fail_nonzero (P : world → Prop) (be : pointer) (err : Z)
    (Q : world → Prop) :
  err ≠ 0 → reaches P (probe_fail be err) (λ a w', a = 0 → Q w').
Proof.
  intros Herr w a w' _ Hrun Ha. apply probe_fail_val in Hrun. congruence.
Qed.

Lemma reaches_abort_nonzero (P : world → Prop) (be : pointer) (err : Z)
    (Q : world → Prop) :
  err ≠ 0 → reaches P (probe_abort_transaction be err) (λ a w', a = 0 → Q w').
Proof.
  intros Herr w a w' _ Hrun Ha. apply probe_abort_transaction_val in Hrun.
  congruence.
Qed.

Lemma reaches_load_rdev_of_be {B : Type} (P : world → Prop)
    (f : rswitch_vmq_back_info → rswitch_device → M B) (Q : B → world → Prop) :
  (∀ b r, rdev b = RdevAddr →
          reaches (λ w, P w ∧ be_cell w = Some b ∧ rdev_cell w = Some r) (f b r) Q) →
  reaches P (b ← load_be Addr; r ← load_rdev (rdev b); f b r) Q.
Proof.
  intros Hf w a w' HP Hrun.
  apply bind_inv in Hrun as (b & ? & Hb & Hrun). apply load_be_inv in Hb as [-> Hb].
  apply bind_inv in Hrun as (rd & ? & Hr & Hrun).
  assert (Hp : rdev b = RdevAddr).
  { unfold load_rdev in Hr. by destruct (rdev b). }
  apply load_rdev_inv in Hr as [-> Hrd].
  by apply (Hf b rd Hp w a w').
Qed.

Lemma reaches_pure {A : Type} (P P' : world → Prop) (φ : Prop) (m : M A)
    (Q : A → world → Prop) :
  (∀ w, P w → φ ∧ P' w) → (φ → reaches P' m Q) → reaches P m Q.
Proof.
  intros HP Hm w a w' Hw Hrun. destruct (HP w Hw) as [Hφ Hw'].
  by apply (Hm Hφ w a w').
Qed.

(** The publication changes neither the pool nor the attachment, and gets
    to its end only with a registered local device. *)
Lemma reaches_steady_publish (fuel : nat) (w0 : world) :
  reaches (steady w0) (probe_publish fuel Addr)
    (λ a w', a = 0 →
       steady w0 w'
       ∧ ∃ b, be_cell w' = Some b ∧ rdev b = RdevAddr ∧ is_Some (rdev_cell w')).
Proof.
  induction fuel as [| fuel IH]; simpl; [by intros w a w' _ Hrun |].
  unfold probe_publish_round.
  do 2 (apply (reaches_bind_keeps steady steady_trans); [solve [steady_tac] |];
        intros ?).
  destruct (bool_decide _) eqn:E;
    [apply bool_decide_eq_true in E; by apply reaches_fail_nonzero |]. clear E.
  do 3 (apply (reaches_bind_keeps steady steady_trans); [solve [steady_tac] |];
        intros ?).
  destruct (bool_decide _) eqn:E;
    [apply bool_decide_eq_true in E; by apply reaches_abort_nonzero |]. clear E.
  do 3 (apply (reaches_bind_keeps steady steady_trans); [solve [steady_tac] |];
        intros ?).
  destruct (bool_decide _) eqn:E;
    [apply bool_decide_eq_true in E; by apply reaches_abort_nonzero |]. clear E.
  (* be->rdev->rx_chain *)
  apply reaches_load_rdev_of_be. intros b rd Hp.
  apply (reaches_pure _ (steady w0)
           (be_cell w0 = Some b ∧ rdev_cell w0 = Some rd)).
  { intros w (HR & Hb & Hrd). split; [| exact HR].
    destruct HR as (_ & _ & <- & <-). done. }
  intros [Hb0 Hr0].
  apply (reaches_bind_keeps steady steady_trans); [solve [steady_tac] |]. intros ?.
  destruct (bool_decide _) eqn:E;
    [apply bool_decide_eq_true in E; by apply reaches_abort_nonzero |]. clear E.
  apply (reaches_bind_keeps steady steady_trans); [solve [steady_tac] |]. intros ?.
  destruct (bool_decide _); [apply IH |].
  destruct (bool_decide _) eqn:E.
  - apply bool_decide_eq_true in E.
    apply (reaches_bind_keeps steady steady_trans); [solve [steady_tac] |]. intros ?.
    by apply reaches_fail_nonzero.
  - apply (reaches_bind_keeps steady steady_trans); [solve [steady_tac] |]. intros ?.
    intros w r w' HR Hrun _. inversion Hrun. subst.
    split; [exact HR |]. exists b.
    destruct HR as (_ & _ & -> & ->). by rewrite Hr0.
Qed.

(** The part of Attach that follows the tagging of the chains. *)
Lemma reaches_settled_tail (fuel : nat) (w0 : world) (nm dir : string) :
  reaches (settled w0)
    (store_be Addr (set_name nm);;
     v ← xenbus_read_unsigned dir "if-num" 255;
     store_be Addr (set_if_num v);;
     b ← load_be Addr;
     p ← rswitch_vmq_back_ndev_register (rswitch_priv b) (int_of_u32 (if_num b));
     store_be Addr (set_rdev p);;
     b ← load_be Addr;
     if IS_ERR (rdev b) then
       let err := PTR_ERR (rdev b) in
       xenbus_dev_fatal err;;
       mret err
     else probe_publish fuel Addr)
    (λ a w', a = 0 →
       settled w0 w'
       ∧ ∃ b, be_cell w' = Some b ∧ rdev b = RdevAddr ∧ is_Some (rdev_cell w')).
Proof.
  pose proof settled_ndev_register.
  do 7 (apply (reaches_bind_keeps settled settled_trans); [solve [settled_tac] |];
        intros ?).
  destruct (IS_ERR _) eqn:Herr; cbv zeta.
  - apply (reaches_bind_keeps settled settled_trans); [solve [settled_tac] |].
    intros ?. apply reaches_ret_nonzero. by apply IS_ERR_nonzero.
  - intros w r w' HR Hrun Hr.
    destruct (reaches_steady_publish fuel w w r w' (steady_refl w) Hrun Hr)
      as [Hst Hb].
    split; [| exact Hb].
    eapply settled_trans; [exact HR | by apply steady_settled].
Qed.

Lemma kzalloc_be_exact (w w1 : world) :
  kzalloc_be w = (Val Addr, w1) →
  w1 = set_be_cell (Some be_zero) (set_ext (tail (ext w)) w).
Proof.
  unfold kzalloc_be, pop_ext. cbv [mbind M_bind mret M_ret modify].
  destruct (bool_decide _); [by intros [= <-] | done].
Qed.

Lemma find_priv_exact (w w1 : world) (p : pointer) :
  rswitch_find_priv w = (Val p, w1) → w1 = set_ext (tail (ext w)) w.
Proof.
  unfold rswitch_find_priv, pop_ext. cbv [mbind M_bind mret M_ret].
  by intros [= _ <-].
Qed.

Lemma gwca_get_exact (w w1 : world) (i : nat) :
  rswitch_gwca_get w = (Val (Some i), w1) →
  ∃ c, chains w !! i = Some c ∧ chain_used c = false
       ∧ w1 = add_log (EvGwcaGet i)
                (set_chains (<[i := set_chain_used true c]> (chains w)) w).
Proof.
  unfold rswitch_gwca_get. cbv [mbind M_bind get_world modify emit mret M_ret].
  destruct (list_find _ (chains w)) as [[k c] |] eqn:Hfind; [| done].
  intros [= <- <-]. apply list_find_Some in Hfind as (Hl & Hu & _).
  by exists c.
Qed.

Lemma store_chain_exact (i : nat) f (w w1 : world) (u : unit) :
  store_chain (Some i) f w = (Val u, w1) →
  ∃ c, chains w !! i = Some c ∧ w1 = set_chains (<[i := f c]> (chains w)) w.
Proof.
  unfold store_chain, load_chain. cbv [mbind M_bind modify].
  destruct (chains w !! i) as [c |]; [| done].
  intros H. inversion H. by exists c.
Qed.

Lemma lookup_insert_there (l : list rswitch_gwca_chain) (i : nat)
    (c x : rswitch_gwca_chain) :
  l !! i = Some c → <[i := x]> l !! i = Some x.
Proof. intros H. apply list_lookup_insert_eq. by eapply lookup_lt_Some. Qed.

Lemma fatal_ret_nonzero (err : Z) (w w' : world) :
  err ≠ 0 → (xenbus_dev_fatal err;; mret err) w ≠ (Val 0, w').
Proof. intros Herr H. injection H as H _. done. Qed.

Lemma insert_pair (l : list rswitch_gwca_chain) (i j : nat)
    (a b x : rswitch_gwca_chain) :
  i ≠ j → l !! i = Some a → l !! j = Some b →
  <[i := x]> l !! i = Some x ∧ <[i := x]> l !! j = Some b.
Proof.
  intros Hne Hi Hj. split; [by eapply lookup_insert_there |].
  by rewrite list_lookup_insert_ne.
Qed.

(** A successful Attach, in full: the attachment, its two chains and what
    became of the rest of the pool. *)
Lemma probe_success_run (fuel : nat) (w w' : world) :
  rswitch_vmq_back_probe fuel w = (Val 0, w') →
  ∃ b i j,
    wired w' b i j
    ∧ connectable w' b i j
    ∧ osid b = default 255 (xs_read_unsigned (xs w) (otherend (cfg w)) "osid")
    ∧ (∃ ci cj, chains w !! i = Some ci ∧ chain_used ci = false
                ∧ chains w !! j = Some cj ∧ chain_used cj = false)
    ∧ (∀ k, k ≠ i → k ≠ j → chains w' !! k = chains w !! k).
Proof.
  intros H. unfold rswitch_vmq_back_probe in H.
  apply bind_inv in H as (be & w1 & Hk & H).
  destruct be.
  { rewrite bool_decide_eq_true_2 in H by done.
    by apply fatal_ret_nonzero in H. }
  rewrite bool_decide_eq_false_2 in H by done.
  apply kzalloc_be_exact in Hk as ->.
  apply bind_inv in H as (? & w1d & Hk & H).
  apply store_be_inv in Hk as (bz & Hbz & ->).
  cbn in Hbz. injection Hbz as <-.
  apply bind_inv in H as (priv & w2 & Hk & H).
  apply find_priv_exact in Hk as ->.
  apply bind_inv in H as (? & w3 & Hk & H).
  apply store_be_inv in Hk as (b0 & Hb0 & ->).
  cbn in Hb0. injection Hb0 as <-.
  apply bind_inv in H as (b1 & ? & Hk & H).
  apply load_be_inv in Hk as [-> Hb1]. cbn in Hb1. injection Hb1 as <-.
  cbn [rswitch_priv set_rswitch_priv] in H.
  destruct priv.
  { rewrite bool_decide_eq_true_2 in H by done.
    by apply fatal_ret_nonzero in H. }
  rewrite bool_decide_eq_false_2 in H by done.
  (* the two chains *)
  apply bind_inv in H as (c1 & w4 & Hg1 & H).
  apply bind_inv in H as (? & w5 & Hk & H).
  apply store_be_inv in Hk as (b2 & Hb2 & ->).
  apply bind_inv in H as (c2 & w6 & Hg2 & H).
  apply bind_inv in H as (? & w7 & Hk & H).
  apply store_be_inv in Hk as (b3 & Hb3 & ->).
  apply bind_inv in H as (b4 & ? & Hk & H).
  apply load_be_inv in Hk as [-> Hb4]. cbn in Hb4. injection Hb4 as <-.
  destruct c2 as [j |].
  2: { apply probe_fail_val in H. done. }
  destruct c1 as [i |].
  2: { cbn [tx_chain rx_chain set_tx_chain set_rx_chain] in H.
       rewrite (bool_decide_eq_true_2 (tx_chain b3 = None)), orb_true_r in H.
       - apply probe_fail_val in H. done.
       - apply gwca_get_inv in Hg2 as (Hbe & _). rewrite Hbe in Hb3.
         cbn in Hb3. injection Hb3 as <-. done. }
  apply gwca_get_exact in Hg1 as (ci & Hi & Hfi & ->).
  cbn in Hb2. injection Hb2 as <-.
  apply gwca_get_exact in Hg2 as (cj & Hj & Hfj & ->).
  cbn in Hb3. injection Hb3 as <-.
  cbn [tx_chain rx_chain set_tx_chain set_rx_chain] in H.
  rewrite !bool_decide_eq_false_2 in H by done. cbn [orb] in H.
  cbn [chains set_chains add_log set_be_cell set_ext] in Hi, Hj.
  assert (Hne : i ≠ j).
  { intros <-. erewrite lookup_insert_there in Hj by exact Hi.
    injection Hj as <-. done. }
  assert (Hj0 : chains w !! j = Some cj)
    by (by rewrite list_lookup_insert_ne in Hj).
  destruct (insert_pair _ i j _ _ (set_chain_used true ci) Hne Hi Hj0)
    as [Hi1 Hj1].
  assert (Hne' : j ≠ i) by done.
  destruct (insert_pair _ j i _ _ (set_chain_used true cj) Hne' Hj1 Hi1)
    as [Hj2 Hi2].
  (* back_info and dir_tx *)
  apply bind_inv in H as (? & w8 & Hk & H).
  apply store_chain_exact in Hk as (c & Hc & ->).
  cbn [chains set_chains add_log set_be_cell set_ext] in Hc.
  rewrite Hi2 in Hc. injection Hc as <-.
  destruct (insert_pair _ i j _ _
              (set_back_info Addr (set_chain_used true ci)) Hne Hi2 Hj2)
    as [Hi3 Hj3].
  apply bind_inv in H as (? & w9 & Hk & H).
  apply store_chain_exact in Hk as (c & Hc & ->).
  cbn [chains set_chains add_log set_be_cell set_ext] in Hc.
  rewrite Hj3 in Hc. injection Hc as <-.
  destruct (insert_pair _ j i _ _
              (set_back_info Addr (set_chain_used true cj)) Hne' Hj3 Hi3)
    as [Hj4 Hi4].
  apply bind_inv in H as (? & w10 & Hk & H).
  apply store_chain_exact in Hk as (c & Hc & ->).
  cbn [chains set_chains add_log set_be_cell set_ext] in Hc.
  rewrite Hi4 in Hc. injection Hc as <-.
  destruct (insert_pair _ i j _ _
              (set_dir_tx true (set_back_info Addr (set_chain_used true ci)))
              Hne Hi4 Hj4)
    as [Hi5 Hj5].
  apply bind_inv in H as (? & w11 & Hk & H).
  apply store_chain_exact in Hk as (c & Hc & ->).
  cbn [chains set_chains add_log set_be_cell set_ext] in Hc.
  rewrite Hj5 in Hc. injection Hc as <-.
  destruct (insert_pair _ j i _ _
              (set_dir_tx false (set_back_info Addr (set_chain_used true cj)))
              Hne' Hj5 Hi5)
    as [Hj6 Hi6].
  (* driver data, owner id *)
  apply bind_inv in H as (? & w12 & Hk & H). injection Hk as _ <-.
  apply bind_inv in H as (wg & ? & Hk & H). injection Hk as <- <-.
  apply bind_inv in H as (v & ? & Hk & H). injection Hk as <- <-.
  apply bind_inv in H as (? & w13 & Hk & H).
  apply store_be_inv in Hk as (b5 & Hb5 & ->).
  cbn in Hb5. injection Hb5 as <-.
  apply bind_inv in H as (b6 & ? & Hk & H).
  apply load_be_inv in Hk as [-> Hb6]. cbn in Hb6. injection Hb6 as <-.
  cbn [tx_chain rx_chain osid set_osid set_tx_chain set_rx_chain] in H.
  apply bind_inv in H as (? & w14 & Hk & H).
  apply store_chain_exact in Hk as (c & Hc & ->).
  cbn [chains set_chains add_log set_be_cell set_ext set_dev_drvdata] in Hc.
  rewrite Hi6 in Hc. injection Hc as <-.
  destruct (insert_pair _ i j _ _
              (set_chain_osid
                 (default 255 (xs_read_unsigned (xs w) (otherend (cfg w)) "osid"))
                 (set_dir_tx true (set_back_info Addr (set_chain_used true ci))))
              Hne Hi6 Hj6)
    as [Hi7 Hj7].
  apply bind_inv in H as (? & w15 & Hk & H).
  apply store_chain_exact in Hk as (c & Hc & ->).
  cbn [chains set_chains add_log set_be_cell set_ext set_dev_drvdata] in Hc.
  rewrite Hj7 in Hc. injection Hc as <-.
  destruct (insert_pair _ j i _ _
              (set_chain_osid
                 (default 255 (xs_read_unsigned (xs w) (otherend (cfg w)) "osid"))
                 (set_dir_tx false (set_back_info Addr (set_chain_used true cj))))
              Hne' Hj7 Hi7)
    as [Hj8 Hi8].
  (* the rest leaves all this alone *)
  match type of H with
  | _ ?wA = _ =>
      destruct (reaches_settled_tail fuel wA _ _ wA 0 w' (settled_refl wA) H eq_refl)
        as ((Hch & Hdd & Hbe) & b & Hb & Hrd & Hrc)
  end.
  cbn [chains set_chains add_log set_be_cell set_ext set_dev_drvdata] in Hch.
  cbn [dev_drvdata set_chains add_log set_be_cell set_ext set_dev_drvdata] in Hdd.
  destruct (Hbe _ eq_refl) as (b' & Hb' & Htx & Hrx & Hos).
  rewrite Hb in Hb'. injection Hb' as <-.
  cbn in Htx, Hrx, Hos.
  exists b, i, j.
  assert (Hw : wired w' b i j).
  { split; [done |]. split; [done |]. split; [done |]. split; [done |].
    split; [done |]. rewrite Hos. unfold tagged. rewrite Hch.
    split; eexists; (split; [eassumption | done]). }
  split; [exact Hw |]. split.
  { unfold connectable. rewrite Hch.
    do 4 (split; [done |]). split; [by eexists |]. split; [by eexists |]. done. }
  split; [done |]. split; [by exists ci, cj |].
  intros k Hki Hkj. rewrite Hch.
  by rewrite !list_lookup_insert_ne by done.
Qed.

(** X12. When Attach returns 0, the device carries an attachment whose tx
    and rx chains are two different chains of the pool that were free
    before the call. Both are now handed out, point back at the
    attachment and carry its owner id -- the number under osid in the
    frontend's directory, or 255 -- and the tx chain alone is marked as tx.
    The attachment has a registered local device, so everything Connect
    and the data interrupt dereference is in place. *)
Theorem probe_success_wires_chains (fuel : nat) (w w' : world) :
  rswitch_vmq_back_probe fuel w = (Val 0, w') →
  ∃ b i j,
    wired w' b i j
    ∧ connectable w' b i j
    ∧ osid b = default 255 (xs_read_unsigned (xs w) (otherend (cfg w)) "osid")
    ∧ (∃ ci cj, chains w !! i = Some ci ∧ chain_used ci = false
                ∧ chains w !! j = Some cj ∧ chain_used cj = false).
Proof.
  intros H.
  destruct (probe_success_run fuel w w' H) as (b & i & j & Hw & Hc & Ho & Hf & _).
  by exists b, i, j.
Qed.

Lemma probe_success_wires_chains_witness :
  ∃ b i j, wired (attached xs0 []) b i j ∧ osid b = 5.
Proof.
  unfold attached.
  assert (H1 : (rswitch_vmq_back_probe 1
                  (world0 xs0 (replicate 11 0 ++ []))).1 = Val 0)
    by (vm_compute; reflexivity).
  assert (H5 : default 255
                 (xs_read_unsigned (xs (world0 xs0 (replicate 11 0 ++ [])))
                    (otherend (cfg (world0 xs0 (replicate 11 0 ++ []))))
                    "osid") = 5)
    by (vm_compute; reflexivity).
  destruct (rswitch_vmq_back_probe 1 (world0 xs0 (replicate 11 0 ++ [])))
    as [o w1] eqn:Hrun.
  cbn [fst] in H1. subst o. cbn [snd].
  destruct (probe_success_wires_chains 1 _ _ Hrun)
    as (b & i & j & Hw & _ & Ho & _).
  exists b, i, j. split; [exact Hw |]. rewrite Ho. exact H5.
Defined.

(** ** Attach on a pool that cannot give two chains *)

Lemma no_second_free (l : list rswitch_gwca_chain) (i : nat)
    (ci : rswitch_gwca_chain) :
  l !! i = Some ci →
  (∀ k c, k ≠ i → l !! k = Some c → chain_used c = true) →
  list_find (λ c, chain_used c = false) (<[i := set_chain_used true ci]> l) = None.
Proof.
  intros Hi Hall. apply list_find_None, Forall_lookup. intros k x Hk.
  destruct (decide (k = i)) as [-> |].
  - erewrite lookup_insert_there in Hk by exact Hi. injection Hk as <-. done.
  - rewrite list_lookup_insert_ne in Hk by done.
    rewrite (Hall k x); done.
Qed.

Lemma put_back (l : list rswitch_gwca_chain) (i : nat) (ci : rswitch_gwca_chain) :
  l !! i = Some ci → chain_used ci = false →
  <[i := set_chain_used false (set_chain_used true ci)]>
    (<[i := set_chain_used true ci]> l) = l.
Proof.
  intros Hi Hf. rewrite list_insert_insert_eq.
  apply list_insert_id. rewrite Hi. f_equal.
  destruct ci. simpl in *. by subst.
Qed.

Lemma kzalloc_be_run (w : world) :
  hd 0 (ext w) = 0 →
  kzalloc_be w = (Val Addr, set_be_cell (Some be_zero) (set_ext (tail (ext w)) w)).
Proof.
  intros H. unfold kzalloc_be, pop_ext. cbv [mbind M_bind mret M_ret modify].
  by rewrite bool_decide_eq_true_2.
Qed.

Lemma find_priv_run (w : world) :
  hd 0 (ext w) = 0 →
  rswitch_find_priv w = (Val Addr, set_ext (tail (ext w)) w).
Proof.
  intros H. unfold rswitch_find_priv, pop_ext. cbv [mbind M_bind mret M_ret].
  by rewrite bool_decide_eq_true_2.
Qed.

Lemma gwca_get_run_none (w : world) :
  list_find (λ c, chain_used c = false) (chains w) = None →
  rswitch_gwca_get w = (Val None, w).
Proof.
  intros H. unfold rswitch_gwca_get. cbv [mbind M_bind get_world]. by rewrite H.
Qed.

Lemma gwca_get_run_some (w : world) (i : nat) (ci : rswitch_gwca_chain) :
  list_find (λ c, chain_used c = false) (chains w) = Some (i, ci) →
  rswitch_gwca_get w
  = (Val (Some i),
     add_log (EvGwcaGet i)
       (set_chains (<[i := set_chain_used true ci]> (chains w)) w)).
Proof.
  intros H. unfold rswitch_gwca_get. cbv [mbind M_bind get_world]. by rewrite H.
Qed.

(** X13. Attach on a pool with at most one free chain, once the attachment
    is allocated and the switch found: it returns -ENODEV without
    reporting an error to the bus. The one free chain, if any, was taken
    and given back, so the pool is as it was; the driver data and the
    published state are untouched. *)
Theorem probe_short_pool_restores_pool (fuel : nat) (w : world) (rest : list Z) :
  ext w = 0 :: 0 :: rest →
  short_pool w →
  ∃ w', rswitch_vmq_back_probe fuel w = (Val (- ENODEV), w')
        ∧ log w' = log w ++ short_pool_calls w
        ∧ chains w' = chains w
        ∧ dev_drvdata w' = dev_drvdata w
        ∧ dev_state w' = dev_state w.
Proof.
  intros He Hshort. unfold short_pool in Hshort. unfold short_pool_calls.
  unfold rswitch_vmq_back_probe.
  rewrite (bind_val _ _ _ _ _ (kzalloc_be_run w ltac:(by rewrite He))).
  rewrite bool_decide_eq_false_2 by done.
  erewrite bind_val by (apply store_be_val; reflexivity).
  erewrite bind_val by (apply find_priv_run; cbn; by rewrite He).
  erewrite bind_val by (apply store_be_val; reflexivity).
  erewrite bind_val by (apply load_be_val; reflexivity).
  cbn [rswitch_priv set_rswitch_priv].
  rewrite bool_decide_eq_false_2 by done.
  destruct (list_find (λ c, chain_used c = false) (chains w))
    as [[i ci] |] eqn:Hfind.
  - (* one free chain *)
    erewrite bind_val by (apply gwca_get_run_some; exact Hfind).
    erewrite bind_val by (apply store_be_val; reflexivity).
    apply list_find_Some in Hfind as (Hi & Hfi & Hbefore).
    assert (Hnone : list_find (λ c, chain_used c = false)
                      (<[i := set_chain_used true ci]> (chains w)) = None).
    { apply no_second_free; [done |]. intros k ck Hk Hck.
      destruct (Hshort k i ck ci Hk Hck Hi) as [? | ?]; [done | congruence]. }
    erewrite bind_val by (apply gwca_get_run_none; exact Hnone).
    erewrite bind_val by (apply store_be_val; reflexivity).
    erewrite bind_val by (apply load_be_val; reflexivity).
    cbn [rx_chain tx_chain set_rx_chain set_tx_chain set_rswitch_priv set_dev
         be_zero].
    rewrite (bool_decide_eq_true_2 (None = None)) by done. cbn [orb].
    unfold probe_fail.
    erewrite bind_val by (apply load_be_val; reflexivity).
    cbn [rx_chain tx_chain set_rx_chain set_tx_chain set_rswitch_priv set_dev
         be_zero].
    rewrite (bool_decide_eq_false_2 (None ≠ None)) by (by intros []).
    erewrite bind_val by reflexivity.
    erewrite bind_val by (apply load_be_val; reflexivity).
    cbn [rx_chain tx_chain set_rx_chain set_tx_chain set_rswitch_priv set_dev
         be_zero].
    rewrite (bool_decide_eq_true_2 (Some i ≠ None)) by done.
    erewrite bind_val
      by (apply (gwca_put_run i (set_chain_used true ci));
          cbn; by eapply lookup_insert_there).
    eexists. split; [reflexivity |]. cbn.
    split; [by rewrite <- app_assoc |].
    split; [by apply put_back | done].
  - (* none *)
    erewrite bind_val by (apply gwca_get_run_none; exact Hfind).
    erewrite bind_val by (apply store_be_val; reflexivity).
    erewrite bind_val by (apply gwca_get_run_none; exact Hfind).
    erewrite bind_val by (apply store_be_val; reflexivity).
    erewrite bind_val by (apply load_be_val; reflexivity).
    cbn [rx_chain tx_chain set_rx_chain set_tx_chain set_rswitch_priv set_dev
         be_zero].
    rewrite (bool_decide_eq_true_2 (None = None)) by done. cbn [orb].
    unfold probe_fail.
    erewrite bind_val by (apply load_be_val; reflexivity).
    cbn [rx_chain tx_chain set_rx_chain set_tx_chain set_rswitch_priv set_dev
         be_zero].
    rewrite (bool_decide_eq_false_2 (None ≠ None)) by (by intros []).
    erewrite bind_val by reflexivity.
    erewrite bind_val by (apply load_be_val; reflexivity).
    cbn [rx_chain tx_chain set_rx_chain set_tx_chain set_rswitch_priv set_dev
         be_zero].
    rewrite (bool_decide_eq_false_2 (None ≠ None)) by (by intros []).
    erewrite bind_val by reflexivity.
    eexists. split; [reflexivity |]. cbn. by rewrite app_nil_r.
Qed.

Lemma probe_short_pool_restores_pool_witness :
  ∃ w', rswitch_vmq_back_probe 1 (set_chains [chain_free] (world0 xs0 [0; 0]))
        = (Val (- ENODEV), w')
        ∧ log w' = [EvGwcaGet 0; EvGwcaPut 0]
        ∧ chains w' = [chain_free].
Proof.
  destruct (probe_short_pool_restores_pool 1
              (set_chains [chain_free] (world0 xs0 [0; 0])) [])
    as (w' & Hrun & Hl & Hc & _).
  - reflexivity.
  - intros [| i] [| j] ci cj Hne Hi Hj; try done; cbn in Hi, Hj; discriminate.
  - exists w'. split; [exact Hrun |]. split; [exact Hl | exact Hc].
Defined.

(** ** Attach without memory or without a switch *)

(** X14. When the allocation of the attachment fails, Attach reports and
    returns -ENOMEM; when the allocation succeeds but there is no switch,
    it reports and returns -ENODEV. In both cases the report is its only
    call: the pool, the driver data and the published state are untouched.
    In the second case the attachment stays allocated with nothing
    pointing at it; it holds the device pointer stored right after the
    allocation and is zero otherwise. *)
Theorem probe_early_exit_acquires_nothing (fuel : nat) (w : world) :
  hd 0 (ext w) ≠ 0 ∨ hd 0 (tail (ext w)) ≠ 0 →
  ∃ err w',
    rswitch_vmq_back_probe fuel w = (Val err, w')
    ∧ err = (if bool_decide (hd 0 (ext w) = 0) then - ENODEV else - ENOMEM)
    ∧ log w' = log w ++ [EvDevFatal err]
    ∧ chains w' = chains w
    ∧ dev_drvdata w' = dev_drvdata w
    ∧ dev_state w' = dev_state w
    ∧ be_cell w'
      = (if bool_decide (hd 0 (ext w) = 0) then Some (set_dev Addr be_zero)
         else be_cell w).
Proof.
  intros H. unfold rswitch_vmq_back_probe.
  destruct (decide (hd 0 (ext w) = 0)) as [H0 | H0].
  - destruct H as [H | H1]; [done |].
    rewrite (bind_val _ _ _ _ _ (kzalloc_be_run w H0)).
    rewrite bool_decide_eq_false_2 by done.
    erewrite bind_val by (apply store_be_val; reflexivity).
    set (w1 := set_be_cell (Some (set_dev Addr be_zero))
                 (set_be_cell (Some be_zero) (set_ext (tail (ext w)) w))).
    assert (Hp : rswitch_find_priv w1
                 = (Val Null, set_ext (tail (tail (ext w))) w1)).
    { unfold rswitch_find_priv, pop_ext. cbv [mbind M_bind mret M_ret].
      subst w1. cbn [ext set_be_cell set_ext].
      by rewrite bool_decide_eq_false_2. }
    rewrite (bind_val _ _ _ _ _ Hp).
    erewrite bind_val by (apply store_be_val; reflexivity).
    erewrite bind_val by (apply load_be_val; reflexivity).
    cbn [rswitch_priv set_rswitch_priv].
    rewrite (bool_decide_eq_true_2 (Null = Null)) by done.
    rewrite (bool_decide_eq_true_2 _ H0).
    eexists _, _. split; [reflexivity |]. split; [done |]. cbn. done.
  - assert (Hk : kzalloc_be w = (Val Null, set_ext (tail (ext w)) w)).
    { unfold kzalloc_be, pop_ext. cbv [mbind M_bind mret M_ret].
      by rewrite bool_decide_eq_false_2. }
    rewrite (bind_val _ _ _ _ _ Hk).
    rewrite (bool_decide_eq_true_2 (Null = Null)) by done.
    rewrite (bool_decide_eq_false_2 _ H0).
    eexists _, _. split; [reflexivity |]. split; [done |]. cbn. done.
Qed.

Lemma probe_early_exit_acquires_nothing_witness :
  ∃ w', rswitch_vmq_back_probe 1 (world0 xs0 [0; 1]) = (Val (- ENODEV), w')
        ∧ be_cell w' = Some (set_dev Addr be_zero)
        ∧ dev_drvdata w' = Null.
Proof.
  destruct (probe_early_exit_acquires_nothing 1 (world0 xs0 [0; 1]))
    as (err & w' & Hrun & -> & _ & _ & Hd & _ & Hb).
  - right. cbn. lia.
  - exists w'. split; [exact Hrun |]. split; [exact Hb | exact Hd].
Defined.

(** ** The frontend callback *)

Lemma noted_refl (w : world) : noted w w.
Proof. intros b Hb. by exists b. Qed.

Lemma noted_trans (w1 w2 w3 : world) : noted w1 w2 → noted w2 w3 → noted w1 w3.
Proof.
  intros H1 H2 b Hb. destruct (H1 b Hb) as (b1 & Hb1 & Hf1).
  destruct (H2 b1 Hb1) as (b2 & Hb2 & Hf2). exists b2. split; congruence.
Qed.

Lemma noted_store_be (p : pointer) f :
  (∀ b, frontend_state (f b) = frontend_state b) → keeps noted (store_be p f).
Proof.
  intros Hf w. unfold store_be, load_be. cbv [mbind M_bind].
  destruct p; [apply noted_refl |].
  destruct (be_cell w) as [b |] eqn:Hb; [| apply noted_refl].
  simpl. intros b0 Hb0. rewrite Hb in Hb0. injection Hb0 as <-.
  exists (f b). split; [done | apply Hf].
Qed.

Ltac noted_world :=
  let b := fresh "b" in let Hb := fresh "Hb" in
  intros b Hb; exists b; split; [exact Hb | done].

Ltac noted_tac :=
  unfold_services_but_store_be;
  keeps_prog_with ltac:(apply noted_store_be; intros ?; done)
    noted_refl noted_trans noted_world.

Lemma noted_disconnect : keeps noted rswitch_vmq_back_disconnect.
Proof. unfold rswitch_vmq_back_disconnect. noted_tac. Qed.

Lemma noted_connect : keeps noted rswitch_vmq_back_connect.
Proof. unfold rswitch_vmq_back_connect. noted_tac. Qed.

Lemma noted_step (desired : xenbus_state) :
  keeps noted (set_backend_state_step desired).
Proof.
  intros w. rewrite step_refines_table. revert w.
  unfold table_step.
  pose proof noted_disconnect. pose proof noted_connect.
  noted_tac.
Qed.

Lemma noted_set_backend_state (fuel : nat) (desired : xenbus_state) :
  keeps noted (set_backend_state fuel desired).
Proof.
  induction fuel as [| fuel IH]; simpl.
  - noted_tac.
  - pose proof (noted_step desired). noted_tac.
Qed.

Lemma remove_inv (w w' : world) (r : Z) :
  rswitch_vmq_back_remove w = (Val r, w') →
  be_cell w' = None ∧ dev_drvdata w' = Null.
Proof.
  unfold rswitch_vmq_back_remove. intros H.
  do 7 (apply bind_inv in H as (? & ? & _ & H)).
  unfold kfree_be, dev_set_drvdata, emit in H.
  cbv [mbind M_bind modify mret M_ret] in H.
  injection H as _ <-. done.
Qed.

Lemma device_unregister_inv (w w' : world) (u : unit) :
  device_unregister w = (Val u, w') →
  be_cell w' = None ∧ dev_drvdata w' = Null.
Proof.
  unfold device_unregister. intros H.
  apply bind_inv in H as (? & ? & _ & H).
  apply bind_inv in H as (r & w1 & Hrem & H).
  injection H as _ <-. by eapply remove_inv.
Qed.

(** X15. Whenever the frontend callback returns: if it has unregistered
    the device -- the frontend is Unknown, or is Closed while the device is
    not online -- the teardown has freed the attachment and cleared the
    driver data; in every other case the attachment has the announced
    frontend state on record, whatever the state is (also one the callback
    has no case for) and whatever the state machine did. *)
Theorem frontend_changed_records_state_unless_gone (fuel : nat)
    (frontend : xenbus_state) (w w' : world) :
  rswitch_vmq_frontend_changed fuel frontend w = (Val tt, w') →
  if bool_decide (frontend = XenbusStateUnknown)
     || bool_decide (frontend = XenbusStateClosed) && negb (online (cfg w))
  then be_cell w' = None ∧ dev_drvdata w' = Null
  else (frontend_state <$> be_cell w') = Some frontend.
Proof.
  unfold rswitch_vmq_frontend_changed. intros H.
  apply bind_inv in H as (be & ? & Hk & H). injection Hk as <- <-.
  apply bind_inv in H as (? & w1 & Hk & H).
  assert (Hd : dev_drvdata w = Addr).
  { unfold store_be, load_be in Hk. cbv [mbind M_bind] in Hk.
    by destruct (dev_drvdata w). }
  rewrite Hd in Hk. apply store_be_inv in Hk as (b & Hb & ->).
  set (w0 := set_be_cell (Some (set_frontend_state frontend b)) w) in *.
  assert (Hrec : noted w0 w' → (frontend_state <$> be_cell w') = Some frontend).
  { intros Hn. destruct (Hn _ eq_refl) as (b' & Hb' & Hf).
    rewrite Hb'. cbn. by rewrite Hf. }
  pose proof (noted_set_backend_state fuel XenbusStateInitWait) as Hn1.
  pose proof (noted_set_backend_state fuel XenbusStateConnected) as Hn2.
  pose proof (noted_set_backend_state fuel XenbusStateClosing) as Hn3.
  pose proof (noted_set_backend_state fuel XenbusStateClosed) as Hn4.
  destruct frontend; cbn [bool_decide decide_rel orb andb].
  - (* Unknown *)
    rewrite bool_decide_eq_true_2 by done. cbn [orb].
    apply bind_inv in H as (? & w2 & _ & H). by eapply device_unregister_inv.
  - rewrite !bool_decide_eq_false_2 by done. cbn [orb andb].
    apply Hrec. eapply (keeps_val noted); [| exact H]. done.
  - rewrite !bool_decide_eq_false_2 by done. cbn [orb andb].
    apply Hrec. eapply (keeps_val noted); [| exact H]. noted_tac.
  - rewrite !bool_decide_eq_false_2 by done. cbn [orb andb].
    apply Hrec. eapply (keeps_val noted); [| exact H]. done.
  - rewrite !bool_decide_eq_false_2 by done. cbn [orb andb].
    apply Hrec. eapply (keeps_val noted); [| exact H]. done.
  - rewrite !bool_decide_eq_false_2 by done. cbn [orb andb].
    apply Hrec. eapply (keeps_val noted); [| exact H]. done.
  - (* Closed *)
    rewrite (bool_decide_eq_false_2 (XenbusStateClosed = XenbusStateUnknown))
      by done.
    rewrite bool_decide_eq_true_2 by done. cbn [orb andb].
    apply bind_inv in H as (? & w2 & Hset & H).
    pose proof (keeps_val noted _ _ _ _ Hn4 Hset) as Hnote.
    pose proof (keeps_val registered _ _ _ _
                  (registered_set_backend_state fuel XenbusStateClosed) Hset)
      as [Hcfg _].
    apply bind_inv in H as (on & ? & Hon & H).
    injection Hon as <- <-. rewrite Hcfg in H.
    change (cfg w0) with (cfg w) in H.
    destruct (online (cfg w)); cbn [negb].
    + injection H as <-. by apply Hrec.
    + apply bind_inv in H as (? & w3 & _ & H). by eapply device_unregister_inv.
  - rewrite !bool_decide_eq_false_2 by done. cbn [orb andb].
    apply Hrec. eapply (keeps_val noted); [| exact H]. noted_tac.
  - rewrite !bool_decide_eq_false_2 by done. cbn [orb andb].
    apply Hrec. eapply (keeps_val noted); [| exact H]. noted_tac.
Qed.

Lemma frontend_changed_records_state_unless_gone_witness :
  be_cell (rswitch_vmq_frontend_changed 2 XenbusStateUnknown
             (attached xs0 [])).2 = None
  ∧ dev_drvdata (rswitch_vmq_frontend_changed 2 XenbusStateUnknown
                   (attached xs0 [])).2 = Null.
Proof.
  assert (H1 : (rswitch_vmq_frontend_changed 2 XenbusStateUnknown
                  (attached xs0 [])).1 = Val tt)
    by (vm_compute; reflexivity).
  destruct (rswitch_vmq_frontend_changed 2 XenbusStateUnknown
              (attached xs0 [])) as [o w1] eqn:Hrun.
  cbn [fst] in H1. subst o. cbn [snd].
  exact (frontend_changed_records_state_unless_gone 2 _ _ _ Hrun).
Defined.

(** X16. The device is in InitWait and the frontend announces Initialised
    or Connected. When Connect finds everything and both binds succeed,
    the callback returns after Connect's calls and the publication of
    Connected, one iteration of the loop: the device is Connected and the
    attachment has the channels, the handlers and the announced state. *)
Theorem frontend_connected_brings_up (fuel : nat) (frontend : xenbus_state)
    (w : world) (b : rswitch_vmq_back_info) (i j : nat)
    (tx_evt rx_evt tx rx : Z) (rest : list Z) :
  frontend = XenbusStateInitialised ∨ frontend = XenbusStateConnected →
  dev_state w = XenbusStateInitWait →
  connectable w b i j →
  xs_scan (otherend (cfg w)) "tx-evtch" (xs w) = inr tx_evt →
  xs_scan (otherend (cfg w)) "rx-evtch" (xs w) = inr rx_evt →
  ext w = tx :: rx :: rest →
  0 ≤ tx → 0 ≤ rx →
  ∃ w', rswitch_vmq_frontend_changed (S fuel) frontend w = (Val tt, w')
        ∧ dev_state w' = XenbusStateConnected
        ∧ log w' = log w ++ connect_calls tx_evt rx_evt tx rx i j
                         ++ [EvSwitchState XenbusStateConnected]
        ∧ be_cell w'
          = Some (connected_be tx_evt rx_evt tx rx
                    (set_frontend_state frontend b)).
Proof.
  intros Hf Hs Hc Htx Hrx He H0tx H0rx.
  pose (b0 := set_frontend_state frontend b).
  pose (w0 := set_be_cell (Some b0) w).
  assert (Hc0 : connectable w0 b0 i j).
  { destruct Hc as (Hd & Hb & Hi & Hj & Hci & Hcj & Hr & Hrc).
    unfold connectable. subst w0 b0. cbn. done. }
  destruct (connect_run w0 b0 i j tx_evt rx_evt tx rx rest Hc0 Htx Hrx He H0tx H0rx)
    as (w1 & Hrun & Hl & Hb1 & _ & _ & _ & _ & Hs1 & _).
  assert (Hset : set_backend_state (S fuel) XenbusStateConnected w0
                 = (Val tt, add_log (EvSwitchState XenbusStateConnected)
                              (set_dev_state XenbusStateConnected w1))).
  { rewrite set_backend_state_unfold.
    rewrite bool_decide_eq_false_2
      by (subst w0; cbn [dev_state set_be_cell]; rewrite Hs; discriminate).
    rewrite step_refines_table. unfold table_step.
    cbv [mbind M_bind get_world].
    replace (dev_state w0) with XenbusStateInitWait by (by rewrite <- Hs).
    cbn [edge_table]. rewrite Hrun.
    rewrite bool_decide_eq_false_2 by (by intros ?).
    change (xenbus_switch_state XenbusStateConnected w1)
      with (@Val unit tt, add_log (EvSwitchState XenbusStateConnected)
                            (set_dev_state XenbusStateConnected w1)).
    cbv [mret M_ret]. by apply set_backend_state_done. }
  exists (add_log (EvSwitchState XenbusStateConnected)
            (set_dev_state XenbusStateConnected w1)).
  split.
  { unfold rswitch_vmq_frontend_changed.
    destruct Hc as (Hd & Hb & _).
    rewrite (bind_val _ _ w w Addr) by (unfold dev_get_drvdata; by rewrite <- Hd).
    rewrite (bind_val _ _ _ _ _ (store_be_val w b _ Hb)).
    destruct Hf as [-> | ->]; exact Hset. }
  split; [done |]. split; [| exact Hb1].
  cbn. rewrite Hl. subst w0. cbn. by rewrite <- app_assoc.
Qed.

Lemma frontend_connected_brings_up_witness :
  ∃ w', rswitch_vmq_frontend_changed 1 XenbusStateConnected (attached xs0 [5; 6])
        = (Val tt, w')
        ∧ dev_state w' = XenbusStateConnected.
Proof.
  destruct (frontend_connected_brings_up 0 XenbusStateConnected
              (attached xs0 [5; 6])
              (default be_zero (be_cell (attached xs0 [5; 6])))
              0 1 11 12 5 6 []) as (w' & Hrun & Hs & _).
  - by right.
  - vm_compute; reflexivity.
  - unfold connectable.
    do 4 (split; [vm_compute; reflexivity |]).
    do 2 (split; [eexists; vm_compute; reflexivity |]).
    split; [vm_compute; reflexivity | eexists; vm_compute; reflexivity].
  - vm_compute; reflexivity.
  - vm_compute; reflexivity.
  - vm_compute; reflexivity.
  - lia.
  - lia.
  - exists w'. split; [exact Hrun | exact Hs].
Defined.

(** ** Attach, then Remove *)

(** X17. Remove after a successful Attach returns 0 and undoes it as far
    as the pool and the device go: the driver data is NULL again, the
    attachment is freed, and every chain of the pool is handed out or free
    exactly as it was before Attach. *)
Theorem probe_then_remove_restores_pool (fuel : nat) (w w1 : world) :
  rswitch_vmq_back_probe fuel w = (Val 0, w1) →
  ∃ w2, rswitch_vmq_back_remove w1 = (Val 0, w2)
        ∧ dev_drvdata w2 = Null
        ∧ be_cell w2 = None
        ∧ ∀ k, (chain_used <$> chains w2 !! k) = (chain_used <$> chains w !! k).
Proof.
  intros Hprobe.
  destruct (probe_success_run fuel w w1 Hprobe)
    as (b & i & j & Hw & _ & _ & (ci & cj & Hi & Hfi & Hj & Hfj) & Hrest).
  destruct Hw as (Hd & Hb & Htx & Hrx & Hne & (ti & Hti & _) & (tj & Htj & _)).
  unfold rswitch_vmq_back_remove.
  rewrite (bind_val _ _ w1 w1 Addr) by (unfold dev_get_drvdata; by rewrite <- Hd).
  rewrite (bind_val _ _ _ _ _ (load_be_val w1 b Hb)).
  destruct (remove_detach_run w1 b Hd Hb)
    as (wa & b1 & Hrun1 & _ & Hb1 & Hrx1 & Htx1 & _ & _ & Hc1).
  rewrite (bind_val _ _ _ _ _ Hrun1).
  rewrite (bind_val _ _ _ _ _ (load_be_val wa b1 Hb1)).
  rewrite Hrx in Hrx1. rewrite Htx in Htx1.
  destruct (put_if_set_run (rx_chain b1) wa)
    as (wb & Hrun2 & _ & Hb2 & _ & _ & Hin2 & Hfree2 & _ & Hother2).
  { intros k Hk. rewrite Hc1. rewrite Hrx1 in Hk. injection Hk as <-. by eexists. }
  rewrite (bind_val _ _ _ _ _ Hrun2).
  rewrite Hb1 in Hb2.
  rewrite (bind_val _ _ _ _ _ (load_be_val wb b1 Hb2)).
  destruct (put_if_set_run (tx_chain b1) wb)
    as (wc & Hrun3 & _ & _ & _ & _ & _ & Hfree3 & Hkeep3 & Hother3).
  { intros k Hk. apply Hin2. rewrite Hc1. rewrite Htx1 in Hk.
    injection Hk as <-. by eexists. }
  rewrite (bind_val _ _ _ _ _ Hrun3).
  eexists. split; [reflexivity |]. cbn.
  split; [done |]. split; [done |].
  intros k.
  destruct (decide (k = i)) as [-> | Hki].
  { rewrite Hi. cbn. rewrite Hfi. by apply Hfree3. }
  destruct (decide (k = j)) as [-> | Hkj].
  { rewrite Hj. cbn. rewrite Hfj. apply Hkeep3. by apply Hfree2. }
  rewrite Hother3 by (rewrite Htx1; congruence).
  rewrite Hother2 by (rewrite Hrx1; congruence).
  rewrite Hc1. by rewrite Hrest.
Qed.

Lemma probe_then_remove_restores_pool_witness :
  ∃ w2, rswitch_vmq_back_remove (attached xs0 []) = (Val 0, w2)
        ∧ dev_drvdata w2 = Null
        ∧ be_cell w2 = None.
Proof.
  unfold attached.
  assert (H1 : (rswitch_vmq_back_probe 1
                  (world0 xs0 (replicate 11 0 ++ []))).1 = Val 0)
    by (vm_compute; reflexivity).
  destruct (rswitch_vmq_back_probe 1 (world0 xs0 (replicate 11 0 ++ [])))
    as [o w1] eqn:Hrun.
  cbn [fst] in H1. subst o. cbn [snd].
  destruct (probe_then_remove_restores_pool 1 _ _ Hrun)
    as (w2 & Hrem & Hd & Hb & _).
  exists w2. split; [exact Hrem |]. split; [exact Hd | exact Hb].
Defined.

(** ** A data interrupt on a chain without an attachment *)

(** X18. rswitch_vmq_back_data_irq does not check the chain's back
    pointer: on a chain of the pool that no attachment owns (the pointer is
    NULL), or whose attachment has been freed, it dereferences the pointer
    before it has signalled anything. *)
Theorem data_irq_without_attachment_oopses (k : nat) (c : rswitch_gwca_chain)
    (w : world) :
  chains w !! k = Some c →
  back_info c = Null ∨ be_cell w = None →
  rswitch_vmq_back_data_irq (Some k) w = (Oops, w).
Proof.
  intros Hk H. unfold rswitch_vmq_back_data_irq.
  assert (Hload : load_chain (Some k) w = (Val c, w)).
  { unfold load_chain. by rewrite Hk. }
  rewrite (bind_val _ _ _ _ _ Hload). cbv zeta.
  apply bind_oops. unfold load_be.
  destruct H as [-> | ->]; [done | by destruct (back_info c)].
Qed.

Lemma data_irq_without_attachment_oopses_witness :
  rswitch_vmq_back_data_irq (Some 2%nat) (attached xs0 [])
  = (Oops, attached xs0 []).
Proof.
  apply (data_irq_without_attachment_oopses 2
           (default chain_free (chains (attached xs0 []) !! 2%nat))).
  - vm_compute; reflexivity.
  - left. vm_compute; reflexivity.
Defined.

(** ** The frontend closes or disappears, from a state of the table *)

(** The whole of Remove on an attachment whose chains are in the pool. *)
Lemma remove_run (w : world) (b : rswitch_vmq_back_info) :
  dev_drvdata w = Addr →
  be_cell w = Some b →
  (∀ k, chain_of b k → is_Some (chains w !! k)) →
  ∃ w', rswitch_vmq_back_remove w = (Val 0, w')
        ∧ log w' = log w ++ remove_calls b
        ∧ be_cell w' = None
        ∧ dev_drvdata w' = Null
        ∧ dev_state w' = dev_state w.
Proof.
  intros Hd Hb Hin. unfold rswitch_vmq_back_remove.
  rewrite (bind_val _ _ w w Addr) by (unfold dev_get_drvdata; by rewrite <- Hd).
  rewrite (bind_val _ _ _ _ _ (load_be_val w b Hb)).
  destruct (remove_detach_run w b Hd Hb)
    as (w1 & b1 & Hrun1 & Hl1 & Hb1 & Hrx1 & Htx1 & Hd1 & Hs1 & Hc1).
  rewrite (bind_val _ _ _ _ _ Hrun1).
  rewrite (bind_val _ _ _ _ _ (load_be_val w1 b1 Hb1)).
  destruct (put_if_set_run (rx_chain b1) w1)
    as (w2 & Hrun2 & Hl2 & Hb2 & Hd2 & Hs2 & Hc2 & _).
  { intros k Hk. rewrite Hc1. apply Hin. left. by rewrite <- Hrx1. }
  rewrite (bind_val _ _ _ _ _ Hrun2).
  rewrite Hb1 in Hb2.
  rewrite (bind_val _ _ _ _ _ (load_be_val w2 b1 Hb2)).
  destruct (put_if_set_run (tx_chain b1) w2)
    as (w3 & Hrun3 & Hl3 & Hb3 & Hd3 & Hs3 & _).
  { intros k Hk. apply Hc2. rewrite Hc1. apply Hin. right. by rewrite <- Htx1. }
  rewrite (bind_val _ _ _ _ _ Hrun3).
  eexists. split; [reflexivity |]. cbn.
  split.
  { rewrite Hl3, Hl2, Hl1, Hrx1, Htx1. unfold remove_calls.
    by rewrite <- !app_assoc. }
  do 2 (split; [done |]). by rewrite Hs3, Hs2, Hs1.
Qed.

(** From each of the five states of the table, a frontend that closes or
    disappears takes the backend along the Closing/Closed path and no
    further, unless the device is to go: then the device is unregistered
    after the path, and the teardown frees the attachment. *)
Lemma frontend_gone_walks_closing_path (fuel : nat) (frontend : xenbus_state)
    (w : world) (b : rswitch_vmq_back_info) :
  (2 ≤ fuel)%nat →
  frontend = XenbusStateClosed ∨ frontend = XenbusStateUnknown →
  dev_drvdata w = Addr →
  be_cell w = Some b →
  machine_state (dev_state w) →
  (∀ k, chain_of b k → is_Some (chains w !! k)) →
  ∃ w1, rswitch_vmq_frontend_changed fuel frontend w = (Val tt, w1)
        ∧ dev_state w1 = XenbusStateClosed
        ∧ if bool_decide (frontend = XenbusStateClosed) && online (cfg w)
          then log w1 = log w
                        ++ closing_path (dev_state w)
                             (set_frontend_state frontend b)
               ∧ be_cell w1
                 = Some (after_closing (dev_state w)
                           (set_frontend_state frontend b))
          else log w1 = log w
                        ++ closing_path (dev_state w)
                             (set_frontend_state frontend b)
                        ++ EvDeviceUnregister
                           :: remove_calls
                                (after_closing (dev_state w)
                                   (set_frontend_state frontend b))
               ∧ be_cell w1 = None ∧ dev_drvdata w1 = Null.
Proof.
  intros Hfuel Hf Hd Hb Hs Hin.
  set (b0 := set_frontend_state frontend b).
  set (w0 := set_be_cell (Some b0) w).
  destruct (set_backend_state_closes fuel w0 b0 Hfuel Hd eq_refl Hs)
    as (w1 & Hrun & Hst & Hcfg & Hl & Hb1 & Hd1 & Hch).
  change (dev_state w0) with (dev_state w) in Hl, Hb1.
  change (log w0) with (log w) in Hl. change (cfg w0) with (cfg w) in Hcfg.
  change (chains w0) with (chains w) in Hch.
  set (b1 := after_closing (dev_state w) b0) in *.
  (* the attachment still has its chains, all in the pool *)
  assert (Hin1 : ∀ k, chain_of b1 k → is_Some (chains w1 !! k)).
  { intros k Hk. rewrite Hch. apply Hin.
    subst b1 b0. unfold chain_of in *. by destruct (dev_state w). }
  (* unregistration, from Closed *)
  assert (Hgo : ∃ w2, device_unregister w1 = (Val tt, w2)
                      ∧ dev_state w2 = XenbusStateClosed
                      ∧ log w2 = log w ++ closing_path (dev_state w) b0
                                 ++ EvDeviceUnregister :: remove_calls b1
                      ∧ be_cell w2 = None ∧ dev_drvdata w2 = Null).
  { destruct (remove_run (add_log EvDeviceUnregister w1) b1 Hd1 Hb1 Hin1)
      as (w2 & Hrem & Hl2 & Hb2 & Hd2 & Hs2).
    exists w2. split.
    { unfold device_unregister.
      rewrite (bind_val _ _ w1 (add_log EvDeviceUnregister w1) tt) by reflexivity.
      by rewrite (bind_val _ _ _ _ _ Hrem). }
    split; [by rewrite Hs2 |].
    split; [| done].
    rewrite Hl2. cbn. rewrite Hl, <- !app_assoc. done. }
  destruct Hgo as (w2 & Hgo & Hs2 & Hl2 & Hb2 & Hd2).
  unfold rswitch_vmq_frontend_changed.
  rewrite (bind_val _ _ w w Addr) by (unfold dev_get_drvdata; by rewrite <- Hd).
  rewrite (bind_val _ _ _ _ _ (store_be_val w b _ Hb)).
  fold b0 w0.
  destruct Hf as [-> | ->].
  - (* Closed *)
    rewrite (bind_val _ _ _ _ _ Hrun).
    rewrite (bind_val _ _ w1 w1 (online (cfg w1))) by reflexivity.
    rewrite Hcfg.
    rewrite bool_decide_eq_true_2 by done. cbn [andb].
    destruct (online (cfg w)).
    + exists w1. done.
    + rewrite (bind_val _ _ _ _ _ (set_backend_state_done fuel _ w1 Hst)).
      exists w2. done.
  - (* Unknown *)
    rewrite (bind_val _ _ _ _ _ Hrun).
    rewrite bool_decide_eq_false_2 by done. cbn [andb].
    exists w2. done.
Qed.
